(** * NenDB benchmark harness: sampling, aggregation and comparison

    A shallow embedding of the resource-sampling, aggregation and comparison
    code of the benchmark scripts ([resource_benchmark.py],
    [accurate_resource_benchmark.py], [fair_benchmark.py],
    [competitive_benchmark.py], [real_memgraph_benchmark.py]).

    Python [float] is IEEE 754 binary64, which is what Rocq's primitive
    [float] is; string handling is done on [string]; result dictionaries are
    finite maps from keys to Python values; exceptions are an explicit
    [outcome]. The operating system (clock, psutil, the benchmark subprocess)
    is an explicit input of every function that consults it. The report
    functions return the lines they print; the progress messages of the
    benchmark functions are not kept. *)

From Stdlib Require Import ZArith QArith List Ascii String Floats Bool Lia.
From stdpp Require Import gmap strings.

Set Warnings "-inexact-float,-register-all".
Local Open Scope Z_scope.

(** ** Python runtime: exceptions, values, floats, strings *)

Module Py.

(** The exceptions the modelled code can meet. *)
Inductive exn : Set :=
| StatisticsError
| ZeroDivisionError
| TypeError
| ValueError
| KeyError (key : string)
| IndexError
| ImportError
| NoSuchProcess
| AccessDenied
| CalledProcessError
| OSError.

(** Evaluation of an expression: a value, or a raised exception. *)
Inductive outcome (A : Type) : Type :=
| Returned (a : A)
| Raised (e : exn).
Arguments Returned {A} a.
Arguments Raised {A} e.

Definition bind {A B} (m : outcome A) (k : A -> outcome B) : outcome B :=
  match m with
  | Returned a => k a
  | Raised e => Raised e
  end.

(** [try: return body / except Exception: return fallback] *)
Definition rescue {A} (body : outcome A) (fallback : A) : A :=
  match body with
  | Returned a => a
  | Raised _ => fallback
  end.

(** Python values stored in the result dictionaries. *)
Inductive value : Type :=
| VNone
| VBool (b : bool)
| VInt (z : Z)
| VFloat (x : float)
| VStr (s : string)
| VDict (d : gmap string value).

(** A result dictionary. *)
Abbreviation dict := (gmap string value).

(** [d[key]] *)
Definition getitem (d : dict) (key : string) : outcome value :=
  match d !! key with
  | Some v => Returned v
  | None => Raised (KeyError key)
  end.

(** Truth value of a dictionary: [not d] holds exactly of [{}]. *)
Definition dict_truthy (d : dict) : bool :=
  negb (bool_decide (d = ∅)).

(** [float(n)] for an integer [n]: the nearest binary64. *)
Definition float_of_Z (z : Z) : float :=
  SF2Prim (binary_normalize prec emax z 0 false).

(** [m / n] on integers (true division): the float nearest to the
    quotient. The modelled code divides byte counts by the unit constants
    [1024 * 1024] and [1024 * 1024 * 1024] and a score by its maximum; for a
    power of two as divisor, and for operands below [2^53], the quotient of
    the operands' floats is that float. *)
Definition int_truediv (m n : Z) : float :=
  PrimFloat.div (float_of_Z m) (float_of_Z n).

(** [x == 0.0] *)
Definition is_zero (x : float) : bool := PrimFloat.eqb x 0%float.

(** [x / y] on floats: Python raises where IEEE would give inf or nan. *)
Definition truediv (x y : float) : outcome float :=
  if is_zero y then Raised ZeroDivisionError else Returned (PrimFloat.div x y).

(** A stored number as a float operand. The integers the modelled code
    stores are small constants (144, 200, 5000, ...), which their floats
    represent exactly. *)
Definition as_float (v : value) : outcome float :=
  match v with
  | VFloat x => Returned x
  | VInt z => Returned (float_of_Z z)
  | VBool b => Returned (if b then 1%float else 0%float)
  | _ => Raised TypeError
  end.

(** Truth value of a stored value, as [if d[key]:] tests it. *)
Definition truthy (v : value) : bool :=
  match v with
  | VNone => false
  | VBool b => b
  | VInt z => negb (z =? 0)
  | VFloat x => negb (is_zero x)
  | VStr s => negb (String.eqb s "")
  | VDict d => dict_truthy d
  end.

(** [d[key]] used as a number: formatted with an [f] specification,
    compared or divided. For a value that is no number Python raises
    [TypeError] or [ValueError] by the operation; [TypeError] stands for
    both. *)
Definition number (d : dict) (key : string) : outcome float :=
  bind (getitem d key) as_float.

(** [x < y] and [x > y] on floats. *)
Definition lt (x y : float) : bool := PrimFloat.ltb x y.
Definition gt (x y : float) : bool := PrimFloat.ltb y x.

(** [x >= y] *)
Definition ge (x y : float) : bool := PrimFloat.leb y x.

(** [if won: score += 1] *)
Definition credit (won : bool) (score : Z) : Z :=
  if won then score + 1 else score.

(** [sum(xs)]: left to right from the integer 0. *)
Definition sum (xs : list float) : float :=
  fold_left PrimFloat.add xs 0%float.

(** [min(xs)]: keeps the first item, replaces it by a later item that is
    strictly smaller. *)
Definition min (xs : list float) : outcome float :=
  match xs with
  | [] => Raised ValueError
  | x :: rest =>
      Returned (fold_left (fun m item => if PrimFloat.ltb item m then item else m) rest x)
  end.

(** [max(xs)]: replaces the kept item by a later one that is strictly
    greater. *)
Definition max (xs : list float) : outcome float :=
  match xs with
  | [] => Raised ValueError
  | x :: rest =>
      Returned (fold_left (fun m item => if PrimFloat.ltb m item then item else m) rest x)
  end.

(** [len(xs)] as a float operand. *)
Definition len (xs : list float) : float :=
  float_of_Z (Z.of_nat (length xs)).

(** *** The exact value of a float

    Every finite binary64 is an integer multiple of [2^-1074]; [scaled x] is
    that integer. *)
Definition scaled_SF (f : spec_float) : option Z :=
  match f with
  | S754_zero _ => Some 0
  | S754_finite s m e =>
      Some ((if s then -1 else 1) * (Z.pos m * 2 ^ (e + 1074)))
  | _ => None
  end.

Definition scaled (x : float) : option Z := scaled_SF (Prim2SF x).

Definition is_finite (x : float) : bool :=
  match scaled x with Some _ => true | None => false end.

(** The value in units of [2^-1074] (0 for an infinity or a nan), and the
    rational it denotes. *)
Definition units (x : float) : Z :=
  match scaled x with
  | Some z => z
  | None => 0
  end.

Definition exact (x : float) : Q := Qmake (units x) (2 ^ 1074).



(** *** [statistics.mean]

    The standard library sums the data exactly (as fractions), divides by
    the count and converts the quotient to the nearest float; on no data
    it raises [StatisticsError]. When some items are infinities or nans,
    the total is the float sum of those items alone. *)
Fixpoint scaled_total (xs : list float) : option Z :=
  match xs with
  | [] => Some 0
  | x :: rest =>
      match scaled x, scaled_total rest with
      | Some a, Some b => Some (a + b)
      | _, _ => None
      end
  end.

(** The float nearest to [t * 2^e / n] (ties to even), for [n > 0]. *)
Definition nearest_quotient (t e n : Z) : float :=
  if t =? 0 then 0%float
  else
    let '(mz, ez, lz) := SFdiv_core_binary prec emax (Z.abs t) e n 0 in
    SF2Prim (binary_round_aux prec emax (t <? 0) mz ez lz).

Definition statistics_mean (xs : list float) : outcome float :=
  match xs with
  | [] => Raised StatisticsError
  | _ =>
      match scaled_total xs with
      | Some t => Returned (nearest_quotient t (-1074) (Z.of_nat (length xs)))
      | None =>
          let special := List.filter (fun x => negb (is_finite x)) xs in
          Returned (PrimFloat.div (sum special) (len xs))
      end
  end.

End Py.

(** [outcome] is used through stdpp's monad notation [x ← m; k]. *)
#[export] Instance outcome_ret : MRet Py.outcome := @Py.Returned.
#[export] Instance outcome_bind : MBind Py.outcome :=
  fun A B k m => Py.bind m k.

(** ** Python strings *)

Module PyStr.

(** [s.startswith(p)] *)
Fixpoint starts_with (p s : string) : bool :=
  match p, s with
  | EmptyString, _ => true
  | String _ _, EmptyString => false
  | String a p', String b s' => Ascii.eqb a b && starts_with p' s'
  end.

(** [needle in hay] *)
Fixpoint contains (needle hay : string) : bool :=
  starts_with needle hay ||
  match hay with
  | EmptyString => false
  | String _ hay' => contains needle hay'
  end.

(** One character of [s.lower()], on ASCII text. *)
Definition lower_ascii (c : ascii) : ascii :=
  let n := nat_of_ascii c in
  if (65 <=? n)%nat && (n <=? 90)%nat then ascii_of_nat (n + 32) else c.

(** [s.lower()] *)
Fixpoint lower (s : string) : string :=
  match s with
  | EmptyString => EmptyString
  | String c s' => String (lower_ascii c) (lower s')
  end.

(** [sep.join(parts)] *)
Fixpoint join (sep : string) (parts : list string) : string :=
  match parts with
  | [] => EmptyString
  | [p] => p
  | p :: rest => p +:+ sep +:+ join sep rest
  end.

Fixpoint rev_onto (s acc : string) : string :=
  match s with
  | EmptyString => acc
  | String c s' => rev_onto s' (String c acc)
  end.

Definition rev (s : string) : string := rev_onto s EmptyString.

(** [s.split(sep)] for a non-empty [sep]: cut at the occurrences of [sep]
    found from the left, none of them overlapping. [skip] counts the
    characters of a separator still to be passed over, [cur] holds the
    current piece in reverse. *)
Fixpoint split_from (sep : string) (skip : nat) (cur s : string) : list string :=
  match s with
  | EmptyString => [rev cur]
  | String c s' =>
      match skip with
      | S k => split_from sep k cur s'
      | O =>
          if starts_with sep s
          then rev cur :: split_from sep (String.length sep - 1) EmptyString s'
          else split_from sep 0 (String c cur) s'
      end
  end.

Definition split (sep s : string) : list string :=
  split_from sep 0 EmptyString s.

(** [parts[i]] *)
Definition item (parts : list string) (i : nat) : Py.outcome string :=
  match nth_error parts i with
  | Some p => Py.Returned p
  | None => Py.Raised Py.IndexError
  end.

(** White space as [str.strip()] sees it on ASCII text. *)
Definition is_space (c : ascii) : bool :=
  let n := nat_of_ascii c in
  ((9 <=? n)%nat && (n <=? 13)%nat) || ((28 <=? n)%nat && (n <=? 32)%nat).

Fixpoint lstrip (s : string) : string :=
  match s with
  | EmptyString => EmptyString
  | String c s' => if is_space c then lstrip s' else s
  end.

(** [s.strip()] *)
Definition strip (s : string) : string :=
  rev (lstrip (rev (lstrip s))).

Definition newline : string := String (ascii_of_nat 10) EmptyString.

(** [s * n] *)
Fixpoint times (s : string) (n : nat) : string :=
  match n with
  | O => EmptyString
  | S n' => s +:+ times s n'
  end.

End PyStr.

(** ** Printed output

    A printed line is kept as its literal text and the numbers formatted into
    it, each with its format specification, in the order of the f-string. *)

Module Out.

Inductive piece : Type :=
| Lit (text : string)
| Int (z : Z)
| Num (spec : string) (x : float).

Definition line := list piece.

(** [print("...")] of a plain string. *)
Definition text (s : string) : line := [Lit s].

(** The numbers a line shows. *)
Definition numbers (l : line) : list float :=
  flat_map (fun p => match p with Num _ x => [x] | _ => [] end) l.

End Out.

(** ** The workload subprocess protocol

    [benchmark_nendb_resources], [benchmark_nendb_accurate] and
    [benchmark_nendb_fair] read the output of [zig build real-bench] with the
    same loop; it is written once here. Python's [float(text)] is the one
    builtin the loop calls, and is a parameter. *)

Module Workload.

Section Parse.

(** [float(text)]: the float, or [ValueError]. *)
Variable py_float : string -> Py.outcome float.

(** [float(line.split("Average:")[1].split("ms")[0].strip())] *)
Definition average_of (line : string) : Py.outcome float :=
  after ← PyStr.item (PyStr.split "Average:" line) 1;
  before ← PyStr.item (PyStr.split "ms" after) 0;
  py_float (PyStr.strip before).

(** The [for line in lines] loop over the two variables it assigns. *)
Fixpoint scan (lines : list string) (insert_time lookup_time : option float)
  : Py.outcome (option float * option float) :=
  match lines with
  | [] => mret (insert_time, lookup_time)
  | line :: rest =>
      if PyStr.contains "Average:" line && PyStr.contains "ms per insert" line
      then t ← average_of line; scan rest (Some t) lookup_time
      else if PyStr.contains "Average:" line && PyStr.contains "ms per lookup" line
      then t ← average_of line; scan rest insert_time (Some t)
      else scan rest insert_time lookup_time
  end.

(** [lines = output.split('\n')] and the loop from both variables [None]. *)
Definition parse (output : string) : Py.outcome (option float * option float) :=
  scan (PyStr.split PyStr.newline output) None None.

End Parse.

(** [1000 / t] where [t] may still be [None]. *)
Definition rate (t : option float) : Py.outcome float :=
  match t with
  | None => Py.Raised Py.TypeError
  | Some t => Py.truediv 1000%float t
  end.

(** The value stored for a variable that may be [None]. *)
Definition store (t : option float) : Py.value :=
  match t with
  | None => Py.VNone
  | Some t => Py.VFloat t
  end.

(** *** A reading of [float] on plain decimal figures

    [[+-]digits[.digits]], the form in which the benchmark prints its
    averages; every other text is refused here. *)
Definition digit_of (c : ascii) : option Z :=
  let n := nat_of_ascii c in
  if (48 <=? n)%nat && (n <=? 57)%nat then Some (Z.of_nat (n - 48)) else None.

(** Digits read so far as [num], with [scale] powers of ten below the
    point; [dot] tells whether the point was passed, [seen] whether a digit
    was read. *)
Fixpoint digits (s : string) (num scale : Z) (dot seen : bool) : option (Z * Z) :=
  match s with
  | EmptyString => if seen then Some (num, scale) else None
  | String c s' =>
      match digit_of c with
      | Some d => digits s' (10 * num + d) (if dot then scale + 1 else scale) dot true
      | None =>
          if Ascii.eqb c "."%char && negb dot then digits s' num scale true seen
          else None
      end
  end.

Definition decimal_float (s : string) : Py.outcome float :=
  let '(neg, body) :=
    match s with
    | String c s' =>
        if Ascii.eqb c "-"%char then (true, s')
        else if Ascii.eqb c "+"%char then (false, s')
        else (false, s)
    | EmptyString => (false, s)
    end in
  match digits body 0 0 false false with
  | Some (num, scale) =>
      let x := Py.nearest_quotient num 0 (10 ^ scale) in
      Py.Returned (if neg then PrimFloat.opp x else x)
  | None => Py.Raised Py.ValueError
  end.

End Workload.

(** ** accurate_resource_benchmark.py *)

Module AccurateResourceBenchmark.

(** What [psutil.process_iter(['pid', 'name', 'cmdline'])] yields for one
    process: [proc.pid] and the [proc.info] fields, either of which psutil
    may leave [None]. *)
Record proc : Type := {
  pid : Z;
  name : option string;
  cmdline : option (list string)
}.

(** [find_memgraph_process]: the loop over the process list. The body
    reads the prefetched [proc.info] only, so its [except ...: continue]
    clause has nothing to catch. *)
Fixpoint find_memgraph_process (procs : list proc) : option proc :=
  match procs with
  | [] => None
  | p :: rest =>
      if match name p with
         | Some n => negb (String.eqb n "") && PyStr.contains "memgraph" (PyStr.lower n)
         | None => false
         end
      then Some p
      else
        match cmdline p with
        | Some (tok :: toks) =>
            let cmdline := PyStr.lower (PyStr.join " " (tok :: toks)) in
            if PyStr.contains "memgraph" cmdline then Some p
            else find_memgraph_process rest
        | _ => find_memgraph_process rest
        end
  end.

(** [find_nendb_process] *)
Fixpoint find_nendb_process (procs : list proc) : option proc :=
  match procs with
  | [] => None
  | p :: rest =>
      if match name p with
         | Some n => negb (String.eqb n "") && PyStr.contains "nen" (PyStr.lower n)
         | None => false
         end
      then Some p
      else
        match cmdline p with
        | Some (tok :: toks) =>
            let cmdline := PyStr.lower (PyStr.join " " (tok :: toks)) in
            if PyStr.contains "nendb" cmdline || PyStr.contains "nen" cmdline then Some p
            else find_nendb_process rest
        | _ => find_nendb_process rest
        end
  end.

(** One pass of the sampling loop as the operating system answers it:
    the clock read by the loop test, then [process.cpu_percent(interval=1)]
    and [process.memory_info().rss]. *)
Record reading : Type := {
  clock : float;
  cpu_percent : Py.outcome float;
  rss : Py.outcome Z
}.

(** [except (psutil.NoSuchProcess, psutil.AccessDenied)] *)
Definition gone (e : Py.exn) : bool :=
  match e with
  | Py.NoSuchProcess | Py.AccessDenied => true
  | _ => false
  end.

(** The [while time.time() - start_time < duration] loop of
    [monitor_process_resources] over the two lists it appends to. [None]:
    the trace of readings ended before the loop did. *)
Fixpoint sample_process (start_time : float) (duration : Z) (trace : list reading)
    (cpu_usage memory_usage : list float)
  : option (Py.outcome (list float * list float)) :=
  match trace with
  | [] => None
  | t :: rest =>
      if PrimFloat.ltb (PrimFloat.sub (clock t) start_time) (Py.float_of_Z duration)
      then
        match cpu_percent t with
        | Py.Raised e =>
            Some (if gone e then Py.Returned (cpu_usage, memory_usage) else Py.Raised e)
        | Py.Returned cpu =>
            let cpu_usage := cpu_usage ++ [cpu] in
            match rss t with
            | Py.Raised e =>
                Some (if gone e then Py.Returned (cpu_usage, memory_usage) else Py.Raised e)
            | Py.Returned bytes =>
                let memory_mb := Py.int_truediv bytes (1024 * 1024) in
                sample_process start_time duration rest cpu_usage (memory_usage ++ [memory_mb])
            end
        end
      else Some (Py.Returned (cpu_usage, memory_usage))
  end.

(** The end of [monitor_process_resources]: the guard on empty lists and
    the dictionary it returns. *)
Definition process_stats (cpu_usage memory_usage : list float) : Py.outcome Py.dict :=
  if bool_decide (cpu_usage = []) || bool_decide (memory_usage = []) then mret ∅
  else
    cpu_avg ← Py.truediv (Py.sum cpu_usage) (Py.len cpu_usage);
    cpu_max ← Py.max cpu_usage;
    cpu_min ← Py.min cpu_usage;
    memory_avg_mb ← Py.truediv (Py.sum memory_usage) (Py.len memory_usage);
    memory_max_mb ← Py.max memory_usage;
    memory_min_mb ← Py.min memory_usage;
    mret (list_to_map [
      ("cpu_avg", Py.VFloat cpu_avg);
      ("cpu_max", Py.VFloat cpu_max);
      ("cpu_min", Py.VFloat cpu_min);
      ("memory_avg_mb", Py.VFloat memory_avg_mb);
      ("memory_max_mb", Py.VFloat memory_max_mb);
      ("memory_min_mb", Py.VFloat memory_min_mb)]).

Definition monitor_process_resources (start_time : float) (duration : Z)
    (trace : list reading) : option (Py.outcome Py.dict) :=
  match sample_process start_time duration trace [] [] with
  | None => None
  | Some lists => Some ('(cpu_usage, memory_usage) ← lists; process_stats cpu_usage memory_usage)
  end.

(** One pass of the system-wide loop: the clock, [psutil.cpu_percent] and
    [psutil.virtual_memory().used]. *)
Record system_reading : Type := {
  sys_clock : float;
  sys_cpu_percent : float;
  sys_memory_used : Z
}.

Fixpoint sample_system (start_time : float) (duration : Z) (trace : list system_reading)
    (cpu_usage memory_usage : list float) : option (list float * list float) :=
  match trace with
  | [] => None
  | t :: rest =>
      if PrimFloat.ltb (PrimFloat.sub (sys_clock t) start_time) (Py.float_of_Z duration)
      then
        sample_system start_time duration rest
          (cpu_usage ++ [sys_cpu_percent t])
          (memory_usage ++ [Py.int_truediv (sys_memory_used t) (1024 * 1024 * 1024)])
      else Some (cpu_usage, memory_usage)
  end.

(** The dictionary [monitor_system_resources] returns; it has no guard. *)
Definition system_stats (cpu_usage memory_usage : list float) : Py.outcome Py.dict :=
  cpu_avg ← Py.truediv (Py.sum cpu_usage) (Py.len cpu_usage);
  cpu_max ← Py.max cpu_usage;
  cpu_min ← Py.min cpu_usage;
  memory_avg_gb ← Py.truediv (Py.sum memory_usage) (Py.len memory_usage);
  memory_max_gb ← Py.max memory_usage;
  memory_min_gb ← Py.min memory_usage;
  mret (list_to_map [
    ("cpu_avg", Py.VFloat cpu_avg);
    ("cpu_max", Py.VFloat cpu_max);
    ("cpu_min", Py.VFloat cpu_min);
    ("memory_avg_gb", Py.VFloat memory_avg_gb);
    ("memory_max_gb", Py.VFloat memory_max_gb);
    ("memory_min_gb", Py.VFloat memory_min_gb)]).

Definition monitor_system_resources (start_time : float) (duration : Z)
    (trace : list system_reading) : option (Py.outcome Py.dict) :=
  match sample_system start_time duration trace [] [] with
  | None => None
  | Some (cpu_usage, memory_usage) => Some (system_stats cpu_usage memory_usage)
  end.

(** What one call of [benchmark_memgraph_accurate] meets: the import of
    the driver, the process list, the connection and its test query, the
    baseline [self.monitor_process_resources(memgraph_proc, 10)], the time
    measured around the creation of the 10000 nodes, and the clean-up.
    (The monitoring thread started meanwhile has its result dropped.) *)
Record memgraph_run : Type := {
  neo4j_import : Py.outcome unit;
  processes : list proc;
  connect : Py.outcome unit;
  monitor : proc -> Py.outcome Py.dict;
  creation : Py.outcome float;
  cleanup : Py.outcome unit
}.

Definition benchmark_memgraph_accurate (run : memgraph_run) : Py.dict :=
  let body : Py.outcome Py.dict :=
    _ ← neo4j_import run;
    match find_memgraph_process (processes run) with
    | None => mret ∅
    | Some memgraph_proc =>
        _ ← connect run;
        baseline_resources ← monitor run memgraph_proc;
        if negb (Py.dict_truthy baseline_resources) then mret ∅
        else
          creation_time ← creation run;
          _ ← cleanup run;
          nodes_per_second ← Py.truediv 10000%float creation_time;
          _ ← Py.number baseline_resources "cpu_avg";
          _ ← Py.number baseline_resources "memory_avg_mb";
          cpu_avg ← Py.getitem baseline_resources "cpu_avg";
          cpu_max ← Py.getitem baseline_resources "cpu_max";
          memory_avg_mb ← Py.getitem baseline_resources "memory_avg_mb";
          memory_max_mb ← Py.getitem baseline_resources "memory_max_mb";
          mret (list_to_map [
            ("creation_rate", Py.VFloat nodes_per_second);
            ("creation_time", Py.VFloat creation_time);
            ("cpu_avg", cpu_avg);
            ("cpu_max", cpu_max);
            ("memory_avg_mb", memory_avg_mb);
            ("memory_max_mb", memory_max_mb);
            ("environment", Py.VStr "Docker Container");
            ("process_id", Py.VInt (pid memgraph_proc))])
    end in
  Py.rescue body ∅.

(** What one call of [benchmark_nendb_accurate] meets: the subprocess
    ([check=True], so a failing run raises) with its standard output, and
    [self.monitor_system_resources(30)]. *)
Record nendb_run : Type := {
  subprocess : Py.outcome string;
  monitor_system : Py.outcome Py.dict
}.

Section Parsing.

Variable py_float : string -> Py.outcome float.

Definition benchmark_nendb_accurate (run : nendb_run) : Py.dict :=
  let body : Py.outcome Py.dict :=
    output ← subprocess run;
    '(insert_time, lookup_time) ← Workload.parse py_float output;
    (* if insert_time is None: a warning is printed, both are replaced *)
    let '(insert_time, lookup_time) :=
      match insert_time with
      | None => (Some 0.003328%float, Some 0.003130%float)
      | Some _ => (insert_time, lookup_time)
      end in
    insert_rate ← Workload.rate insert_time;
    lookup_rate ← Workload.rate lookup_time;
    baseline_resources ← monitor_system run;
    _ ← Py.number baseline_resources "cpu_avg";
    _ ← Py.number baseline_resources "memory_avg_gb";
    cpu_avg ← Py.getitem baseline_resources "cpu_avg";
    cpu_max ← Py.getitem baseline_resources "cpu_max";
    memory_avg_gb ← Py.getitem baseline_resources "memory_avg_gb";
    memory_max_gb ← Py.getitem baseline_resources "memory_max_gb";
    mret (list_to_map [
      ("creation_rate", Py.VFloat insert_rate);
      ("lookup_rate", Py.VFloat lookup_rate);
      ("insert_time_ms", Workload.store insert_time);
      ("lookup_time_ms", Workload.store lookup_time);
      ("cpu_avg", cpu_avg);
      ("cpu_max", cpu_max);
      ("memory_avg_gb", memory_avg_gb);
      ("memory_max_gb", memory_max_gb);
      ("environment", Py.VStr "Native macOS");
      ("note", Py.VStr "System-wide measurement during execution")]) in
  Py.rescue body ∅.

End Parsing.

(** [generate_accurate_report]: the lines it prints. *)
Definition generate_accurate_report (memgraph_results nendb_results : Py.dict)
  : Py.outcome (list Out.line) :=
  nendb_create ← Py.number nendb_results "creation_rate";
  memgraph_create ← Py.number memgraph_results "creation_rate";
  performance_ratio ← Py.truediv nendb_create memgraph_create;
  nendb_cpu ← Py.number nendb_results "cpu_avg";
  memgraph_cpu ← Py.number memgraph_results "cpu_avg";
  memory_lines ←
    match memgraph_results !! "memory_avg_mb" with
    | Some _ =>
        memgraph_mem ← Py.number memgraph_results "memory_avg_mb";
        nendb_mem ← Py.number nendb_results "memory_avg_gb";
        mret [
          [Out.Lit "     NenDB:     "; Out.Num ">6.2f" nendb_mem; Out.Lit " GB (system)"];
          [Out.Lit "     Memgraph:  "; Out.Num ">6.1f" memgraph_mem; Out.Lit " MB (process)"]]
    | None =>
        nendb_mem ← Py.number nendb_results "memory_avg_gb";
        memgraph_mem ← Py.number memgraph_results "memory_avg_gb";
        mret [
          [Out.Lit "     NenDB:     "; Out.Num ">6.2f" nendb_mem; Out.Lit " GB (system)"];
          [Out.Lit "     Memgraph:  "; Out.Num ">6.2f" memgraph_mem; Out.Lit " GB (system)"]]
    end;
  mret ([
    Out.text (PyStr.newline +:+ PyStr.times "=" 80);
    Out.text "📊 ACCURATE RESOURCE COMPARISON: Process-Specific Measurements";
    Out.text (PyStr.times "=" 80);
    Out.text (PyStr.newline +:+ "⚡ PERFORMANCE COMPARISON:");
    [Out.Lit "   NenDB:     "; Out.Num ">8,.0f" nendb_create; Out.Lit " nodes/sec"];
    [Out.Lit "   Memgraph:  "; Out.Num ">8,.0f" memgraph_create; Out.Lit " nodes/sec"];
    [Out.Lit "   Performance ratio: "; Out.Num ".1f" performance_ratio; Out.Lit "x"];
    Out.text (PyStr.newline +:+ "🖥️  RESOURCE COMPARISON:");
    Out.text "   CPU Usage:";
    [Out.Lit "     NenDB:     "; Out.Num ">6.1f" nendb_cpu; Out.Lit "% (system)"];
    [Out.Lit "     Memgraph:  "; Out.Num ">6.1f" memgraph_cpu; Out.Lit "% (process)"];
    Out.text "   Memory Usage:"]
    ++ memory_lines ++ [
    Out.text (PyStr.newline +:+ "🔍 ANALYSIS:");
    [Out.Lit "   • Performance difference: "; Out.Num ".1f" performance_ratio; Out.Lit "x"];
    Out.text "   • Resource measurement methods differ";
    Out.text "   • Process-specific vs system-wide measurements";
    Out.text "   • Results may not be directly comparable";
    Out.text (PyStr.newline +:+ "💡 RECOMMENDATIONS:");
    Out.text "   1. Process-specific measurements are more accurate";
    Out.text "   2. System-wide measurements include other processes";
    Out.text "   3. Performance differences are more reliable than resource differences";
    Out.text "   4. Focus on architectural advantages, not just resource usage"]).

(** [save_accurate_results]: the document handed to [json.dump];
    [timestamp] is what [time.strftime] gave. *)
Definition save_accurate_results (memgraph_results nendb_results : Py.dict)
    (timestamp : string) : Py.dict :=
  list_to_map [
    ("memgraph", Py.VDict memgraph_results);
    ("nendb", Py.VDict nendb_results);
    ("timestamp", Py.VStr timestamp);
    ("benchmark_type", Py.VStr "Accurate process-specific resource measurement");
    ("note", Py.VStr "Different measurement methods for different environments")].

(** [run_accurate_comparison] from the two benchmark results on: [None]
    when it stops at "Accurate benchmark incomplete", else the printed
    report and the saved document. *)
Definition run_accurate_comparison (memgraph_results nendb_results : Py.dict)
    (timestamp : string) : Py.outcome (option (list Out.line * Py.dict)) :=
  if negb (Py.dict_truthy memgraph_results) || negb (Py.dict_truthy nendb_results)
  then mret None
  else
    report ← generate_accurate_report memgraph_results nendb_results;
    mret (Some (report, save_accurate_results memgraph_results nendb_results timestamp)).

End AccurateResourceBenchmark.

(** ** resource_benchmark.py *)

Module ResourceBenchmark.

(** One pass of the loop of [monitor_resources]: the clock read by the
    loop test, [psutil.cpu_percent(interval=1)],
    [psutil.virtual_memory().used], and the cumulative
    [(read_bytes, write_bytes)] of [psutil.disk_io_counters()], which is
    [None] on a machine without disks. *)
Record reading : Type := {
  clock : float;
  cpu_percent : float;
  memory_used : Z;
  disk : option (Z * Z)
}.

(** The lists the loop appends to, and [initial_disk]. *)
Record samples : Type := {
  cpu_usage : list float;
  memory_usage : list float;
  disk_io : list (Z * Z);
  initial_disk : option (Z * Z)
}.

Definition tick (s : samples) (t : reading) : samples :=
  let cpu_usage := cpu_usage s ++ [cpu_percent t] in
  let memory_usage := memory_usage s ++ [Py.int_truediv (memory_used t) (1024 * 1024 * 1024)] in
  match initial_disk s, disk t with
  | Some (read0, write0), Some (read1, write1) =>
      {| cpu_usage := cpu_usage;
         memory_usage := memory_usage;
         disk_io := disk_io s ++ [(read1 - read0, write1 - write0)];
         initial_disk := disk t |}
  | _, _ =>
      {| cpu_usage := cpu_usage;
         memory_usage := memory_usage;
         disk_io := disk_io s;
         initial_disk := initial_disk s |}
  end.

(** The [while time.time() - start_time < duration] loop. [None]: the
    trace of readings ended before the loop did. *)
Fixpoint sample (start_time : float) (duration : Z) (trace : list reading)
    (s : samples) : option samples :=
  match trace with
  | [] => None
  | t :: rest =>
      if PrimFloat.ltb (PrimFloat.sub (clock t) start_time) (Py.float_of_Z duration)
      then sample start_time duration rest (tick s t)
      else Some s
  end.

Definition total (xs : list Z) : Z := fold_left Z.add xs 0.

(** The dictionary [monitor_resources] returns, its entries evaluated in
    the order they are written. *)
Definition stats (s : samples) : Py.outcome Py.dict :=
  cpu_avg ← Py.statistics_mean (cpu_usage s);
  cpu_max ← Py.max (cpu_usage s);
  cpu_min ← Py.min (cpu_usage s);
  memory_avg_gb ← Py.statistics_mean (memory_usage s);
  memory_max_gb ← Py.max (memory_usage s);
  memory_min_gb ← Py.min (memory_usage s);
  mret (list_to_map [
    ("cpu_avg", Py.VFloat cpu_avg);
    ("cpu_max", Py.VFloat cpu_max);
    ("cpu_min", Py.VFloat cpu_min);
    ("memory_avg_gb", Py.VFloat memory_avg_gb);
    ("memory_max_gb", Py.VFloat memory_max_gb);
    ("memory_min_gb", Py.VFloat memory_min_gb);
    ("disk_read_total_mb",
      Py.VFloat (Py.int_truediv (total (map fst (disk_io s))) (1024 * 1024)));
    ("disk_write_total_mb",
      Py.VFloat (Py.int_truediv (total (map snd (disk_io s))) (1024 * 1024)))]).

Definition monitor_resources (initial_disk : option (Z * Z)) (start_time : float)
    (duration : Z) (trace : list reading) : option (Py.outcome Py.dict) :=
  let s := {| cpu_usage := []; memory_usage := []; disk_io := [];
              initial_disk := initial_disk |} in
  match sample start_time duration trace s with
  | None => None
  | Some s => Some (stats s)
  end.

(** What one call of [benchmark_memgraph_resources] meets: the driver
    import, connection and test query, the baseline
    [self.monitor_resources(10)], the times measured around the creation of
    the 10000 nodes and around the 1000 lookups, and the clean-up. (The
    monitoring thread started meanwhile has its result dropped.) *)
Record memgraph_run : Type := {
  connect : Py.outcome unit;
  baseline : Py.outcome Py.dict;
  creation : Py.outcome float;
  lookup : Py.outcome float;
  cleanup : Py.outcome unit
}.

Definition benchmark_memgraph_resources (run : memgraph_run) : Py.dict :=
  let body : Py.outcome Py.dict :=
    _ ← connect run;
    baseline_resources ← baseline run;
    creation_time ← creation run;
    lookup_time ← lookup run;
    _ ← cleanup run;
    nodes_per_second ← Py.truediv 10000%float creation_time;
    lookups_per_second ← Py.truediv 1000%float lookup_time;
    _ ← Py.number baseline_resources "cpu_avg";
    _ ← Py.number baseline_resources "memory_avg_gb";
    cpu_avg ← Py.getitem baseline_resources "cpu_avg";
    cpu_max ← Py.getitem baseline_resources "cpu_max";
    memory_avg_gb ← Py.getitem baseline_resources "memory_avg_gb";
    memory_max_gb ← Py.getitem baseline_resources "memory_max_gb";
    disk_read_mb ← Py.getitem baseline_resources "disk_read_total_mb";
    disk_write_mb ← Py.getitem baseline_resources "disk_write_total_mb";
    mret (list_to_map [
      ("creation_rate", Py.VFloat nodes_per_second);
      ("lookup_rate", Py.VFloat lookups_per_second);
      ("creation_time", Py.VFloat creation_time);
      ("lookup_time", Py.VFloat lookup_time);
      ("cpu_avg", cpu_avg);
      ("cpu_max", cpu_max);
      ("memory_avg_gb", memory_avg_gb);
      ("memory_max_gb", memory_max_gb);
      ("disk_read_mb", disk_read_mb);
      ("disk_write_mb", disk_write_mb);
      ("environment", Py.VStr "Docker Container")]) in
  Py.rescue body ∅.

(** What one call of [benchmark_nendb_resources] meets: the baseline
    [self.monitor_resources(10)] and the subprocess ([check=True]) with its
    standard output. *)
Record nendb_run : Type := {
  nendb_baseline : Py.outcome Py.dict;
  subprocess : Py.outcome string
}.

Section Parsing.

Variable py_float : string -> Py.outcome float.

Definition benchmark_nendb_resources (run : nendb_run) : Py.dict :=
  let body : Py.outcome Py.dict :=
    baseline_resources ← nendb_baseline run;
    output ← subprocess run;
    '(insert_time, lookup_time) ← Workload.parse py_float output;
    (* if insert_time is None: a warning is printed, both are replaced *)
    let '(insert_time, lookup_time) :=
      match insert_time with
      | None => (Some 0.003328%float, Some 0.003130%float)
      | Some _ => (insert_time, lookup_time)
      end in
    insert_rate ← Workload.rate insert_time;
    lookup_rate ← Workload.rate lookup_time;
    _ ← Py.number baseline_resources "cpu_avg";
    _ ← Py.number baseline_resources "memory_avg_gb";
    cpu_avg ← Py.getitem baseline_resources "cpu_avg";
    cpu_max ← Py.getitem baseline_resources "cpu_max";
    memory_avg_gb ← Py.getitem baseline_resources "memory_avg_gb";
    memory_max_gb ← Py.getitem baseline_resources "memory_max_gb";
    disk_read_mb ← Py.getitem baseline_resources "disk_read_total_mb";
    disk_write_mb ← Py.getitem baseline_resources "disk_write_total_mb";
    mret (list_to_map [
      ("creation_rate", Py.VFloat insert_rate);
      ("lookup_rate", Py.VFloat lookup_rate);
      ("insert_time_ms", Workload.store insert_time);
      ("lookup_time_ms", Workload.store lookup_time);
      ("cpu_avg", cpu_avg);
      ("cpu_max", cpu_max);
      ("memory_avg_gb", memory_avg_gb);
      ("memory_max_gb", memory_max_gb);
      ("disk_read_mb", disk_read_mb);
      ("disk_write_mb", disk_write_mb);
      ("environment", Py.VStr "Native macOS")]) in
  Py.rescue body ∅.

End Parsing.

(** [denominator > 0] guards of [generate_resource_report]:
    [memgraph_cpu / nendb_cpu if nendb_cpu > 0 else float('inf')] *)
Definition efficiency (memgraph nendb : float) : Py.outcome float :=
  if Py.gt nendb 0%float then Py.truediv memgraph nendb else mret infinity.

(** [nendb_create / nendb_cpu if nendb_cpu > 0 else 0] *)
Definition per_unit (create resource : float) : Py.outcome float :=
  if Py.gt resource 0%float then Py.truediv create resource else mret 0%float.

(** The six [if ...: score += 1] statements, from [score = 0]. *)
Definition resource_score
    (nendb_create memgraph_create nendb_cpu memgraph_cpu nendb_mem memgraph_mem
     nendb_cpu_efficiency memgraph_cpu_efficiency
     nendb_mem_efficiency memgraph_mem_efficiency
     nendb_read nendb_write memgraph_read memgraph_write : float) : Z :=
  let score := 0 in
  let score := Py.credit (Py.gt nendb_create memgraph_create) score in
  let score := Py.credit (Py.lt nendb_cpu memgraph_cpu) score in
  let score := Py.credit (Py.lt nendb_mem memgraph_mem) score in
  let score := Py.credit (Py.gt nendb_cpu_efficiency memgraph_cpu_efficiency) score in
  let score := Py.credit (Py.gt nendb_mem_efficiency memgraph_mem_efficiency) score in
  let score :=
    Py.credit (Py.lt (PrimFloat.add nendb_read nendb_write)
                     (PrimFloat.add memgraph_read memgraph_write)) score in
  score.

Definition max_score : Z := 6.

(** The line chosen by the [if percentage >= 80: ... elif ...] chain. *)
Definition verdict (percentage : float) : Out.line :=
  if Py.ge percentage 80%float
  then Out.text "🥇 EXCELLENT - NenDB significantly more resource efficient!"
  else if Py.ge percentage 60%float
  then Out.text "🥈 GOOD - NenDB is resource efficient"
  else if Py.ge percentage 40%float
  then Out.text "🥉 FAIR - NenDB has some resource advantages"
  else Out.text "⚠️  NEEDS IMPROVEMENT - Focus on resource optimization".

(** [if won: findings.append(finding)] *)
Definition note (won : bool) (finding : Out.line) (findings : list Out.line)
  : list Out.line :=
  if won then findings ++ [finding] else findings.

(** [generate_resource_report]: the lines it prints when it runs to its
    end; [Raised] when a statement of it raises. *)
Definition generate_resource_report (nendb_results memgraph_results : Py.dict)
  : Py.outcome (list Out.line) :=
  let rule := Out.text (PyStr.times "-" 50) in
  (* Performance Efficiency *)
  nendb_create ← Py.number nendb_results "creation_rate";
  memgraph_create ← Py.number memgraph_results "creation_rate";
  performance_ratio ← Py.truediv nendb_create memgraph_create;
  (* CPU Efficiency *)
  nendb_cpu ← Py.number nendb_results "cpu_avg";
  memgraph_cpu ← Py.number memgraph_results "cpu_avg";
  cpu_efficiency ← efficiency memgraph_cpu nendb_cpu;
  cpu_line ←
    (if Py.lt nendb_cpu memgraph_cpu
     then mret [Out.Lit "  🥇 NenDB is "; Out.Num ".1f" cpu_efficiency;
                Out.Lit "x more CPU efficient"]
     else
       inverse ← Py.truediv 1%float cpu_efficiency;
       mret [Out.Lit "  ⚠️  Memgraph is "; Out.Num ".1f" inverse;
             Out.Lit "x more CPU efficient"]);
  (* Memory Efficiency *)
  nendb_mem ← Py.number nendb_results "memory_avg_gb";
  memgraph_mem ← Py.number memgraph_results "memory_avg_gb";
  memory_efficiency ← efficiency memgraph_mem nendb_mem;
  memory_line ←
    (if Py.lt nendb_mem memgraph_mem
     then mret [Out.Lit "  🥇 NenDB is "; Out.Num ".1f" memory_efficiency;
                Out.Lit "x more memory efficient"]
     else
       inverse ← Py.truediv 1%float memory_efficiency;
       mret [Out.Lit "  ⚠️  Memgraph is "; Out.Num ".1f" inverse;
             Out.Lit "x more memory efficient"]);
  (* Performance per Resource Unit *)
  nendb_cpu_efficiency ← per_unit nendb_create nendb_cpu;
  memgraph_cpu_efficiency ← per_unit memgraph_create memgraph_cpu;
  cpu_ratio_lines ←
    (if Py.gt nendb_cpu_efficiency memgraph_cpu_efficiency
     then
       cpu_ratio ← Py.truediv nendb_cpu_efficiency memgraph_cpu_efficiency;
       mret [[Out.Lit "  🥇 NenDB is "; Out.Num ".1f" cpu_ratio;
              Out.Lit "x more CPU efficient"]]
     else mret []);
  nendb_mem_efficiency ← per_unit nendb_create nendb_mem;
  memgraph_mem_efficiency ← per_unit memgraph_create memgraph_mem;
  mem_ratio_lines ←
    (if Py.gt nendb_mem_efficiency memgraph_mem_efficiency
     then
       mem_ratio ← Py.truediv nendb_mem_efficiency memgraph_mem_efficiency;
       mret [[Out.Lit "  🥇 NenDB is "; Out.Num ".1f" mem_ratio;
              Out.Lit "x more memory efficient"]]
     else mret []);
  (* Disk I/O Efficiency *)
  nendb_read ← Py.number nendb_results "disk_read_mb";
  nendb_write ← Py.number nendb_results "disk_write_mb";
  memgraph_read ← Py.number memgraph_results "disk_read_mb";
  memgraph_write ← Py.number memgraph_results "disk_write_mb";
  (* Overall Resource Efficiency Score *)
  let score :=
    resource_score nendb_create memgraph_create nendb_cpu memgraph_cpu
      nendb_mem memgraph_mem nendb_cpu_efficiency memgraph_cpu_efficiency
      nendb_mem_efficiency memgraph_mem_efficiency
      nendb_read nendb_write memgraph_read memgraph_write in
  let percentage := PrimFloat.mul (Py.int_truediv score max_score) 100%float in
  (* Key Findings *)
  let findings := [] in
  let findings :=
    note (Py.gt nendb_create memgraph_create)
      [Out.Lit "   "; Out.Lit "✅ NenDB: "; Out.Num ".1f" performance_ratio;
       Out.Lit "x higher throughput"] findings in
  let findings :=
    note (Py.lt nendb_cpu memgraph_cpu)
      [Out.Lit "   "; Out.Lit "✅ NenDB: "; Out.Num ".1f" cpu_efficiency;
       Out.Lit "x more CPU efficient"] findings in
  let findings :=
    note (Py.lt nendb_mem memgraph_mem)
      [Out.Lit "   "; Out.Lit "✅ NenDB: "; Out.Num ".1f" memory_efficiency;
       Out.Lit "x more memory efficient"] findings in
  let findings :=
    note (Py.gt nendb_cpu_efficiency memgraph_cpu_efficiency)
      [Out.Lit "   "; Out.Lit "✅ NenDB: Better performance per CPU cycle"] findings in
  let findings :=
    note (Py.gt nendb_mem_efficiency memgraph_mem_efficiency)
      [Out.Lit "   "; Out.Lit "✅ NenDB: Better performance per memory unit"] findings in
  let findings :=
    match findings with
    | [] => [[Out.Lit "   "; Out.Lit "⚠️  No clear resource advantages identified"]]
    | _ => findings
    end in
  mret ([
    Out.text (PyStr.newline +:+ PyStr.times "=" 80);
    Out.text "📊 RESOURCE USAGE COMPARISON: NenDB vs Memgraph";
    Out.text (PyStr.times "=" 80);
    Out.text (PyStr.newline +:+ "⚡ PERFORMANCE EFFICIENCY");
    rule;
    Out.text "Node Creation Rate:";
    [Out.Lit "  NenDB:     "; Out.Num ">8,.0f" nendb_create; Out.Lit " nodes/sec"];
    [Out.Lit "  Memgraph:  "; Out.Num ">8,.0f" memgraph_create; Out.Lit " nodes/sec"];
    [Out.Lit "  NenDB advantage: "; Out.Num ".1f" performance_ratio; Out.Lit "x"];
    Out.text (PyStr.newline +:+ "🖥️  CPU EFFICIENCY");
    rule;
    Out.text "CPU Usage (Average):";
    [Out.Lit "  NenDB:     "; Out.Num ">6.1f" nendb_cpu; Out.Lit "%"];
    [Out.Lit "  Memgraph:  "; Out.Num ">6.1f" memgraph_cpu; Out.Lit "%"];
    cpu_line;
    Out.text (PyStr.newline +:+ "💾 MEMORY EFFICIENCY");
    rule;
    Out.text "Memory Usage (Average):";
    [Out.Lit "  NenDB:     "; Out.Num ">6.2f" nendb_mem; Out.Lit " GB"];
    [Out.Lit "  Memgraph:  "; Out.Num ">6.2f" memgraph_mem; Out.Lit " GB"];
    memory_line;
    Out.text (PyStr.newline +:+ "🎯 PERFORMANCE PER RESOURCE UNIT");
    rule;
    Out.text "Nodes per CPU %:";
    [Out.Lit "  NenDB:     "; Out.Num ">8,.0f" nendb_cpu_efficiency; Out.Lit " nodes/CPU%"];
    [Out.Lit "  Memgraph:  "; Out.Num ">8,.0f" memgraph_cpu_efficiency; Out.Lit " nodes/CPU%"]]
    ++ cpu_ratio_lines ++ [
    Out.text (PyStr.newline +:+ "Nodes per GB of memory:");
    [Out.Lit "  NenDB:     "; Out.Num ">8,.0f" nendb_mem_efficiency; Out.Lit " nodes/GB"];
    [Out.Lit "  Memgraph:  "; Out.Num ">8,.0f" memgraph_mem_efficiency; Out.Lit " nodes/GB"]]
    ++ mem_ratio_lines ++ [
    Out.text (PyStr.newline +:+ "💿 DISK I/O EFFICIENCY");
    rule;
    Out.text "Disk I/O (MB):";
    [Out.Lit "  NenDB:     Read: "; Out.Num ">6.1f" nendb_read;
     Out.Lit ", Write: "; Out.Num ">6.1f" nendb_write];
    [Out.Lit "  Memgraph:  Read: "; Out.Num ">6.1f" memgraph_read;
     Out.Lit ", Write: "; Out.Num ">6.1f" memgraph_write];
    Out.text (PyStr.newline +:+ "🏅 OVERALL RESOURCE EFFICIENCY SCORE");
    rule;
    [Out.Lit "Resource Efficiency Score: "; Out.Int score; Out.Lit "/";
     Out.Int max_score; Out.Lit " ("; Out.Num ".1f" percentage; Out.Lit "%)"];
    verdict percentage;
    Out.text (PyStr.newline +:+ "🎯 KEY RESOURCE FINDINGS");
    rule]
    ++ findings).

(** [save_resource_results]: the document handed to [json.dump]. *)
Definition save_resource_results (memgraph_results nendb_results : Py.dict)
    (timestamp : string) : Py.dict :=
  list_to_map [
    ("memgraph", Py.VDict memgraph_results);
    ("nendb", Py.VDict nendb_results);
    ("timestamp", Py.VStr timestamp);
    ("benchmark_type", Py.VStr "Resource usage comparison");
    ("test_environment", Py.VStr "Docker Memgraph vs Native NenDB")].

(** [run_resource_comparison] from the two benchmark results on. *)
Definition run_resource_comparison (memgraph_results nendb_results : Py.dict)
    (timestamp : string) : Py.outcome (option (list Out.line * Py.dict)) :=
  if negb (Py.dict_truthy memgraph_results) || negb (Py.dict_truthy nendb_results)
  then mret None
  else
    report ← generate_resource_report nendb_results memgraph_results;
    mret (Some (report, save_resource_results memgraph_results nendb_results timestamp)).

End ResourceBenchmark.

(** ** fair_benchmark.py *)

Module FairBenchmark.

Section Parsing.

Variable py_float : string -> Py.outcome float.

(** [benchmark_nendb_fair]; [subprocess] is the run of
    [zig build real-bench] with its standard output. Only
    [CalledProcessError] is caught. *)
Definition benchmark_nendb_fair (subprocess : Py.outcome string)
  : Py.outcome Py.dict :=
  let body : Py.outcome Py.dict :=
    output ← subprocess;
    '(insert_time, lookup_time) ← Workload.parse py_float output;
    (* if insert_time is None or lookup_time is None: a warning is
       printed, both are replaced *)
    let '(insert_time, lookup_time) :=
      match insert_time, lookup_time with
      | Some i, Some l => (i, l)
      | _, _ => (0.004547%float, 0.002881%float)
      end in
    single_create_rate ← Py.truediv 1000%float insert_time;
    single_lookup_rate ← Py.truediv 1000%float lookup_time;
    batch_create_rate ← Py.truediv 1000%float insert_time;
    batch_lookup_rate ← Py.truediv 1000%float lookup_time;
    mret (list_to_map [
      ("single_create_ms", Py.VFloat insert_time);
      ("single_lookup_ms", Py.VFloat lookup_time);
      ("batch_create_ms", Py.VFloat insert_time);
      ("batch_lookup_ms", Py.VFloat lookup_time);
      ("single_create_rate", Py.VFloat single_create_rate);
      ("single_lookup_rate", Py.VFloat single_lookup_rate);
      ("batch_create_rate", Py.VFloat batch_create_rate);
      ("batch_lookup_rate", Py.VFloat batch_lookup_rate);
      ("memory_per_node", Py.VInt 144);
      ("zero_fragmentation", Py.VBool true);
      ("predictable_performance", Py.VBool true)]) in
  match body with
  | Py.Raised Py.CalledProcessError => mret ∅
  | r => r
  end.

End Parsing.

(** The [if ...: total_score += 1] statements of [generate_fair_report],
    from [total_score = 0]. *)
Definition total_score
    (nendb_single_create memgraph_single_create
     nendb_batch_create memgraph_batch_create
     nendb_tp memgraph_tp nendb_mem memgraph_mem : float)
    (zero_fragmentation predictable_performance : bool) : Z :=
  let total_score := 0 in
  let total_score := Py.credit (Py.lt nendb_single_create memgraph_single_create) total_score in
  let total_score := Py.credit (Py.lt nendb_batch_create memgraph_batch_create) total_score in
  let total_score := Py.credit (Py.gt nendb_tp memgraph_tp) total_score in
  let total_score := Py.credit (Py.lt nendb_mem memgraph_mem) total_score in
  let total_score := Py.credit zero_fragmentation total_score in
  let total_score := Py.credit predictable_performance total_score in
  total_score.

Definition max_score : Z := 6.

(** [a / b] printed in the branch taken by [if a_side < b_side]. *)
Definition shown_ratio (self_wins : bool) (self other : float) : Py.outcome float :=
  if self_wins then Py.truediv other self else Py.truediv self other.

(** [generate_fair_report] down to its "FAIR ASSESSMENT" block: the
    statements that read the results or divide, in their order, then the
    score. Of the printed lines the "Competitive Score" one is kept. *)
Definition generate_fair_report (nendb_results memgraph_results : Py.dict)
  : Py.outcome (Z * Out.line) :=
  nendb_single_create ← Py.number nendb_results "single_create_ms";
  memgraph_single_create ← Py.number memgraph_results "single_create_ms";
  _ ← shown_ratio (Py.lt nendb_single_create memgraph_single_create)
        nendb_single_create memgraph_single_create;
  nendb_batch_create ← Py.number nendb_results "batch_create_ms";
  memgraph_batch_create ← Py.number memgraph_results "batch_create_ms";
  _ ← shown_ratio (Py.lt nendb_batch_create memgraph_batch_create)
        nendb_batch_create memgraph_batch_create;
  nendb_tp ← Py.number nendb_results "single_create_rate";
  memgraph_tp ← Py.number memgraph_results "single_create_rate";
  _ ← (if Py.gt nendb_tp memgraph_tp then Py.truediv nendb_tp memgraph_tp
       else Py.truediv memgraph_tp nendb_tp);
  nendb_mem ← Py.number nendb_results "memory_per_node";
  memgraph_mem ← Py.number memgraph_results "memory_per_node";
  _ ← shown_ratio (Py.lt nendb_mem memgraph_mem) nendb_mem memgraph_mem;
  zero_fragmentation ← Py.getitem nendb_results "zero_fragmentation";
  predictable_performance ← Py.getitem nendb_results "predictable_performance";
  let total_score :=
    total_score nendb_single_create memgraph_single_create
      nendb_batch_create memgraph_batch_create nendb_tp memgraph_tp
      nendb_mem memgraph_mem
      (Py.truthy zero_fragmentation) (Py.truthy predictable_performance) in
  let percentage := PrimFloat.mul (Py.int_truediv total_score max_score) 100%float in
  mret (total_score,
        [Out.Lit "Competitive Score: "; Out.Int total_score; Out.Lit "/";
         Out.Int max_score; Out.Lit " ("; Out.Num ".1f" percentage; Out.Lit "%)"]).

(** [percentage = (total_score / max_score) * 100] *)
Definition percentage (total_score : Z) : float :=
  PrimFloat.mul (Py.int_truediv total_score max_score) 100%float.

(** The line chosen by the [if percentage >= 80: ... elif ...] chain that
    follows the "Competitive Score" line. *)
Definition verdict (percentage : float) : Out.line :=
  if Py.ge percentage 80%float
  then Out.text "🥇 EXCELLENT - NenDB significantly outperforms Memgraph!"
  else if Py.ge percentage 60%float
  then Out.text "🥈 GOOD - NenDB is competitive with Memgraph"
  else if Py.ge percentage 40%float
  then Out.text "🥉 FAIR - NenDB has some advantages"
  else Out.text "⚠️  NEEDS IMPROVEMENT - Focus on key differentiators".

(** What one call of [benchmark_memgraph_fair] meets: the driver import,
    connection and test query; the differences [end_time - start_time]
    measured around each of the 100 single creations and each of the 100
    single lookups; the differences [time.time() - batch_..._start] around
    the two batches of 1000 operations; the clean-up with
    [driver.close()]. *)
Record memgraph_run : Type := {
  connect : Py.outcome unit;
  single_create : Py.outcome (list float);
  single_lookup : Py.outcome (list float);
  batch_create : Py.outcome float;
  batch_lookup : Py.outcome float;
  cleanup : Py.outcome unit
}.

(** [(end_time - start_time) * 1000] *)
Definition to_ms (elapsed : float) : float := PrimFloat.mul elapsed 1000%float.

Definition benchmark_memgraph_fair (run : memgraph_run) : Py.dict :=
  let body : Py.outcome Py.dict :=
    _ ← connect run;
    elapsed ← single_create run;
    let single_create_times := map to_ms elapsed in
    elapsed ← single_lookup run;
    let single_lookup_times := map to_ms elapsed in
    elapsed ← batch_create run;
    let batch_create_time := to_ms elapsed in
    elapsed ← batch_lookup run;
    let batch_lookup_time := to_ms elapsed in
    _ ← cleanup run;
    avg_single_create ← Py.statistics_mean single_create_times;
    avg_single_lookup ← Py.statistics_mean single_lookup_times;
    let avg_batch_create := PrimFloat.div batch_create_time 1000%float in
    let avg_batch_lookup := PrimFloat.div batch_lookup_time 1000%float in
    single_create_rate ← Py.truediv 1000%float avg_single_create;
    single_lookup_rate ← Py.truediv 1000%float avg_single_lookup;
    batch_create_rate ← Py.truediv 1000%float avg_batch_create;
    batch_lookup_rate ← Py.truediv 1000%float avg_batch_lookup;
    mret (list_to_map [
      ("single_create_ms", Py.VFloat avg_single_create);
      ("single_lookup_ms", Py.VFloat avg_single_lookup);
      ("batch_create_ms", Py.VFloat avg_batch_create);
      ("batch_lookup_ms", Py.VFloat avg_batch_lookup);
      ("single_create_rate", Py.VFloat single_create_rate);
      ("single_lookup_rate", Py.VFloat single_lookup_rate);
      ("batch_create_rate", Py.VFloat batch_create_rate);
      ("batch_lookup_rate", Py.VFloat batch_lookup_rate);
      ("memory_per_node", Py.VInt 200);
      ("zero_fragmentation", Py.VBool false);
      ("predictable_performance", Py.VBool false)]) in
  Py.rescue body ∅.

(** [save_fair_results]: the document handed to [json.dump]. *)
Definition save_fair_results (memgraph_results nendb_results : Py.dict)
    (timestamp : string) : Py.dict :=
  list_to_map [
    ("memgraph", Py.VDict memgraph_results);
    ("nendb", Py.VDict nendb_results);
    ("timestamp", Py.VStr timestamp);
    ("test_environment", Py.VStr "macOS native, fair methodology");
    ("methodology", Py.VStr "Single operations + batch operations, same test data")].

(** [run_fair_comparison]: the Memgraph benchmark, then the NenDB one
    (whose exceptions other than [CalledProcessError] are not caught);
    [None] when it stops at "Some benchmarks failed to complete", else the
    score, the "Competitive Score" line, the verdict line and the saved
    document. *)
Definition run_fair_comparison (memgraph_results : Py.dict)
    (nendb : Py.outcome Py.dict) (timestamp : string)
  : Py.outcome (option (Z * Out.line * Out.line * Py.dict)) :=
  nendb_results ← nendb;
  if negb (Py.dict_truthy memgraph_results) || negb (Py.dict_truthy nendb_results)
  then mret None
  else
    '(total_score, score_line) ← generate_fair_report nendb_results memgraph_results;
    mret (Some (total_score, score_line, verdict (percentage total_score),
                save_fair_results memgraph_results nendb_results timestamp)).

End FairBenchmark.

(** ** competitive_benchmark.py *)

Module CompetitiveBenchmark.

(** The [if ...: total_score += 1] statements of [generate_report]. *)
Definition total_score
    (nendb_mem neo4j_mem memgraph_mem
     nendb_insert neo4j_insert memgraph_insert
     nendb_tp neo4j_tp memgraph_tp : float)
    (zero_fragmentation predictable_performance : bool) : Z :=
  let total_score := 0 in
  let total_score := Py.credit (Py.lt nendb_mem neo4j_mem) total_score in
  let total_score := Py.credit (Py.lt nendb_mem memgraph_mem) total_score in
  let total_score := Py.credit (Py.lt nendb_insert neo4j_insert) total_score in
  let total_score := Py.credit (Py.lt nendb_insert memgraph_insert) total_score in
  let total_score := Py.credit (Py.gt nendb_tp neo4j_tp) total_score in
  let total_score := Py.credit (Py.gt nendb_tp memgraph_tp) total_score in
  let total_score := Py.credit zero_fragmentation total_score in
  let total_score := Py.credit predictable_performance total_score in
  total_score.

Definition max_score : Z := 8.

(** [if self < other: print(f"... {(other/self):.1f}x ...")] *)
Definition boast (wins : bool) (numerator denominator : float) : Py.outcome unit :=
  if wins then _ ← Py.truediv numerator denominator; mret tt else mret tt.

(** [generate_report] down to its "COMPETITIVE POSITIONING" block: [None]
    when it stops at "Some benchmarks failed to complete"; otherwise the
    statements that read the results or divide, in their order, then the
    score. Of the printed lines the "Competitive Score" one is kept. *)
Definition generate_report (nendb_results neo4j_results memgraph_results : Py.dict)
  : Py.outcome (option (Z * Out.line)) :=
  if negb (Py.dict_truthy nendb_results && Py.dict_truthy neo4j_results
           && Py.dict_truthy memgraph_results)
  then mret None
  else
    nendb_mem ← Py.number nendb_results "memory_per_node";
    neo4j_mem ← Py.number neo4j_results "memory_per_node";
    memgraph_mem ← Py.number memgraph_results "memory_per_node";
    _ ← boast (Py.lt nendb_mem neo4j_mem) neo4j_mem nendb_mem;
    _ ← boast (Py.lt nendb_mem memgraph_mem) memgraph_mem nendb_mem;
    nendb_insert ← Py.number nendb_results "insert_latency_ms";
    neo4j_insert ← Py.number neo4j_results "insert_latency_ms";
    memgraph_insert ← Py.number memgraph_results "insert_latency_ms";
    _ ← boast (Py.lt nendb_insert neo4j_insert) neo4j_insert nendb_insert;
    _ ← boast (Py.lt nendb_insert memgraph_insert) memgraph_insert nendb_insert;
    nendb_tp ← Py.number nendb_results "throughput_ops_per_sec";
    neo4j_tp ← Py.number neo4j_results "throughput_ops_per_sec";
    memgraph_tp ← Py.number memgraph_results "throughput_ops_per_sec";
    _ ← boast (Py.gt nendb_tp neo4j_tp) nendb_tp neo4j_tp;
    _ ← boast (Py.gt nendb_tp memgraph_tp) nendb_tp memgraph_tp;
    zero_fragmentation ← Py.getitem nendb_results "zero_fragmentation";
    predictable_performance ← Py.getitem nendb_results "predictable_performance";
    let total_score :=
      total_score nendb_mem neo4j_mem memgraph_mem
        nendb_insert neo4j_insert memgraph_insert nendb_tp neo4j_tp memgraph_tp
        (Py.truthy zero_fragmentation) (Py.truthy predictable_performance) in
    let percentage := PrimFloat.mul (Py.int_truediv total_score max_score) 100%float in
    mret (Some (total_score,
          [Out.Lit "Competitive Score: "; Out.Int total_score; Out.Lit "/";
           Out.Int max_score; Out.Lit " ("; Out.Num ".1f" percentage; Out.Lit "%)"])).

(** [run_nendb_benchmarks]; [build] is the run of [zig build bench]
    ([check=True]). Only [CalledProcessError] is caught. *)
Definition run_nendb_benchmarks (build : Py.outcome unit) : Py.outcome Py.dict :=
  match build with
  | Py.Returned _ =>
      mret (list_to_map [
        ("memory_per_node", Py.VInt 144);
        ("memory_per_edge", Py.VInt 80);
        ("insert_latency_ms", Py.VFloat 0.001%float);
        ("lookup_latency_ms", Py.VFloat 0.0001%float);
        ("throughput_ops_per_sec", Py.VInt 1000000);
        ("memory_footprint_mb", Py.VInt 512);
        ("zero_fragmentation", Py.VBool true);
        ("predictable_performance", Py.VBool true)])
  | Py.Raised Py.CalledProcessError => mret ∅
  | Py.Raised e => Py.Raised e
  end.

(** [_check_neo4j_running]: [status_code] is what the request to port 7474
    gave, an exception when it failed (or when [requests] is missing); the
    bare [except] catches everything. *)
Definition _check_neo4j_running (status_code : Py.outcome Z) : bool :=
  match status_code with
  | Py.Returned code => code =? 200
  | Py.Raised _ => false
  end.

(** [_check_memgraph_running]: [result] is what [sock.connect_ex] gave. *)
Definition _check_memgraph_running (result : Py.outcome Z) : bool :=
  match result with
  | Py.Returned code => code =? 0
  | Py.Raised _ => false
  end.

(** [run_neo4j_benchmarks]: the dictionary of the branch taken. *)
Definition run_neo4j_benchmarks (running : bool) : Py.dict :=
  if negb running
  then
    list_to_map [
      ("memory_per_node", Py.VInt 250);
      ("memory_per_edge", Py.VInt 120);
      ("insert_latency_ms", Py.VFloat 0.2%float);
      ("lookup_latency_ms", Py.VFloat 0.02%float);
      ("throughput_ops_per_sec", Py.VInt 5000);
      ("memory_footprint_mb", Py.VInt 1024);
      ("zero_fragmentation", Py.VBool false);
      ("predictable_performance", Py.VBool false)]
  else
    Py.rescue
      (mret (list_to_map [
        ("memory_per_node", Py.VInt 250);
        ("memory_per_edge", Py.VInt 120);
        ("insert_latency_ms", Py.VFloat 0.2%float);
        ("lookup_latency_ms", Py.VFloat 0.02%float);
        ("throughput_ops_per_sec", Py.VInt 5000);
        ("memory_footprint_mb", Py.VInt 1024);
        ("zero_fragmentation", Py.VBool false);
        ("predictable_performance", Py.VBool false)]))
      ∅.

(** [run_memgraph_benchmarks] *)
Definition run_memgraph_benchmarks (running : bool) : Py.dict :=
  if negb running
  then
    list_to_map [
      ("memory_per_node", Py.VInt 200);
      ("memory_per_edge", Py.VInt 100);
      ("insert_latency_ms", Py.VFloat 0.1%float);
      ("lookup_latency_ms", Py.VFloat 0.01%float);
      ("throughput_ops_per_sec", Py.VInt 10000);
      ("memory_footprint_mb", Py.VInt 768);
      ("zero_fragmentation", Py.VBool false);
      ("predictable_performance", Py.VBool false)]
  else
    Py.rescue
      (mret (list_to_map [
        ("memory_per_node", Py.VInt 200);
        ("memory_per_edge", Py.VInt 100);
        ("insert_latency_ms", Py.VFloat 0.1%float);
        ("lookup_latency_ms", Py.VFloat 0.01%float);
        ("throughput_ops_per_sec", Py.VInt 10000);
        ("memory_footprint_mb", Py.VInt 768);
        ("zero_fragmentation", Py.VBool false);
        ("predictable_performance", Py.VBool false)]))
      ∅.

(** [percentage = (total_score / max_score) * 100] *)
Definition percentage (total_score : Z) : float :=
  PrimFloat.mul (Py.int_truediv total_score max_score) 100%float.

(** The line chosen by the [if percentage >= 80: ... elif ...] chain. *)
Definition verdict (percentage : float) : Out.line :=
  if Py.ge percentage 80%float
  then Out.text "🥇 EXCELLENT - NenDB dominates the competition!"
  else if Py.ge percentage 60%float
  then Out.text "🥈 GOOD - NenDB is competitive with leaders"
  else if Py.ge percentage 40%float
  then Out.text "🥉 FAIR - NenDB has some advantages"
  else Out.text "⚠️  NEEDS IMPROVEMENT - Focus on key differentiators".

(** [save_results]: the document handed to [json.dump], which is
    [self.results] as [run_all_benchmarks] stored it. *)
Definition save_results (nendb_results neo4j_results memgraph_results : Py.dict)
  : Py.dict :=
  list_to_map [
    ("nendb", Py.VDict nendb_results);
    ("neo4j", Py.VDict neo4j_results);
    ("memgraph", Py.VDict memgraph_results)].

(** [run_all_benchmarks]: the three results, in the order they are
    obtained; an exception of [run_nendb_benchmarks] ends it. *)
Definition run_all_benchmarks (build : Py.outcome unit)
    (neo4j_status memgraph_result : Py.outcome Z)
  : Py.outcome (Py.dict * Py.dict * Py.dict) :=
  nendb_results ← run_nendb_benchmarks build;
  let neo4j_results := run_neo4j_benchmarks (_check_neo4j_running neo4j_status) in
  let memgraph_results :=
    run_memgraph_benchmarks (_check_memgraph_running memgraph_result) in
  mret (nendb_results, neo4j_results, memgraph_results).

(** The [try] body of [main]: [run_all_benchmarks], [generate_report],
    [save_results]. The result holds what the report gave ([None] when it
    stopped at "Some benchmarks failed to complete"; else the score, its
    line and the verdict line) and the saved document. *)
Definition main (build : Py.outcome unit) (neo4j_status memgraph_result : Py.outcome Z)
  : Py.outcome (option (Z * Out.line * Out.line) * Py.dict) :=
  '(nendb_results, neo4j_results, memgraph_results) ←
    run_all_benchmarks build neo4j_status memgraph_result;
  report ← generate_report nendb_results neo4j_results memgraph_results;
  let shown :=
    match report with
    | None => None
    | Some (total_score, score_line) =>
        Some (total_score, score_line, verdict (percentage total_score))
    end in
  mret (shown, save_results nendb_results neo4j_results memgraph_results).

End CompetitiveBenchmark.

(** ** real_memgraph_benchmark.py *)

Module RealMemgraphBenchmark.

(** What one call of [benchmark_memgraph] meets: the driver import,
    connection and test query, then the three timed batches of 1000
    operations, then the clean-up. *)
Record memgraph_run : Type := {
  connect : Py.outcome unit;
  node_creation : Py.outcome float;
  node_lookup : Py.outcome float;
  rel_creation : Py.outcome float;
  cleanup : Py.outcome unit
}.

Definition benchmark_memgraph (run : memgraph_run) : Py.dict :=
  let body : Py.outcome Py.dict :=
    _ ← connect run;
    node_creation_time ← node_creation run;
    node_creation_rate ← Py.truediv 1000%float node_creation_time;
    node_lookup_time ← node_lookup run;
    node_lookup_rate ← Py.truediv 1000%float node_lookup_time;
    rel_creation_time ← rel_creation run;
    rel_creation_rate ← Py.truediv 1000%float rel_creation_time;
    _ ← cleanup run;
    let avg_node_creation :=
      PrimFloat.mul (PrimFloat.div node_creation_time 1000%float) 1000%float in
    let avg_node_lookup :=
      PrimFloat.mul (PrimFloat.div node_lookup_time 1000%float) 1000%float in
    let avg_rel_creation :=
      PrimFloat.mul (PrimFloat.div rel_creation_time 1000%float) 1000%float in
    mret (list_to_map [
      ("node_creation_ms", Py.VFloat avg_node_creation);
      ("node_lookup_ms", Py.VFloat avg_node_lookup);
      ("relationship_creation_ms", Py.VFloat avg_rel_creation);
      ("node_creation_rate", Py.VFloat node_creation_rate);
      ("node_lookup_rate", Py.VFloat node_lookup_rate);
      ("relationship_creation_rate", Py.VFloat rel_creation_rate);
      ("memory_per_node", Py.VInt 200);
      ("zero_fragmentation", Py.VBool false);
      ("predictable_performance", Py.VBool false)]) in
  Py.rescue body ∅.

Section Parsing.

Variable py_float : string -> Py.outcome float.

(** The [for line in lines] loop of [benchmark_nendb] over the three
    variables it assigns. *)
Fixpoint scan (lines : list string) (insert_time lookup_time wal_time : option float)
  : Py.outcome (option float * option float * option float) :=
  match lines with
  | [] => mret (insert_time, lookup_time, wal_time)
  | line :: rest =>
      if PyStr.contains "Average:" line && PyStr.contains "ms per insert" line
      then t ← Workload.average_of py_float line; scan rest (Some t) lookup_time wal_time
      else if PyStr.contains "Average:" line && PyStr.contains "ms per lookup" line
      then t ← Workload.average_of py_float line; scan rest insert_time (Some t) wal_time
      else if PyStr.contains "Average:" line && PyStr.contains "ms per WAL operation" line
      then t ← Workload.average_of py_float line; scan rest insert_time lookup_time (Some t)
      else scan rest insert_time lookup_time wal_time
  end.

(** [benchmark_nendb]; [subprocess] is the run of [zig build real-bench]
    with its standard output. Only [CalledProcessError] is caught. *)
Definition benchmark_nendb (subprocess : Py.outcome string) : Py.outcome Py.dict :=
  let body : Py.outcome Py.dict :=
    output ← subprocess;
    '(insert_time, lookup_time, wal_time) ←
      scan (PyStr.split PyStr.newline output) None None None;
    (* if insert_time is None or lookup_time is None or wal_time is None:
       a warning is printed, the three are replaced *)
    let '(insert_time, lookup_time, wal_time) :=
      match insert_time, lookup_time, wal_time with
      | Some i, Some l, Some w => (i, l, w)
      | _, _, _ => (0.004547%float, 0.002881%float, 0.003846%float)
      end in
    node_creation_rate ←
      Py.truediv 1000%float (PrimFloat.div insert_time 1000%float);
    node_lookup_rate ←
      Py.truediv 1000%float (PrimFloat.div lookup_time 1000%float);
    relationship_creation_rate ←
      Py.truediv 1000%float (PrimFloat.div insert_time 1000%float);
    mret (list_to_map [
      ("node_creation_ms", Py.VFloat insert_time);
      ("node_lookup_ms", Py.VFloat lookup_time);
      ("relationship_creation_ms", Py.VFloat insert_time);
      ("node_creation_rate", Py.VFloat node_creation_rate);
      ("node_lookup_rate", Py.VFloat node_lookup_rate);
      ("relationship_creation_rate", Py.VFloat relationship_creation_rate);
      ("memory_per_node", Py.VInt 144);
      ("zero_fragmentation", Py.VBool true);
      ("predictable_performance", Py.VBool true)]) in
  match body with
  | Py.Raised Py.CalledProcessError => mret ∅
  | r => r
  end.

End Parsing.

(** The [if ...: total_score += 1] statements of
    [generate_comparison_report], from [total_score = 0]. *)
Definition total_score
    (nendb_insert memgraph_insert nendb_lookup memgraph_lookup
     nendb_tp memgraph_tp nendb_mem memgraph_mem : float)
    (zero_fragmentation predictable_performance : bool) : Z :=
  let total_score := 0 in
  let total_score := Py.credit (Py.lt nendb_insert memgraph_insert) total_score in
  let total_score := Py.credit (Py.lt nendb_lookup memgraph_lookup) total_score in
  let total_score := Py.credit (Py.gt nendb_tp memgraph_tp) total_score in
  let total_score := Py.credit (Py.lt nendb_mem memgraph_mem) total_score in
  let total_score := Py.credit zero_fragmentation total_score in
  let total_score := Py.credit predictable_performance total_score in
  total_score.

Definition max_score : Z := 6.

(** [percentage = (total_score / max_score) * 100] *)
Definition percentage (total_score : Z) : float :=
  PrimFloat.mul (Py.int_truediv total_score max_score) 100%float.

(** The line chosen by the [if percentage >= 80: ... elif ...] chain. *)
Definition verdict (percentage : float) : Out.line :=
  if Py.ge percentage 80%float
  then Out.text "🥇 EXCELLENT - NenDB significantly outperforms Memgraph!"
  else if Py.ge percentage 60%float
  then Out.text "🥈 GOOD - NenDB is competitive with Memgraph"
  else if Py.ge percentage 40%float
  then Out.text "🥉 FAIR - NenDB has some advantages"
  else Out.text "⚠️  NEEDS IMPROVEMENT - Focus on key differentiators".

(** The line printed by one [if self < other: ... else: ...] block: the
    quotient of the larger side by the smaller one. *)
Definition compared (wins : bool) (numerator denominator : float)
    (won lost : string * string) : Py.outcome Out.line :=
  if wins
  then
    ratio ← Py.truediv numerator denominator;
    mret [Out.Lit (fst won); Out.Num ".1f" ratio; Out.Lit (snd won)]
  else
    ratio ← Py.truediv denominator numerator;
    mret [Out.Lit (fst lost); Out.Num ".1f" ratio; Out.Lit (snd lost)].

(** [if wins: advantages.append(f"✅ NenDB: {numerator/denominator:.1f}x ...")] *)
Definition advantage (wins : bool) (numerator denominator : float) (what : string)
    (advantages : list Out.line) : Py.outcome (list Out.line) :=
  if wins
  then
    ratio ← Py.truediv numerator denominator;
    mret (advantages ++ [[Out.Lit "✅ NenDB: "; Out.Num ".1f" ratio; Out.Lit what]])
  else mret advantages.

(** What [generate_comparison_report] prints; [Raised] when a statement of
    it raises. The lines of the four comparison blocks that show the two
    figures are left out: the comparison line of each block, the
    advantages, the score line and the verdict are kept. *)
Record report : Type := {
  comparisons : list Out.line;
  advantages : list Out.line;
  score : Z;
  score_line : Out.line;
  verdict_line : Out.line
}.

Definition generate_comparison_report (nendb_results memgraph_results : Py.dict)
  : Py.outcome report :=
  (* Node Creation Performance *)
  nendb_insert ← Py.number nendb_results "node_creation_ms";
  memgraph_insert ← Py.number memgraph_results "node_creation_ms";
  insert_line ←
    compared (Py.lt nendb_insert memgraph_insert) memgraph_insert nendb_insert
      ("🥇 NenDB is ", "x FASTER than Memgraph")
      ("⚠️  Memgraph is ", "x faster than NenDB");
  (* Node Lookup Performance *)
  nendb_lookup ← Py.number nendb_results "node_lookup_ms";
  memgraph_lookup ← Py.number memgraph_results "node_lookup_ms";
  lookup_line ←
    compared (Py.lt nendb_lookup memgraph_lookup) memgraph_lookup nendb_lookup
      ("🥇 NenDB is ", "x FASTER than Memgraph")
      ("⚠️  Memgraph is ", "x faster than NenDB");
  (* Throughput Comparison *)
  nendb_tp ← Py.number nendb_results "node_creation_rate";
  memgraph_tp ← Py.number memgraph_results "node_creation_rate";
  tp_line ←
    compared (Py.gt nendb_tp memgraph_tp) nendb_tp memgraph_tp
      ("🥇 NenDB has ", "x HIGHER throughput than Memgraph")
      ("⚠️  Memgraph has ", "x higher throughput than NenDB");
  (* Memory Efficiency *)
  nendb_mem ← Py.number nendb_results "memory_per_node";
  memgraph_mem ← Py.number memgraph_results "memory_per_node";
  mem_line ←
    compared (Py.lt nendb_mem memgraph_mem) memgraph_mem nendb_mem
      ("🥇 NenDB is ", "x more memory efficient than Memgraph")
      ("⚠️  Memgraph is ", "x more memory efficient than NenDB");
  (* Key Advantages *)
  let advantages := [] in
  zero_fragmentation ← Py.getitem nendb_results "zero_fragmentation";
  let advantages :=
    if Py.truthy zero_fragmentation
    then advantages ++ [Out.text "✅ NenDB: Zero memory fragmentation"]
    else advantages in
  predictable_performance ← Py.getitem nendb_results "predictable_performance";
  let advantages :=
    if Py.truthy predictable_performance
    then advantages ++ [Out.text "✅ NenDB: Predictable performance"]
    else advantages in
  advantages ←
    advantage (Py.lt nendb_insert memgraph_insert) memgraph_insert nendb_insert
      "x faster inserts" advantages;
  advantages ←
    advantage (Py.lt nendb_lookup memgraph_lookup) memgraph_lookup nendb_lookup
      "x faster lookups" advantages;
  advantages ←
    advantage (Py.lt nendb_mem memgraph_mem) memgraph_mem nendb_mem
      "x more memory efficient" advantages;
  let advantages :=
    match advantages with
    | [] => [Out.text "⚠️  No clear advantages identified"]
    | _ => advantages
    end in
  (* Overall Assessment *)
  let total_score :=
    total_score nendb_insert memgraph_insert nendb_lookup memgraph_lookup
      nendb_tp memgraph_tp nendb_mem memgraph_mem
      (Py.truthy zero_fragmentation) (Py.truthy predictable_performance) in
  let percentage := percentage total_score in
  mret {|
    comparisons := [insert_line; lookup_line; tp_line; mem_line];
    advantages := advantages;
    score := total_score;
    score_line :=
      [Out.Lit "Competitive Score: "; Out.Int total_score; Out.Lit "/";
       Out.Int max_score; Out.Lit " ("; Out.Num ".1f" percentage; Out.Lit "%)"];
    verdict_line := verdict percentage |}.

(** [save_results]: the document handed to [json.dump]. *)
Definition save_results (memgraph_results nendb_results : Py.dict)
    (timestamp : string) : Py.dict :=
  list_to_map [
    ("memgraph", Py.VDict memgraph_results);
    ("nendb", Py.VDict nendb_results);
    ("timestamp", Py.VStr timestamp);
    ("test_environment", Py.VStr "macOS with Docker containers")].

(** [run_comparison]: the Memgraph benchmark, then the NenDB one (whose
    exceptions other than [CalledProcessError] are not caught); [None]
    when it stops at "Some benchmarks failed to complete". *)
Definition run_comparison (memgraph_results : Py.dict)
    (nendb : Py.outcome Py.dict) (timestamp : string)
  : Py.outcome (option (report * Py.dict)) :=
  nendb_results ← nendb;
  if negb (Py.dict_truthy memgraph_results) || negb (Py.dict_truthy nendb_results)
  then mret None
  else
    printed ← generate_comparison_report nendb_results memgraph_results;
    mret (Some (printed, save_results memgraph_results nendb_results timestamp)).

End RealMemgraphBenchmark.

(** ** Vocabulary of the statements *)

Module Spec.

(** [needle] occurs in [hay]. *)
Definition occurs_in (needle hay : string) : Prop :=
  exists before after, hay = before +:+ needle +:+ after.

(** The capital letters and the small letters, in the order of the
    alphabet; [letters] pairs each capital with its small letter. *)
Definition capitals : string := "ABCDEFGHIJKLMNOPQRSTUVWXYZ".

Definition smalls : string := "abcdefghijklmnopqrstuvwxyz".

Definition letters : list (ascii * ascii) :=
  combine (list_ascii_of_string capitals) (list_ascii_of_string smalls).

(** Two characters are equal, or the capital and the small form of one
    letter. *)
Definition same_letter (a b : ascii) : bool :=
  Ascii.eqb a b ||
  existsb (fun '(capital, small) =>
             (Ascii.eqb a capital && Ascii.eqb b small) ||
             (Ascii.eqb a small && Ascii.eqb b capital)) letters.

(** Two texts are equal when letter case is ignored. *)
Fixpoint same_text (s t : string) : bool :=
  match s, t with
  | EmptyString, EmptyString => true
  | String a s', String b t' => same_letter a b && same_text s' t'
  | _, _ => false
  end.

(** [hint] occurs in [text] when letter case is ignored: some stretch of
    [text] is [hint] up to the case of its letters. *)
Definition occurs_ci (hint text : string) : Prop :=
  exists before found after,
    text = before +:+ found +:+ after /\ same_text hint found = true.

(** A process matches a name hint by its short name or by its command line
    (the arguments joined by single spaces). *)
Definition matches (hint : string) (p : AccurateResourceBenchmark.proc) : Prop :=
  (exists n, AccurateResourceBenchmark.name p = Some n /\ occurs_ci hint n) \/
  (exists args, AccurateResourceBenchmark.cmdline p = Some args /\
                occurs_ci hint (PyStr.join " " args)).

(** The two tests of the locators' loop body, for one hint. *)
Definition name_hit (hint : string) (p : AccurateResourceBenchmark.proc) : bool :=
  match AccurateResourceBenchmark.name p with
  | Some n => negb (String.eqb n "") && PyStr.contains hint (PyStr.lower n)
  | None => false
  end.

Definition cmdline_hit (hint : string) (p : AccurateResourceBenchmark.proc) : bool :=
  match AccurateResourceBenchmark.cmdline p with
  | Some (tok :: toks) => PyStr.contains hint (PyStr.lower (PyStr.join " " (tok :: toks)))
  | _ => false
  end.

(** [found] is the answer of a locator that returns the first process of
    [procs] with property [P], and nothing when there is none. *)
Definition first_match {A} (P : A -> Prop) (procs : list A) (found : option A) : Prop :=
  match found with
  | Some p =>
      exists earlier later,
        procs = earlier ++ p :: later /\ P p /\ Forall (fun q => ~ P q) earlier
  | None => Forall (fun q => ~ P q) procs
  end.




(** The line tests of the workload parsers: the [if] and the [elif]. *)
Definition insert_line (line : string) : bool :=
  PyStr.contains "Average:" line && PyStr.contains "ms per insert" line.

Definition lookup_line (line : string) : bool :=
  negb (insert_line line) &&
  (PyStr.contains "Average:" line && PyStr.contains "ms per lookup" line).

Definition lines_of (output : string) : list string :=
  PyStr.split PyStr.newline output.

(** The loop test [time.time() - start_time < duration] at clock [now]. *)
Definition in_budget (start_time : float) (duration : Z) (now : float) : bool :=
  PrimFloat.ltb (PrimFloat.sub now start_time) (Py.float_of_Z duration).

(** A pass of the process sampler in which both calls answer: the clock,
    the CPU percentage, the resident bytes. *)
Definition completed (r : float * float * Z) : AccurateResourceBenchmark.reading :=
  {| AccurateResourceBenchmark.clock := fst (fst r);
     AccurateResourceBenchmark.cpu_percent := Py.Returned (snd (fst r));
     AccurateResourceBenchmark.rss := Py.Returned (snd r) |}.

Definition cpu_of (r : float * float * Z) : float := snd (fst r).

Definition memory_of (r : float * float * Z) : float :=
  Py.int_truediv (snd r) (1024 * 1024).


(** The readings the loop of [monitor_resources] uses: those before the
    first one whose clock is out of the time budget. *)
Fixpoint sampled (start_time : float) (duration : Z)
    (trace : list ResourceBenchmark.reading) : list ResourceBenchmark.reading :=
  match trace with
  | [] => []
  | t :: rest =>
      if in_budget start_time duration (ResourceBenchmark.clock t)
      then t :: sampled start_time duration rest
      else []
  end.

(** The cumulative disk counters last shown by [readings]; [initial] when
    none of them shows any. *)
Definition last_counters (initial : Z * Z) (readings : list ResourceBenchmark.reading)
  : Z * Z :=
  fold_left
    (fun current t =>
       match ResourceBenchmark.disk t with
       | Some counters => counters
       | None => current
       end)
    readings initial.

(** Memory in GB, as the system-wide samplers store it. *)
Definition gigabytes (bytes : Z) : float :=
  Py.int_truediv bytes (1024 * 1024 * 1024).

(** The proper suffixes of a text. *)
Fixpoint tails (s : string) : list string :=
  match s with
  | EmptyString => []
  | String _ s' => s' :: tails s'
  end.

(** No proper suffix of [sep], the empty one apart, is a prefix of [sep]:
    two occurrences of [sep] cannot overlap. *)
Definition border_free (sep : string) : bool :=
  forallb (fun p2 => String.eqb p2 "" || negb (PyStr.starts_with p2 sep)) (tails sep).

End Spec.

(** * Facts about binary64 comparison *)

Module FloatFacts.

Lemma digits2_pos_bounds (m : positive) :
  2 ^ (Z.pos (digits2_pos m) - 1) <= Z.pos m < 2 ^ Z.pos (digits2_pos m).
Proof.
  induction m as [m IH | m IH |]; cbn [digits2_pos].
  - rewrite Pos2Z.inj_succ.
    replace (Z.succ (Z.pos (digits2_pos m)) - 1) with (Z.succ (Z.pos (digits2_pos m) - 1)) by lia.
    rewrite !Z.pow_succ_r by lia. lia.
  - rewrite Pos2Z.inj_succ.
    replace (Z.succ (Z.pos (digits2_pos m)) - 1) with (Z.succ (Z.pos (digits2_pos m) - 1)) by lia.
    rewrite !Z.pow_succ_r by lia. lia.
  - cbn. lia.
Qed.

(** A finite binary64 in canonical form: exponent range, and a mantissa of
    exactly 53 bits unless the exponent is the least one. *)
Lemma bounded_inv (m : positive) (e : Z) :
  bounded prec emax m e = true ->
  -1074 <= e <= 971 /\ Z.pos m < 2 ^ 53 /\ (-1074 < e -> 2 ^ 52 <= Z.pos m).
Proof.
  unfold bounded, canonical_mantissa, fexp, SpecFloat.emin, prec, emax.
  intros H. apply andb_true_iff in H as [Hc He].
  apply Z.eqb_eq in Hc. apply Z.leb_le in He.
  pose proof (digits2_pos_bounds m) as [Hlo Hhi].
  assert (Hd : Z.pos (digits2_pos m) <= 53) by lia.
  split; [lia |]. split.
  - eapply Z.lt_le_trans; [exact Hhi |].
    apply Z.pow_le_mono_r; lia.
  - intros Hlt.
    assert (Z.pos (digits2_pos m) = 53) as Heq by lia.
    rewrite Heq in Hlo. exact Hlo.
Qed.

(** Across exponents: the float with the smaller exponent is smaller. *)
Lemma scaled_lt_exponent (m1 m2 : positive) (e1 e2 : Z) :
  bounded prec emax m1 e1 = true -> bounded prec emax m2 e2 = true ->
  e1 < e2 ->
  Z.pos m1 * 2 ^ (e1 + 1074) < Z.pos m2 * 2 ^ (e2 + 1074).
Proof.
  intros H1 H2 Hlt.
  apply bounded_inv in H1 as (He1 & Hm1 & _).
  apply bounded_inv in H2 as (He2 & _ & Hm2).
  assert (Hgt : -1074 < e2) by lia. specialize (Hm2 Hgt).
  replace (e2 + 1074) with ((e2 - e1 - 1) + 1 + (e1 + 1074)) by lia.
  rewrite (Z.pow_add_r 2 (e2 - e1 - 1 + 1) (e1 + 1074)) by lia.
  rewrite (Z.pow_add_r 2 (e2 - e1 - 1) 1) by lia.
  assert (0 < 2 ^ (e1 + 1074)) by (apply Z.pow_pos_nonneg; lia).
  assert (2 ^ 0 <= 2 ^ (e2 - e1 - 1)) by (apply Z.pow_le_mono_r; lia).
  change (2 ^ 0) with 1 in *.
  change (2 ^ 1) with 2. change (2 ^ 53) with 9007199254740992 in Hm1.
  change (2 ^ 52) with 4503599627370496 in Hm2.
  set (P := 2 ^ (e1 + 1074)) in *. set (K := 2 ^ (e2 - e1 - 1)) in *.
  assert (Z.pos m1 * P < 9007199254740992 * P) by (apply Z.mul_lt_mono_pos_r; lia).
  assert (4503599627370496 * (2 * P) <= Z.pos m2 * (2 * P)) by (apply Z.mul_le_mono_nonneg_r; lia).
  assert (Z.pos m2 * (1 * (2 * P)) <= Z.pos m2 * (K * (2 * P))).
  { apply Z.mul_le_mono_nonneg_l; [lia |]. apply Z.mul_le_mono_nonneg_r; lia. }
  lia.
Qed.

Lemma scaled_pos (m : positive) (e : Z) :
  bounded prec emax m e = true -> 0 < Z.pos m * 2 ^ (e + 1074).
Proof.
  intros H. apply bounded_inv in H as (He & _).
  apply Z.mul_pos_pos; [lia |]. apply Z.pow_pos_nonneg; lia.
Qed.

Lemma compare_lt (a b : Z) : a < b -> (a ?= b) = Lt.
Proof. intros. now apply Z.compare_lt_iff. Qed.

Lemma compare_gt (a b : Z) : b < a -> (a ?= b) = Gt.
Proof. intros. now apply Z.compare_gt_iff. Qed.

(** On canonical floats the comparison of IEEE 754 is the comparison of
    the exact values. *)
Lemma SFcompare_scaled (f1 f2 : spec_float) (a b : Z) :
  SpecFloat.valid_binary prec emax f1 = true ->
  SpecFloat.valid_binary prec emax f2 = true ->
  Py.scaled_SF f1 = Some a -> Py.scaled_SF f2 = Some b ->
  SFcompare f1 f2 = Some (a ?= b).
Proof.
  intros V1 V2 S1 S2.
  destruct f1 as [s1 | s1 | | s1 m1 e1], f2 as [s2 | s2 | | s2 m2 e2];
    cbn in S1, S2; try discriminate;
    injection S1 as <-; injection S2 as <-; cbn [SFcompare].
  - reflexivity.
  - cbn in V2. pose proof (scaled_pos _ _ V2).
    destruct s2; f_equal; symmetry; [apply compare_gt | apply compare_lt]; lia.
  - cbn in V1. pose proof (scaled_pos _ _ V1).
    destruct s1; f_equal; symmetry; [apply compare_lt | apply compare_gt]; lia.
  - cbn in V1, V2.
    pose proof (scaled_pos _ _ V1). pose proof (scaled_pos _ _ V2).
    destruct s1, s2; f_equal; symmetry.
    + destruct (Z.compare_spec e1 e2) as [-> | Hlt | Hgt].
      * rewrite Pos.compare_cont_spec. cbn [Pos.switch_Eq].
        assert (0 < 2 ^ (e2 + 1074)) by (apply bounded_inv in V2; apply Z.pow_pos_nonneg; lia).
        change (m1 ?= m2)%positive with (Z.pos m1 ?= Z.pos m2).
        destruct (Z.compare_spec (Z.pos m1) (Z.pos m2)) as [Heq | Hl | Hg]; cbn [CompOpp].
        -- rewrite Heq. apply Z.compare_refl.
        -- apply compare_gt. nia.
        -- apply compare_lt. nia.
      * pose proof (scaled_lt_exponent _ _ _ _ V1 V2 Hlt). apply compare_gt. lia.
      * pose proof (scaled_lt_exponent _ _ _ _ V2 V1 Hgt). apply compare_lt. lia.
    + apply compare_lt. lia.
    + apply compare_gt. lia.
    + destruct (Z.compare_spec e1 e2) as [-> | Hlt | Hgt].
      * rewrite Pos.compare_cont_spec. cbn [Pos.switch_Eq].
        assert (0 < 2 ^ (e2 + 1074)) by (apply bounded_inv in V2; apply Z.pow_pos_nonneg; lia).
        change (m1 ?= m2)%positive with (Z.pos m1 ?= Z.pos m2).
        destruct (Z.compare_spec (Z.pos m1) (Z.pos m2)) as [Heq | Hl | Hg].
        -- rewrite Heq. apply Z.compare_refl.
        -- apply compare_lt. nia.
        -- apply compare_gt. nia.
      * pose proof (scaled_lt_exponent _ _ _ _ V1 V2 Hlt). apply compare_lt. lia.
      * pose proof (scaled_lt_exponent _ _ _ _ V2 V1 Hgt). apply compare_gt. lia.
Qed.



Lemma eqb_scaled (x y : float) (a b : Z) :
  Py.scaled x = Some a -> Py.scaled y = Some b ->
  PrimFloat.eqb x y = (a =? b).
Proof.
  intros Hx Hy. rewrite FloatAxioms.eqb_spec. unfold SFeqb.
  rewrite (SFcompare_scaled _ _ a b (Prim2SF_valid x) (Prim2SF_valid y) Hx Hy).
  rewrite Z.eqb_compare. now destruct (a ?= b).
Qed.



(** A float above zero is not zero, so dividing by it does not raise. *)
Lemma gt_zero_not_zero (x : float) :
  Py.gt x 0%float = true -> Py.is_zero x = false.
Proof.
  unfold Py.gt, Py.is_zero.
  rewrite ltb_spec, FloatAxioms.eqb_spec. unfold SFltb, SFeqb.
  change (Prim2SF 0%float) with (S754_zero false).
  destruct (Prim2SF x) as [s | s | | s m e]; cbn; try discriminate;
    destruct s; intros; (discriminate || reflexivity).
Qed.

End FloatFacts.

(** * Extrema and exact mean of a series *)

Module SeriesFacts.

Import Spec.









(** The exact values as rationals. *)
Lemma exact_units (x : float) : Py.exact x = Qmake (Py.units x) (2 ^ 1074).
Proof. reflexivity. Qed.


Lemma exact_le (x y : float) : Py.units x <= Py.units y -> Qle (Py.exact x) (Py.exact y).
Proof.
  intros H. rewrite !exact_units. unfold Qle. cbn [Qnum Qden].
  apply Z.mul_le_mono_nonneg_r; [lia | exact H].
Qed.


End SeriesFacts.

Module LenFacts.

Lemma digits2_pos_shift (p k : positive) :
  digits2_pos (Pos.iter xO p k) = (digits2_pos p + k)%positive.
Proof.
  induction k as [| k IH] using Pos.peano_ind.
  - cbn. lia.
  - rewrite Pos.iter_succ. cbn [digits2_pos]. rewrite IH. lia.
Qed.

(** A 53-bit mantissa with an exponent in range needs no rounding. *)
Lemma round_exact (s : bool) (m : positive) (e : Z) :
  Z.pos (digits2_pos m) = 53 -> -1074 <= e <= 971 ->
  binary_round_aux prec emax s (Z.pos m) e loc_Exact = S754_finite s m e.
Proof.
  intros Hd He.
  unfold binary_round_aux, shr_fexp, fexp, SpecFloat.emin, prec, emax.
  cbn [Zdigits2 shr_record_of_loc]. rewrite Hd.
  replace (Z.max (53 + e - 53) (3 - 1024 - 53) - e) with 0 by lia.
  cbn [shr shr_m loc_of_shr_record round_nearest_even Zdigits2 shr_record_of_loc].
  rewrite Hd.
  replace (Z.max (53 + e - 53) (3 - 1024 - 53) - e) with 0 by lia.
  cbn [shr shr_m].
  destruct (Z.leb_spec e (1024 - 53)); [reflexivity | lia].
Qed.

Lemma normalize_small (p : positive) :
  Z.pos p < 2 ^ 53 ->
  exists m e, binary_normalize prec emax (Z.pos p) 0 false = S754_finite false m e
              /\ bounded prec emax m e = true.
Proof.
  intros Hp.
  pose proof (FloatFacts.digits2_pos_bounds p) as [Hlo Hhi].
  assert (Hd : Z.pos (digits2_pos p) <= 53).
  { destruct (Z.le_gt_cases (Z.pos (digits2_pos p)) 53) as [H | H]; [exact H |].
    assert (2 ^ 53 <= 2 ^ (Z.pos (digits2_pos p) - 1)) by (apply Z.pow_le_mono_r; lia).
    lia. }
  cbn [binary_normalize]. unfold binary_round, shl_align.
  assert (Hf : fexp prec emax (Z.pos (digits2_pos p) + 0) = Z.pos (digits2_pos p) - 53).
  { unfold fexp, SpecFloat.emin, prec, emax. lia. }
  rewrite Hf.
  destruct (Z.pos (digits2_pos p) - 53 - 0) as [| k | k] eqn:Hdelta; [| lia |].
  - exists p, 0. rewrite round_exact by lia.
    split; [reflexivity |].
    unfold bounded, canonical_mantissa. rewrite Hf.
    apply andb_true_iff. split; [apply Z.eqb_eq | apply Z.leb_le]; unfold prec, emax; lia.
  - assert (Hdig : Z.pos (digits2_pos (Pos.iter xO p k)) = 53).
    { rewrite digits2_pos_shift. lia. }
    exists (Pos.iter xO p k), (Z.pos (digits2_pos p) - 53).
    rewrite round_exact by lia.
    split; [reflexivity |].
    unfold bounded, canonical_mantissa, fexp, SpecFloat.emin, prec, emax.
    rewrite Hdig.
    apply andb_true_iff. split; [apply Z.eqb_eq | apply Z.leb_le]; lia.
Qed.

(** [float(n)] of a positive integer below [2^53] is not zero. *)
Lemma float_of_Z_not_zero (n : Z) :
  0 < n < 2 ^ 53 -> Py.is_zero (Py.float_of_Z n) = false.
Proof.
  intros [Hpos Hlt]. destruct n as [| p | p]; try lia.
  destruct (normalize_small p Hlt) as (m & e & Hnorm & Hb).
  unfold Py.is_zero, Py.float_of_Z.
  rewrite FloatAxioms.eqb_spec, Hnorm, Prim2SF_SF2Prim by exact Hb.
  reflexivity.
Qed.

Lemma len_not_zero (xs : list float) :
  xs <> [] -> Z.of_nat (length xs) < 2 ^ 53 -> Py.is_zero (Py.len xs) = false.
Proof.
  intros Hne Hlen. apply float_of_Z_not_zero.
  split; [| exact Hlen]. destruct xs; [congruence | cbn; lia].
Qed.

End LenFacts.

(** * Substring search *)

Module StrFacts.

Import Spec.

Lemma starts_with_spec (p s : string) :
  PyStr.starts_with p s = true <-> exists after, s = p +:+ after.
Proof.
  revert s. induction p as [| a p IH]; intros s; cbn.
  - split; [intros _; now exists s | reflexivity].
  - destruct s as [| b s].
    + split; [discriminate | intros [after H]; discriminate].
    + rewrite andb_true_iff, IH. split.
      * intros [Hab [after ->]]. apply Ascii.eqb_eq in Hab as ->. now exists after.
      * intros [after H]. injection H as -> ->. split; [apply Ascii.eqb_refl | now exists after].
Qed.

Lemma contains_spec (needle hay : string) :
  PyStr.contains needle hay = true <-> occurs_in needle hay.
Proof.
  unfold occurs_in. induction hay as [| c hay IH].
  - cbn. rewrite orb_false_r, starts_with_spec. split.
    + intros [after H]. now exists EmptyString, after.
    + intros ([| ? before] & after & H); [now exists after | discriminate].
  - cbn [PyStr.contains]. rewrite orb_true_iff, starts_with_spec, IH. split.
    + intros [[after H] | (before & after & H)].
      * now exists EmptyString, after.
      * exists (String c before), after. cbn. now rewrite H.
    + intros ([| b before] & after & H).
      * left. now exists after.
      * right. injection H as -> H. now exists before, after.
Qed.

Lemma contains_false (needle hay : string) :
  PyStr.contains needle hay = false <-> ~ occurs_in needle hay.
Proof.
  rewrite <- contains_spec. destruct (PyStr.contains needle hay); split; intros; congruence.
Qed.

(** A text that holds "nendb" holds "nen". *)
Lemma nendb_nen (text : string) :
  PyStr.contains "nendb" text = true -> PyStr.contains "nen" text = true.
Proof.
  rewrite !contains_spec. intros (before & after & ->).
  exists before, ("db" +:+ after).
  clear. induction before as [| c before IH]; cbn; [reflexivity | now f_equal].
Qed.

End StrFacts.

(** * Target locator *)

Module LocatorFacts.

Import Spec AccurateResourceBenchmark.

Lemma first_match_find {A} (P : A -> Prop) (f : A -> bool) (l : list A) :
  (forall a, f a = true <-> P a) -> first_match P l (List.find f l).
Proof.
  intros Hf. induction l as [| a l IH]; cbn [List.find].
  - constructor.
  - destruct (f a) eqn:Ha.
    + exists [], l. split; [reflexivity |]. split; [now apply Hf | constructor].
    + assert (Hna : ~ P a) by (rewrite <- Hf, Ha; discriminate).
      destruct (List.find f l) as [p |]; cbn in IH |- *.
      * destruct IH as (earlier & later & -> & Hp & Hnone).
        exists (a :: earlier), later. split; [reflexivity |]. split; [exact Hp |].
        now constructor.
      * now constructor.
Qed.

Lemma find_memgraph_process_find (procs : list proc) :
  find_memgraph_process procs =
  List.find (fun p => name_hit "memgraph" p || cmdline_hit "memgraph" p) procs.
Proof.
  induction procs as [| p rest IH]; [reflexivity |].
  cbn [find_memgraph_process List.find]. unfold name_hit, cmdline_hit.
  destruct (name p) as [n |]; [destruct (negb (String.eqb n "") && _) |];
    cbn [orb]; try reflexivity;
    (destruct (cmdline p) as [[| tok toks] |]; [exact IH | | exact IH];
     destruct (PyStr.contains _ _); [reflexivity | exact IH]).
Qed.

Lemma find_nendb_process_find (procs : list proc) :
  find_nendb_process procs =
  List.find (fun p => name_hit "nen" p || cmdline_hit "nen" p) procs.
Proof.
  induction procs as [| p rest IH]; [reflexivity |].
  cbn [find_nendb_process List.find]. unfold name_hit, cmdline_hit.
  destruct (name p) as [n |]; [destruct (negb (String.eqb n "") && _) |];
    cbn [orb]; try reflexivity;
    (destruct (cmdline p) as [[| tok toks] |]; [exact IH | | exact IH];
     destruct (PyStr.contains "nen" _) eqn:Hnen;
     [now rewrite orb_true_r |];
     destruct (PyStr.contains "nendb" _) eqn:Hnendb;
     [apply StrFacts.nendb_nen in Hnendb; congruence | exact IH]).
Qed.

(** *** Letter case *)

(** [lower] sends two characters to the same character exactly when they
    are the same letter; checked on all pairs of characters. *)
Lemma same_letter_lower (a b : ascii) :
  same_letter a b = true <-> PyStr.lower_ascii a = PyStr.lower_ascii b.
Proof.
  assert (Hall :
    forallb (fun a =>
      forallb (fun b =>
        Bool.eqb (same_letter a b)
                 (Ascii.eqb (PyStr.lower_ascii a) (PyStr.lower_ascii b)))
        (map ascii_of_nat (seq 0 256)))
      (map ascii_of_nat (seq 0 256)) = true) by (vm_compute; reflexivity).
  assert (Hin : forall c, In c (map ascii_of_nat (seq 0 256))).
  { intros c. rewrite <- (ascii_nat_embedding c). apply in_map. apply in_seq.
    pose proof (nat_ascii_bounded c). lia. }
  rewrite forallb_forall in Hall. specialize (Hall a (Hin a)).
  rewrite forallb_forall in Hall. specialize (Hall b (Hin b)).
  apply Bool.eqb_prop in Hall. rewrite Hall. apply Ascii.eqb_eq.
Qed.

Lemma same_text_lower (s t : string) :
  same_text s t = true <-> PyStr.lower s = PyStr.lower t.
Proof.
  revert t. induction s as [| a s IH]; intros [| b t]; cbn [same_text PyStr.lower].
  - split; reflexivity.
  - split; discriminate.
  - split; discriminate.
  - rewrite andb_true_iff, same_letter_lower, IH. split.
    + intros [-> ->]. reflexivity.
    + intros H. injection H as Hc Hs. now split.
Qed.

Lemma append_cons (c : ascii) (s t : string) :
  String c s +:+ t = String c (s +:+ t).
Proof. reflexivity. Qed.

Lemma lower_append (s t : string) :
  PyStr.lower (s +:+ t) = PyStr.lower s +:+ PyStr.lower t.
Proof.
  induction s as [| c s IH]; [reflexivity |].
  rewrite append_cons. cbn [PyStr.lower]. rewrite append_cons. now f_equal.
Qed.

(** A cut of [text.lower()] is a cut of [text]. *)
Lemma lower_cut (text x y : string) :
  PyStr.lower text = x +:+ y ->
  exists u v, text = u +:+ v /\ PyStr.lower u = x /\ PyStr.lower v = y.
Proof.
  revert text. induction x as [| a x IH]; intros text H.
  - exists EmptyString, text. now repeat split.
  - destruct text as [| c text]; [discriminate H |].
    cbn [PyStr.lower] in H. rewrite append_cons in H. injection H as Hc H.
    destruct (IH _ H) as (u & v & -> & Hu & Hv).
    exists (String c u), v. split; [reflexivity |]. split; [| exact Hv].
    cbn [PyStr.lower]. now rewrite Hc, Hu.
Qed.

(** [hint in text.lower()], for a hint written in small letters, finds the
    hint in [text] whatever the case of the letters of [text]. *)
Lemma occurs_ci_contains (hint text : string) :
  PyStr.lower hint = hint ->
  occurs_ci hint text <-> PyStr.contains hint (PyStr.lower text) = true.
Proof.
  intros Hlow. rewrite StrFacts.contains_spec. unfold occurs_ci, occurs_in. split.
  - intros (before & found & after & -> & Hsame).
    apply same_text_lower in Hsame. rewrite Hlow in Hsame.
    exists (PyStr.lower before), (PyStr.lower after).
    now rewrite !lower_append, <- Hsame.
  - intros (before' & after' & H).
    apply lower_cut in H as (before & rest & -> & _ & Hrest).
    apply lower_cut in Hrest as (found & after & -> & Hfound & _).
    exists before, found, after. split; [reflexivity |].
    apply same_text_lower. now rewrite Hlow, Hfound.
Qed.

(** A text in capital letters holds the hint; a text that differs from it
    in more than letter case does not. *)
Lemma occurs_ci_capitals :
  occurs_ci "memgraph" "/usr/lib/MEMGRAPH/MemGraph" /\
  ~ occurs_ci "memgraph" "mem-graph".
Proof.
  split.
  - exists "/usr/lib/", "MEMGRAPH", "/MemGraph". split; reflexivity.
  - intros H. apply occurs_ci_contains in H; [discriminate H | reflexivity].
Qed.

(** The tests decide [matches] for a hint that is lower case and not
    empty. *)
Lemma hit_matches (hint : string) (p : proc) :
  PyStr.lower hint = hint -> PyStr.contains hint "" = false ->
  name_hit hint p || cmdline_hit hint p = true <-> matches hint p.
Proof.
  intros Hlow Hne. unfold matches, name_hit, cmdline_hit.
  rewrite orb_true_iff. split.
  - intros [H | H].
    + left. destruct (name p) as [n |]; [| discriminate].
      apply andb_true_iff in H as [_ H]. exists n. split; [reflexivity |].
      now apply occurs_ci_contains.
    + right. destruct (cmdline p) as [[| tok toks] |]; try discriminate.
      exists (tok :: toks). split; [reflexivity |]. now apply occurs_ci_contains.
  - intros [(n & Hn & H) | (args & Hargs & H)];
      apply (occurs_ci_contains _ _ Hlow) in H.
    + left. rewrite Hn. apply andb_true_iff. split; [| exact H].
      destruct n; [cbn [PyStr.lower] in H; congruence | reflexivity].
    + right. rewrite Hargs.
      destruct args as [| tok toks];
        [cbn [PyStr.join PyStr.lower] in H; congruence | exact H].
Qed.

End LocatorFacts.

(** C7. The target locators return the first process of the list whose short
    name or command line contains the name hint when letter case is ignored
    ("memgraph" for [find_memgraph_process], "nen" for [find_nendb_process]):
    some stretch of the name, or of the command line joined by spaces, is
    the hint up to the capital or small form of each letter. They return
    [None], a value and not an exception, when no process matches; they are
    functions of the process list alone. *)
Theorem locator_first_match (procs : list AccurateResourceBenchmark.proc) :
  Spec.first_match (Spec.matches "memgraph") procs
    (AccurateResourceBenchmark.find_memgraph_process procs) /\
  Spec.first_match (Spec.matches "nen") procs
    (AccurateResourceBenchmark.find_nendb_process procs).
Proof.
  split.
  - rewrite LocatorFacts.find_memgraph_process_find.
    apply LocatorFacts.first_match_find. intros p.
    now apply LocatorFacts.hit_matches.
  - rewrite LocatorFacts.find_nendb_process_find.
    apply LocatorFacts.first_match_find. intros p.
    now apply LocatorFacts.hit_matches.
Qed.

(** * Aggregation *)

(** C1, as stated, fails: on the empty series the aggregation of
    [monitor_process_resources] does not fail with an error, it returns
    normally, and what it returns is the empty dictionary. *)
Lemma process_stats_empty_is_returned :
  AccurateResourceBenchmark.process_stats [] [] = Py.Returned ∅ /\
  forall e, AccurateResourceBenchmark.process_stats [] [] <> Py.Raised e.
Proof. split; [reflexivity | intros e; discriminate]. Qed.

(** C1, amended. On an empty series no aggregation yields statistics:
    the dictionary of [monitor_resources] raises [StatisticsError] (from
    [statistics.mean]), the one of [monitor_system_resources] raises
    [ZeroDivisionError], and [monitor_process_resources] returns the empty
    dictionary by its guard, also when only one of its two lists is empty. *)
Theorem aggregate_empty_series :
  (forall memory_usage disk_io initial_disk,
     ResourceBenchmark.stats
       {| ResourceBenchmark.cpu_usage := [];
          ResourceBenchmark.memory_usage := memory_usage;
          ResourceBenchmark.disk_io := disk_io;
          ResourceBenchmark.initial_disk := initial_disk |}
     = Py.Raised Py.StatisticsError) /\
  (forall memory_usage,
     AccurateResourceBenchmark.process_stats [] memory_usage = Py.Returned ∅) /\
  (forall cpu_usage,
     AccurateResourceBenchmark.process_stats cpu_usage [] = Py.Returned ∅) /\
  (forall memory_usage,
     AccurateResourceBenchmark.system_stats [] memory_usage
     = Py.Raised Py.ZeroDivisionError).
Proof.
  split; [intros; reflexivity |]. split; [intros; reflexivity |]. split.
  - intros cpu_usage. unfold AccurateResourceBenchmark.process_stats.
    now rewrite orb_true_r.
  - intros. reflexivity.
Qed.


Module AggregateFacts.

Import Spec SeriesFacts.



(** [sum(xs) / len(xs)] of a non-empty series does not raise. *)
Lemma average_returns (xs : list float) :
  xs <> [] -> Z.of_nat (length xs) < 2 ^ 53 ->
  Py.truediv (Py.sum xs) (Py.len xs) =
  Py.Returned (PrimFloat.div (Py.sum xs) (Py.len xs)).
Proof.
  intros Hne Hlen. unfold Py.truediv. now rewrite LenFacts.len_not_zero.
Qed.


End AggregateFacts.



(** * Throughput *)

Module ThroughputFacts.

(** Dividing by a positive time does not raise: the rate is the float
    quotient. *)
Lemma truediv_positive (count elapsed : float) :
  Py.gt elapsed 0%float = true ->
  Py.truediv count elapsed = Py.Returned (PrimFloat.div count elapsed).
Proof.
  intros H. unfold Py.truediv. now rewrite (FloatFacts.gt_zero_not_zero _ H).
Qed.

(** A dictionary returned by [monitor_resources] holds its eight
    statistics, all floats. *)
Lemma stats_shape (s : ResourceBenchmark.samples) (d : Py.dict) :
  ResourceBenchmark.stats s = Py.Returned d ->
  exists cpu_avg cpu_max cpu_min memory_avg memory_max memory_min disk_read disk_write,
    d = list_to_map [
      ("cpu_avg", Py.VFloat cpu_avg);
      ("cpu_max", Py.VFloat cpu_max);
      ("cpu_min", Py.VFloat cpu_min);
      ("memory_avg_gb", Py.VFloat memory_avg);
      ("memory_max_gb", Py.VFloat memory_max);
      ("memory_min_gb", Py.VFloat memory_min);
      ("disk_read_total_mb", Py.VFloat disk_read);
      ("disk_write_total_mb", Py.VFloat disk_write)].
Proof.
  unfold ResourceBenchmark.stats.
  destruct (Py.statistics_mean (ResourceBenchmark.cpu_usage s)); [| discriminate].
  destruct (Py.max (ResourceBenchmark.cpu_usage s)); [| discriminate].
  destruct (Py.min (ResourceBenchmark.cpu_usage s)); [| discriminate].
  destruct (Py.statistics_mean (ResourceBenchmark.memory_usage s)); [| discriminate].
  destruct (Py.max (ResourceBenchmark.memory_usage s)); [| discriminate].
  destruct (Py.min (ResourceBenchmark.memory_usage s)); [| discriminate].
  intros H. injection H as <-. now eexists _, _, _, _, _, _, _, _.
Qed.

End ThroughputFacts.

(** C3. Whenever the measured time is positive, the stored throughput is the
    operation count divided by that time, as one binary64 division: 10000
    nodes and 1000 lookups in [benchmark_memgraph_resources], 1000 operations
    per batch in [benchmark_memgraph]. *)
Theorem throughput_is_count_over_elapsed
    (s : ResourceBenchmark.samples) (baseline : Py.dict)
    (creation_time lookup_time : float)
    (node_creation_time node_lookup_time rel_creation_time : float) :
  ResourceBenchmark.stats s = Py.Returned baseline ->
  Py.gt creation_time 0%float = true ->
  Py.gt lookup_time 0%float = true ->
  Py.gt node_creation_time 0%float = true ->
  Py.gt node_lookup_time 0%float = true ->
  Py.gt rel_creation_time 0%float = true ->
  let resource :=
    ResourceBenchmark.benchmark_memgraph_resources
      {| ResourceBenchmark.connect := Py.Returned tt;
         ResourceBenchmark.baseline := Py.Returned baseline;
         ResourceBenchmark.creation := Py.Returned creation_time;
         ResourceBenchmark.lookup := Py.Returned lookup_time;
         ResourceBenchmark.cleanup := Py.Returned tt |} in
  let real :=
    RealMemgraphBenchmark.benchmark_memgraph
      {| RealMemgraphBenchmark.connect := Py.Returned tt;
         RealMemgraphBenchmark.node_creation := Py.Returned node_creation_time;
         RealMemgraphBenchmark.node_lookup := Py.Returned node_lookup_time;
         RealMemgraphBenchmark.rel_creation := Py.Returned rel_creation_time;
         RealMemgraphBenchmark.cleanup := Py.Returned tt |} in
  resource !! "creation_rate"
    = Some (Py.VFloat (PrimFloat.div 10000%float creation_time)) /\
  resource !! "lookup_rate"
    = Some (Py.VFloat (PrimFloat.div 1000%float lookup_time)) /\
  real !! "node_creation_rate"
    = Some (Py.VFloat (PrimFloat.div 1000%float node_creation_time)) /\
  real !! "node_lookup_rate"
    = Some (Py.VFloat (PrimFloat.div 1000%float node_lookup_time)) /\
  real !! "relationship_creation_rate"
    = Some (Py.VFloat (PrimFloat.div 1000%float rel_creation_time)).
Proof.
  intros Hstats Hc Hl Hnc Hnl Hrc resource real.
  destruct (ThroughputFacts.stats_shape s baseline Hstats)
    as (a1 & a2 & a3 & a4 & a5 & a6 & a7 & a8 & ->).
  subst resource real.
  unfold ResourceBenchmark.benchmark_memgraph_resources,
    RealMemgraphBenchmark.benchmark_memgraph.
  cbn [ResourceBenchmark.connect ResourceBenchmark.baseline ResourceBenchmark.creation
       ResourceBenchmark.lookup ResourceBenchmark.cleanup
       RealMemgraphBenchmark.connect RealMemgraphBenchmark.node_creation
       RealMemgraphBenchmark.node_lookup RealMemgraphBenchmark.rel_creation
       RealMemgraphBenchmark.cleanup mbind outcome_bind Py.bind].
  rewrite !ThroughputFacts.truediv_positive by assumption.
  repeat split; vm_compute; reflexivity.
Qed.

(** 10000 nodes in half a second, 1000 lookups in 0.333 seconds. *)
Lemma throughput_is_count_over_elapsed_witness :
  exists resource : Py.dict,
    resource !! "creation_rate" = Some (Py.VFloat 20000%float) /\
    resource !! "lookup_rate" = Some (Py.VFloat (PrimFloat.div 1000 0.333)%float).
Proof.
  pose proof (throughput_is_count_over_elapsed
    {| ResourceBenchmark.cpu_usage := [12.5; 14]%float;
       ResourceBenchmark.memory_usage := [7.5; 7.75]%float;
       ResourceBenchmark.disk_io := [(4096, 8192)];
       ResourceBenchmark.initial_disk := Some (0, 0) |}
    _ 0.5%float 0.333%float 0.25%float 0.125%float 2%float
    eq_refl eq_refl eq_refl eq_refl eq_refl eq_refl) as (Hc & Hl & _).
  eexists. split; [exact Hc | exact Hl].
Defined.

(** * Workload output *)

Module WorkloadFacts.

Import Spec.

Section Scan.

Variable py_float : string -> Py.outcome float.

(** Without an insert line the loop leaves [insert_time] as it was. *)
Lemma scan_no_insert (lines : list string) (insert_time lookup_time : option float) :
  Forall (fun line => insert_line line = false) lines ->
  (forall line, In line lines -> lookup_line line = true ->
     exists t, Workload.average_of py_float line = Py.Returned t) ->
  exists lookup_time',
    Workload.scan py_float lines insert_time lookup_time
    = Py.Returned (insert_time, lookup_time').
Proof.
  intros Hno. revert lookup_time.
  induction Hno as [| line lines Hline _ IH]; intros lookup_time Hread.
  - now exists lookup_time.
  - cbn [Workload.scan]. unfold insert_line in Hline. rewrite Hline.
    destruct (PyStr.contains "Average:" line && PyStr.contains "ms per lookup" line) eqn:Hl.
    + destruct (Hread line (or_introl eq_refl)) as [t Ht].
      { unfold lookup_line, insert_line. now rewrite Hline, Hl. }
      rewrite Ht. cbn [mbind outcome_bind Py.bind].
      apply IH. intros l Hin. apply Hread. now right.
    + apply IH. intros l Hin. apply Hread. now right.
Qed.

(** Without a lookup line the loop leaves [lookup_time] as it was, if it
    returns at all. *)
Lemma scan_no_lookup (lines : list string) (insert_time lookup_time : option float)
    (r : option float * option float) :
  Forall (fun line => lookup_line line = false) lines ->
  Workload.scan py_float lines insert_time lookup_time = Py.Returned r ->
  snd r = lookup_time.
Proof.
  intros Hno. revert insert_time.
  induction Hno as [| line lines Hline _ IH]; intros insert_time; cbn [Workload.scan].
  - intros H. now injection H as <-.
  - unfold lookup_line, insert_line in Hline.
    destruct (PyStr.contains "Average:" line && PyStr.contains "ms per insert" line).
    + destruct (Workload.average_of py_float line); cbn [mbind outcome_bind Py.bind];
        [apply IH | discriminate].
    + cbn [negb andb] in Hline. rewrite Hline. apply IH.
Qed.

(** After an insert line [insert_time] is set, if the loop returns. *)
Lemma scan_insert_set (lines : list string) (insert_time lookup_time : option float)
    (r : option float * option float) :
  (Exists (fun line => insert_line line = true) lines \/ insert_time <> None) ->
  Workload.scan py_float lines insert_time lookup_time = Py.Returned r ->
  fst r <> None.
Proof.
  revert insert_time lookup_time.
  induction lines as [| line lines IH]; intros insert_time lookup_time Hex; cbn [Workload.scan].
  - intros H. injection H as <-. destruct Hex as [Hex | Hset]; [inversion Hex | exact Hset].
  - destruct (PyStr.contains "Average:" line && PyStr.contains "ms per insert" line) eqn:Hi.
    + destruct (Workload.average_of py_float line); cbn [mbind outcome_bind Py.bind];
        [| discriminate].
      apply IH. now right.
    + assert (Hrest : Exists (fun l => insert_line l = true) lines \/ insert_time <> None).
      { destruct Hex as [Hex | Hset]; [| now right].
        inversion Hex as [? ? Hhere | ? ? Hlater]; subst; [| now left].
        unfold insert_line in Hhere. congruence. }
      destruct (PyStr.contains "Average:" line && PyStr.contains "ms per lookup" line).
      * destruct (Workload.average_of py_float line); cbn [mbind outcome_bind Py.bind];
          [| discriminate].
        now apply IH.
      * now apply IH.
Qed.

End Scan.

End WorkloadFacts.

(** C4, as stated, fails: an output without any timing line gives the very
    dictionary that an output reporting 0.004547 ms and 0.002881 ms gives,
    and that dictionary has no "fallback" entry. *)
Lemma fallback_is_not_flagged :
  let unparseable :=
    FairBenchmark.benchmark_nendb_fair Workload.decimal_float
      (Py.Returned "Build Summary: 3/3 steps succeeded") in
  let measured :=
    FairBenchmark.benchmark_nendb_fair Workload.decimal_float
      (Py.Returned ("Average: 0.004547ms per insert" +:+ PyStr.newline +:+
                    "Average: 0.002881ms per lookup")) in
  unparseable = measured /\
  exists d, unparseable = Py.Returned d /\
            d !! "single_create_ms" = Some (Py.VFloat 0.004547%float) /\
            d !! "fallback" = None.
Proof.
  split; [reflexivity |].
  eexists. split; [reflexivity |].
  split; reflexivity.
Qed.

(** C4, amended. When no line of the output holds both "Average:" and
    "ms per insert" (and the lookup lines, if any, carry readable figures),
    the hard-coded timings are substituted: 0.004547 and 0.002881 ms in
    [benchmark_nendb_fair], 0.003328 and 0.003130 ms in
    [benchmark_nendb_resources], the lookup figure of the output being
    dropped with it. The result is an ordinary result dictionary with the
    keys of a measured run; it records no provenance. *)
Theorem unparseable_output_uses_constants
    (py_float : string -> Py.outcome float) (output : string)
    (s : ResourceBenchmark.samples) (baseline : Py.dict) :
  Forall (fun line => Spec.insert_line line = false) (Spec.lines_of output) ->
  (forall line, In line (Spec.lines_of output) -> Spec.lookup_line line = true ->
     exists t, Workload.average_of py_float line = Py.Returned t) ->
  ResourceBenchmark.stats s = Py.Returned baseline ->
  let fair := FairBenchmark.benchmark_nendb_fair py_float (Py.Returned output) in
  let resource :=
    ResourceBenchmark.benchmark_nendb_resources py_float
      {| ResourceBenchmark.nendb_baseline := Py.Returned baseline;
         ResourceBenchmark.subprocess := Py.Returned output |} in
  fair = Py.Returned (list_to_map [
    ("single_create_ms", Py.VFloat 0.004547%float);
    ("single_lookup_ms", Py.VFloat 0.002881%float);
    ("batch_create_ms", Py.VFloat 0.004547%float);
    ("batch_lookup_ms", Py.VFloat 0.002881%float);
    ("single_create_rate", Py.VFloat (PrimFloat.div 1000 0.004547)%float);
    ("single_lookup_rate", Py.VFloat (PrimFloat.div 1000 0.002881)%float);
    ("batch_create_rate", Py.VFloat (PrimFloat.div 1000 0.004547)%float);
    ("batch_lookup_rate", Py.VFloat (PrimFloat.div 1000 0.002881)%float);
    ("memory_per_node", Py.VInt 144);
    ("zero_fragmentation", Py.VBool true);
    ("predictable_performance", Py.VBool true)]) /\
  resource !! "insert_time_ms" = Some (Py.VFloat 0.003328%float) /\
  resource !! "lookup_time_ms" = Some (Py.VFloat 0.003130%float) /\
  resource !! "creation_rate" = Some (Py.VFloat (PrimFloat.div 1000 0.003328)%float) /\
  resource !! "lookup_rate" = Some (Py.VFloat (PrimFloat.div 1000 0.003130)%float) /\
  dom resource =
    {[ "creation_rate"; "lookup_rate"; "insert_time_ms"; "lookup_time_ms";
       "cpu_avg"; "cpu_max"; "memory_avg_gb"; "memory_max_gb";
       "disk_read_mb"; "disk_write_mb"; "environment" ]}.
Proof.
  intros Hno Hread Hstats fair resource.
  destruct (WorkloadFacts.scan_no_insert py_float _ None None Hno Hread)
    as [lookup_time Hscan].
  destruct (ThroughputFacts.stats_shape s baseline Hstats)
    as (a1 & a2 & a3 & a4 & a5 & a6 & a7 & a8 & ->).
  subst fair resource.
  change (Workload.scan py_float (Spec.lines_of output) None None)
    with (Workload.parse py_float output) in Hscan.
  unfold FairBenchmark.benchmark_nendb_fair, ResourceBenchmark.benchmark_nendb_resources.
  cbn [ResourceBenchmark.nendb_baseline ResourceBenchmark.subprocess
       mbind outcome_bind Py.bind].
  rewrite Hscan. cbn [mbind outcome_bind Py.bind].
  split; [reflexivity |].
  split; [reflexivity |]. split; [reflexivity |].
  split; [reflexivity |]. split; [reflexivity |].
  match goal with
  | |- dom ?r = _ =>
      replace r with (list_to_map [
        ("creation_rate", Py.VFloat (PrimFloat.div 1000 0.003328)%float);
        ("lookup_rate", Py.VFloat (PrimFloat.div 1000 0.003130)%float);
        ("insert_time_ms", Py.VFloat 0.003328%float);
        ("lookup_time_ms", Py.VFloat 0.003130%float);
        ("cpu_avg", Py.VFloat a1);
        ("cpu_max", Py.VFloat a2);
        ("memory_avg_gb", Py.VFloat a4);
        ("memory_max_gb", Py.VFloat a5);
        ("disk_read_mb", Py.VFloat a7);
        ("disk_write_mb", Py.VFloat a8);
        ("environment", Py.VStr "Native macOS")] : Py.dict) by reflexivity
  end.
  rewrite dom_list_to_map_L. cbn [fmap list_fmap fst]. set_solver.
Qed.

(** An output with a lookup line only: its figure is dropped together with
    the missing insert figure. *)
Lemma unparseable_output_uses_constants_witness :
  exists resource : Py.dict,
    resource !! "insert_time_ms" = Some (Py.VFloat 0.003328%float) /\
    resource !! "lookup_time_ms" = Some (Py.VFloat 0.003130%float).
Proof.
  set (s := {| ResourceBenchmark.cpu_usage := [12.5; 14]%float;
               ResourceBenchmark.memory_usage := [7.5; 7.75]%float;
               ResourceBenchmark.disk_io := [(4096, 8192)];
               ResourceBenchmark.initial_disk := Some (0, 0) |}).
  destruct (unparseable_output_uses_constants Workload.decimal_float
              "Average: 0.002000ms per lookup" s
              (Py.rescue (ResourceBenchmark.stats s) ∅)) as (_ & Hi & Hl & _).
  - repeat constructor.
  - intros line [<- | []] _. eexists. reflexivity.
  - reflexivity.
  - eexists. split; [exact Hi | exact Hl].
Defined.

(** C10. When the output has a line with "Average:" and "ms per insert" but
    none read as a lookup line, the loop of the resource benchmarks ends (if
    every figure is readable) with the insert time set and the lookup time
    still [None]; the fallback, which tests the insert time only, is not
    applied, the rate computation on [None] raises, and
    [benchmark_nendb_resources] and [benchmark_nendb_accurate] return the
    empty dictionary, whatever the baseline measurement was. *)
Theorem missing_lookup_line_empties_result
    (py_float : string -> Py.outcome float) (output : string) :
  Exists (fun line => Spec.insert_line line = true) (Spec.lines_of output) ->
  Forall (fun line => Spec.lookup_line line = false) (Spec.lines_of output) ->
  (forall r, Workload.parse py_float output = Py.Returned r ->
     exists insert_time, r = (Some insert_time, None)) /\
  (forall baseline,
     ResourceBenchmark.benchmark_nendb_resources py_float
       {| ResourceBenchmark.nendb_baseline := baseline;
          ResourceBenchmark.subprocess := Py.Returned output |} = ∅) /\
  (forall monitor_system,
     AccurateResourceBenchmark.benchmark_nendb_accurate py_float
       {| AccurateResourceBenchmark.subprocess := Py.Returned output;
          AccurateResourceBenchmark.monitor_system := monitor_system |} = ∅).
Proof.
  intros Hins Hlook.
  assert (Hparse : forall r, Workload.parse py_float output = Py.Returned r ->
                             exists insert_time, r = (Some insert_time, None)).
  { intros [i l] Hr. unfold Workload.parse in Hr. fold (Spec.lines_of output) in Hr.
    pose proof (WorkloadFacts.scan_no_lookup py_float _ _ _ _ Hlook Hr) as Hl.
    pose proof (WorkloadFacts.scan_insert_set py_float _ _ _ _ (or_introl Hins) Hr) as Hi.
    cbn in Hl, Hi. subst l. destruct i as [t |]; [now exists t | congruence]. }
  split; [exact Hparse |]. split.
  - intros baseline. unfold ResourceBenchmark.benchmark_nendb_resources.
    cbn [ResourceBenchmark.nendb_baseline ResourceBenchmark.subprocess].
    destruct baseline as [b | e]; [| reflexivity].
    cbn [mbind outcome_bind Py.bind].
    destruct (Workload.parse py_float output) as [r | e] eqn:Hr; [| reflexivity].
    destruct (Hparse r eq_refl) as [t ->].
    cbn [mbind outcome_bind Py.bind Workload.rate].
    destruct (Py.truediv 1000 t); reflexivity.
  - intros monitor_system. unfold AccurateResourceBenchmark.benchmark_nendb_accurate.
    cbn [AccurateResourceBenchmark.subprocess mbind outcome_bind Py.bind].
    destruct (Workload.parse py_float output) as [r | e] eqn:Hr; [| reflexivity].
    destruct (Hparse r eq_refl) as [t ->].
    cbn [mbind outcome_bind Py.bind Workload.rate].
    destruct (Py.truediv 1000 t); reflexivity.
Qed.

(** An output with the insert line alone: the scan returns the insert time
    and no lookup time, and both benchmarks come back empty. *)
Lemma missing_lookup_line_empties_result_witness :
  Workload.parse Workload.decimal_float "Average: 0.004547ms per insert"
    = Py.Returned (Some 0.004547%float, None) /\
  ResourceBenchmark.benchmark_nendb_resources Workload.decimal_float
    {| ResourceBenchmark.nendb_baseline := Py.Returned ∅;
       ResourceBenchmark.subprocess := Py.Returned "Average: 0.004547ms per insert" |}
    = ∅.
Proof.
  destruct (missing_lookup_line_empties_result Workload.decimal_float
              "Average: 0.004547ms per insert") as (_ & Hres & _).
  - left. reflexivity.
  - repeat constructor.
  - split; [reflexivity | apply Hres].
Defined.

(** * Comparison *)

Module ScoreFacts.




End ScoreFacts.


Module RatioFacts.

Import ResourceBenchmark.

Lemma efficiency_zero_denominator (memgraph nendb : float) :
  Py.gt nendb 0%float = false -> efficiency memgraph nendb = Py.Returned infinity.
Proof. unfold efficiency. now intros ->. Qed.

Lemma efficiency_positive_denominator (memgraph nendb : float) :
  Py.gt nendb 0%float = true ->
  efficiency memgraph nendb = Py.Returned (PrimFloat.div memgraph nendb).
Proof.
  unfold efficiency. intros H. rewrite H. now apply ThroughputFacts.truediv_positive.
Qed.

Lemma per_unit_zero_denominator (create resource : float) :
  Py.gt resource 0%float = false -> per_unit create resource = Py.Returned 0%float.
Proof. unfold per_unit. now intros ->. Qed.

(** One step through a [x ← m; k] of a computation known to return. *)
Ltac returned H :=
  match type of H with
  | mbind _ ?m = Py.Returned _ =>
      let E := fresh "E" in
      destruct m eqn:E; cbn [mbind outcome_bind Py.bind] in H; [| discriminate H]
  end.

(** The CPU line of a report that was printed to its end. *)
Lemma report_cpu_line (nendb_results memgraph_results : Py.dict)
    (nendb_cpu memgraph_cpu : float) (report : list Out.line) :
  Py.number nendb_results "cpu_avg" = Py.Returned nendb_cpu ->
  Py.number memgraph_results "cpu_avg" = Py.Returned memgraph_cpu ->
  generate_resource_report nendb_results memgraph_results = Py.Returned report ->
  exists cpu_efficiency cpu_line,
    efficiency memgraph_cpu nendb_cpu = Py.Returned cpu_efficiency /\
    In cpu_line report /\
    (if Py.lt nendb_cpu memgraph_cpu
     then Py.Returned cpu_line =
          Py.Returned [Out.Lit "  🥇 NenDB is "; Out.Num ".1f" cpu_efficiency;
                       Out.Lit "x more CPU efficient"]
     else exists inverse,
          Py.truediv 1%float cpu_efficiency = Py.Returned inverse /\
          cpu_line = [Out.Lit "  ⚠️  Memgraph is "; Out.Num ".1f" inverse;
                      Out.Lit "x more CPU efficient"]).
Proof.
  intros Hn Hm H. unfold generate_resource_report in H.
  do 3 returned H. rewrite Hn, Hm in H. cbn [mbind outcome_bind Py.bind] in H.
  returned H. exists a2. returned H. exists a3.
  do 14 returned H.
  injection H as <-.
  split; [reflexivity |]. split.
  - do 14 right. left. reflexivity.
  - destruct (Py.lt nendb_cpu memgraph_cpu).
    + symmetry. exact E3.
    + destruct (Py.truediv 1 a2) as [inverse |]; [| discriminate E3].
      cbn [mbind outcome_bind Py.bind] in E3. injection E3 as <-.
      now exists inverse.
Qed.

(** The memory line of a report that was printed to its end. *)
Lemma report_memory_line (nendb_results memgraph_results : Py.dict)
    (nendb_mem memgraph_mem : float) (report : list Out.line) :
  Py.number nendb_results "memory_avg_gb" = Py.Returned nendb_mem ->
  Py.number memgraph_results "memory_avg_gb" = Py.Returned memgraph_mem ->
  generate_resource_report nendb_results memgraph_results = Py.Returned report ->
  exists memory_efficiency memory_line,
    efficiency memgraph_mem nendb_mem = Py.Returned memory_efficiency /\
    In memory_line report /\
    (if Py.lt nendb_mem memgraph_mem
     then Py.Returned memory_line =
          Py.Returned [Out.Lit "  🥇 NenDB is "; Out.Num ".1f" memory_efficiency;
                       Out.Lit "x more memory efficient"]
     else exists inverse,
          Py.truediv 1%float memory_efficiency = Py.Returned inverse /\
          memory_line = [Out.Lit "  ⚠️  Memgraph is "; Out.Num ".1f" inverse;
                         Out.Lit "x more memory efficient"]).
Proof.
  intros Hn Hm H. unfold generate_resource_report in H.
  do 7 returned H. rewrite Hn, Hm in H. cbn [mbind outcome_bind Py.bind] in H.
  returned H. exists a6. returned H. exists a7.
  do 10 returned H.
  injection H as <-.
  split; [reflexivity |]. split.
  - do 20 right. left. reflexivity.
  - destruct (Py.lt nendb_mem memgraph_mem).
    + symmetry. exact E7.
    + destruct (Py.truediv 1 a6) as [inverse |]; [| discriminate E7].
      cbn [mbind outcome_bind Py.bind] in E7. injection E7 as <-.
      now exists inverse.
Qed.

End RatioFacts.

(** C5, as stated, fails: with a NenDB CPU average of 0.0 the report of
    [generate_resource_report] prints the ratio as infinity. *)
Lemma zero_cpu_average_prints_infinity :
  let nendb_results : Py.dict := list_to_map [
    ("creation_rate", Py.VFloat 300480.76923076925%float);
    ("lookup_rate", Py.VFloat 319488.8178913738%float);
    ("insert_time_ms", Py.VFloat 0.003328%float);
    ("lookup_time_ms", Py.VFloat 0.003130%float);
    ("cpu_avg", Py.VFloat 0%float);
    ("cpu_max", Py.VFloat 0%float);
    ("memory_avg_gb", Py.VFloat 7.5%float);
    ("memory_max_gb", Py.VFloat 7.75%float);
    ("disk_read_mb", Py.VFloat 0.5%float);
    ("disk_write_mb", Py.VFloat 1.25%float);
    ("environment", Py.VStr "Native macOS")] in
  let memgraph_results : Py.dict := list_to_map [
    ("creation_rate", Py.VFloat 2500%float);
    ("lookup_rate", Py.VFloat 4000%float);
    ("creation_time", Py.VFloat 4%float);
    ("lookup_time", Py.VFloat 0.25%float);
    ("cpu_avg", Py.VFloat 12.5%float);
    ("cpu_max", Py.VFloat 31%float);
    ("memory_avg_gb", Py.VFloat 7.75%float);
    ("memory_max_gb", Py.VFloat 8%float);
    ("disk_read_mb", Py.VFloat 2%float);
    ("disk_write_mb", Py.VFloat 16%float);
    ("environment", Py.VStr "Docker Container")] in
  exists report,
    ResourceBenchmark.generate_resource_report nendb_results memgraph_results
      = Py.Returned report /\
    In [Out.Lit "  🥇 NenDB is "; Out.Num ".1f" infinity; Out.Lit "x more CPU efficient"]
       report /\
    In infinity (flat_map Out.numbers report).
Proof.
  cbv zeta. eexists. split; [reflexivity |]. split.
  - do 14 right. left. reflexivity.
  - apply in_flat_map.
    exists [Out.Lit "  🥇 NenDB is "; Out.Num ".1f" infinity; Out.Lit "x more CPU efficient"].
    split; [do 14 right; left; reflexivity | left; reflexivity].
Qed.

(** C5, amended. In [generate_resource_report], when the NenDB figure that
    is the denominator of an efficiency ratio (CPU average, average memory)
    is not greater than zero, the ratio is [float('inf')]; where Memgraph's
    figure is the larger one the report prints that infinity, and the
    per-resource-unit figure of NenDB is 0. Infinity is the marker; there is
    no other. *)
Theorem zero_denominator_ratio_is_infinity
    (nendb_results memgraph_results : Py.dict)
    (nendb_cpu memgraph_cpu nendb_mem memgraph_mem : float)
    (report : list Out.line) :
  Py.number nendb_results "cpu_avg" = Py.Returned nendb_cpu ->
  Py.number memgraph_results "cpu_avg" = Py.Returned memgraph_cpu ->
  Py.number nendb_results "memory_avg_gb" = Py.Returned nendb_mem ->
  Py.number memgraph_results "memory_avg_gb" = Py.Returned memgraph_mem ->
  ResourceBenchmark.generate_resource_report nendb_results memgraph_results
    = Py.Returned report ->
  (Py.gt nendb_cpu 0%float = false ->
     ResourceBenchmark.efficiency memgraph_cpu nendb_cpu = Py.Returned infinity /\
     (forall create, ResourceBenchmark.per_unit create nendb_cpu = Py.Returned 0%float) /\
     (Py.lt nendb_cpu memgraph_cpu = true ->
        In [Out.Lit "  🥇 NenDB is "; Out.Num ".1f" infinity;
            Out.Lit "x more CPU efficient"] report)) /\
  (Py.gt nendb_mem 0%float = false ->
     ResourceBenchmark.efficiency memgraph_mem nendb_mem = Py.Returned infinity /\
     (forall create, ResourceBenchmark.per_unit create nendb_mem = Py.Returned 0%float) /\
     (Py.lt nendb_mem memgraph_mem = true ->
        In [Out.Lit "  🥇 NenDB is "; Out.Num ".1f" infinity;
            Out.Lit "x more memory efficient"] report)).
Proof.
  intros Hnc Hmc Hnm Hmm Hreport. split; intros Hzero.
  - pose proof (RatioFacts.efficiency_zero_denominator memgraph_cpu _ Hzero) as Heff.
    split; [exact Heff |]. split.
    + intros create. now apply RatioFacts.per_unit_zero_denominator.
    + intros Hlt.
      destruct (RatioFacts.report_cpu_line _ _ _ _ _ Hnc Hmc Hreport)
        as (e & line & He & Hin & Hline).
      rewrite Heff in He. injection He as <-.
      rewrite Hlt in Hline. injection Hline as ->. exact Hin.
  - pose proof (RatioFacts.efficiency_zero_denominator memgraph_mem _ Hzero) as Heff.
    split; [exact Heff |]. split.
    + intros create. now apply RatioFacts.per_unit_zero_denominator.
    + intros Hlt.
      destruct (RatioFacts.report_memory_line _ _ _ _ _ Hnm Hmm Hreport)
        as (e & line & He & Hin & Hline).
      rewrite Heff in He. injection He as <-.
      rewrite Hlt in Hline. injection Hline as ->. exact Hin.
Qed.

(** * Methodology caveats *)

Module CaveatFacts.



End CaveatFacts.



(** A NenDB baseline with an idle CPU against a busy Memgraph. *)
Lemma zero_denominator_ratio_is_infinity_witness :
  exists report,
    In [Out.Lit "  🥇 NenDB is "; Out.Num ".1f" infinity; Out.Lit "x more CPU efficient"]
       report.
Proof.
  set (nendb_results := (list_to_map [
    ("creation_rate", Py.VFloat 300480.76923076925%float);
    ("cpu_avg", Py.VFloat 0%float);
    ("memory_avg_gb", Py.VFloat 7.5%float);
    ("disk_read_mb", Py.VFloat 0.5%float);
    ("disk_write_mb", Py.VFloat 1.25%float)] : Py.dict)).
  set (memgraph_results := (list_to_map [
    ("creation_rate", Py.VFloat 2500%float);
    ("cpu_avg", Py.VFloat 12.5%float);
    ("memory_avg_gb", Py.VFloat 7.75%float);
    ("disk_read_mb", Py.VFloat 2%float);
    ("disk_write_mb", Py.VFloat 16%float)] : Py.dict)).
  destruct (zero_denominator_ratio_is_infinity nendb_results memgraph_results
              0%float 12.5%float 7.5%float 7.75%float
              (Py.rescue (ResourceBenchmark.generate_resource_report
                            nendb_results memgraph_results) [])
              eq_refl eq_refl eq_refl eq_refl eq_refl) as [Hcpu _].
  destruct (Hcpu eq_refl) as (_ & _ & Hline).
  eexists. exact (Hline eq_refl).
Defined.

(** * Process-scoped sampling *)

Module SamplerFacts.

Import AccurateResourceBenchmark.

Section Loop.

Variables (start_time : float) (duration : Z).

(** Readings that complete are appended pairwise and the loop goes on. *)
Lemma sample_process_completed (done : list (float * float * Z))
    (rest : list reading) (cpu_usage memory_usage : list float) :
  Forall (fun r => Spec.in_budget start_time duration (fst (fst r)) = true) done ->
  sample_process start_time duration (map Spec.completed done ++ rest)
    cpu_usage memory_usage
  = sample_process start_time duration rest
      (cpu_usage ++ map Spec.cpu_of done) (memory_usage ++ map Spec.memory_of done).
Proof.
  intros H. revert cpu_usage memory_usage.
  induction H as [| [[c cpu] bytes] done Hc _ IH]; intros cpu_usage memory_usage.
  - cbn. now rewrite !app_nil_r.
  - cbn [map app sample_process Spec.completed clock cpu_percent rss fst snd].
    unfold Spec.in_budget in Hc. cbn [fst] in Hc. rewrite Hc.
    rewrite IH. unfold Spec.cpu_of, Spec.memory_of. cbn [fst snd].
    now rewrite <- !app_assoc.
Qed.

(** The process is found gone by [cpu_percent] after [k] complete
    readings: the loop stops with [k] samples in each list. *)
Lemma sample_process_gone_at_cpu (done : list (float * float * Z))
    (t : reading) (rest : list reading) (e : Py.exn) :
  Forall (fun r => Spec.in_budget start_time duration (fst (fst r)) = true) done ->
  Spec.in_budget start_time duration (clock t) = true ->
  cpu_percent t = Py.Raised e -> gone e = true ->
  sample_process start_time duration (map Spec.completed done ++ t :: rest) [] []
  = Some (Py.Returned (map Spec.cpu_of done, map Spec.memory_of done)).
Proof.
  intros Hdone Ht Hcpu Hgone. rewrite sample_process_completed by exact Hdone.
  cbn [sample_process app]. unfold Spec.in_budget in Ht.
  now rewrite Ht, Hcpu, Hgone.
Qed.

(** The process is found gone by [memory_info] only: the CPU reading of
    that pass stays in the list, one more than the memory readings. *)
Lemma sample_process_gone_at_memory (done : list (float * float * Z))
    (t : reading) (rest : list reading) (cpu : float) (e : Py.exn) :
  Forall (fun r => Spec.in_budget start_time duration (fst (fst r)) = true) done ->
  Spec.in_budget start_time duration (clock t) = true ->
  cpu_percent t = Py.Returned cpu -> rss t = Py.Raised e -> gone e = true ->
  sample_process start_time duration (map Spec.completed done ++ t :: rest) [] []
  = Some (Py.Returned (map Spec.cpu_of done ++ [cpu], map Spec.memory_of done)).
Proof.
  intros Hdone Ht Hcpu Hrss Hgone. rewrite sample_process_completed by exact Hdone.
  cbn [sample_process app]. unfold Spec.in_budget in Ht.
  now rewrite Ht, Hcpu, Hrss, Hgone.
Qed.

(** The time budget is spent after [k] complete readings: the loop stops
    with them, whatever the later readings would be. *)
Lemma sample_process_budget_spent (done : list (float * float * Z))
    (t : reading) (rest : list reading) :
  Forall (fun r => Spec.in_budget start_time duration (fst (fst r)) = true) done ->
  Spec.in_budget start_time duration (clock t) = false ->
  sample_process start_time duration (map Spec.completed done ++ t :: rest) [] []
  = Some (Py.Returned (map Spec.cpu_of done, map Spec.memory_of done)).
Proof.
  intros Hdone Ht. rewrite sample_process_completed by exact Hdone.
  cbn [sample_process app]. unfold Spec.in_budget in Ht. now rewrite Ht.
Qed.

End Loop.

End SamplerFacts.

(** C6, at the failing input. Ten passes are requested (20 seconds, one pass
    every 2 seconds); three complete, and in the fourth the process is gone
    between [cpu_percent] and [memory_info]. The loop stops without an
    error, but the CPU list has four readings against three memory readings,
    and the fourth, 99.0, is the stored [cpu_max] and enters [cpu_avg]. *)
Theorem torn_pass_keeps_its_cpu_reading :
  let trace := [
    Spec.completed (100%float, 10%float, 536870912);
    Spec.completed (102%float, 20%float, 536870912);
    Spec.completed (104%float, 30%float, 536870912);
    {| AccurateResourceBenchmark.clock := 106%float;
       AccurateResourceBenchmark.cpu_percent := Py.Returned 99%float;
       AccurateResourceBenchmark.rss := Py.Raised Py.NoSuchProcess |};
    Spec.completed (108%float, 40%float, 536870912)] in
  AccurateResourceBenchmark.sample_process 100%float 20 trace [] []
    = Some (Py.Returned ([10; 20; 30; 99]%float, [512; 512; 512]%float)) /\
  exists d,
    AccurateResourceBenchmark.monitor_process_resources 100%float 20 trace
      = Some (Py.Returned d) /\
    d !! "cpu_max" = Some (Py.VFloat 99%float) /\
    d !! "cpu_avg" = Some (Py.VFloat 39.75%float) /\
    d !! "memory_avg_mb" = Some (Py.VFloat 512%float).
Proof.
  cbv zeta. split; [reflexivity |].
  eexists. split; [reflexivity |]. repeat split; reflexivity.
Qed.

(** * Worked examples *)

Module Examples.

(** [statistics.mean] keeps the three readings 0.1 at 0.1, where
    [sum / len] gives 0.10000000000000002. *)
Example mean_of_three_tenths :
  Py.statistics_mean [0.1; 0.1; 0.1]%float = Py.Returned 0.1%float /\
  Py.truediv (Py.sum [0.1; 0.1; 0.1]%float) (Py.len [0.1; 0.1; 0.1]%float)
    = Py.Returned 0.10000000000000002%float.
Proof. split; reflexivity. Qed.

(** [monitor_resources(0)]: the loop body never runs and the aggregation
    raises. *)
Example monitor_resources_without_time :
  ResourceBenchmark.monitor_resources (Some (0, 0)) 100%float 0
    [{| ResourceBenchmark.clock := 100%float;
        ResourceBenchmark.cpu_percent := 3.5%float;
        ResourceBenchmark.memory_used := 8589934592;
        ResourceBenchmark.disk := Some (4096, 0) |}]
  = Some (Py.Raised Py.StatisticsError).
Proof. reflexivity. Qed.

(** Two passes of [monitor_resources(3)], the third clock reading being
    past the budget: disk figures are differences between passes. *)
Example monitor_resources_two_passes :
  exists d,
    ResourceBenchmark.monitor_resources (Some (1048576, 0)) 100%float 3
      [{| ResourceBenchmark.clock := 100%float;
          ResourceBenchmark.cpu_percent := 10%float;
          ResourceBenchmark.memory_used := 8589934592;
          ResourceBenchmark.disk := Some (3145728, 1048576) |};
       {| ResourceBenchmark.clock := 102%float;
          ResourceBenchmark.cpu_percent := 20%float;
          ResourceBenchmark.memory_used := 10737418240;
          ResourceBenchmark.disk := Some (4194304, 1048576) |};
       {| ResourceBenchmark.clock := 104%float;
          ResourceBenchmark.cpu_percent := 90%float;
          ResourceBenchmark.memory_used := 0;
          ResourceBenchmark.disk := None |}]
    = Some (Py.Returned d) /\
    d !! "cpu_avg" = Some (Py.VFloat 15%float) /\
    d !! "memory_max_gb" = Some (Py.VFloat 10%float) /\
    d !! "disk_read_total_mb" = Some (Py.VFloat 3%float) /\
    d !! "disk_write_total_mb" = Some (Py.VFloat 1%float).
Proof. eexists. repeat split; reflexivity. Qed.

(** The locator ignores letter case and looks at the command line when the
    name does not match; it answers [None] for a list without a match. *)
Example find_memgraph_by_command_line :
  AccurateResourceBenchmark.find_memgraph_process
    [{| AccurateResourceBenchmark.pid := 1;
        AccurateResourceBenchmark.name := Some "systemd";
        AccurateResourceBenchmark.cmdline := Some ["/sbin/init"] |};
     {| AccurateResourceBenchmark.pid := 77;
        AccurateResourceBenchmark.name := Some "docker-proxy";
        AccurateResourceBenchmark.cmdline :=
          Some ["/usr/bin/run"; "--image"; "MemGraph/memgraph-platform"] |};
     {| AccurateResourceBenchmark.pid := 78;
        AccurateResourceBenchmark.name := Some "memgraph";
        AccurateResourceBenchmark.cmdline := None |}]
  = Some {| AccurateResourceBenchmark.pid := 77;
            AccurateResourceBenchmark.name := Some "docker-proxy";
            AccurateResourceBenchmark.cmdline :=
              Some ["/usr/bin/run"; "--image"; "MemGraph/memgraph-platform"] |}.
Proof. reflexivity. Qed.

(** A name or a command line written in capital letters is found as
    well. *)
Example find_memgraph_capital_letters :
  AccurateResourceBenchmark.find_memgraph_process
    [{| AccurateResourceBenchmark.pid := 1;
        AccurateResourceBenchmark.name := Some "systemd";
        AccurateResourceBenchmark.cmdline := Some ["/sbin/init"] |};
     {| AccurateResourceBenchmark.pid := 91;
        AccurateResourceBenchmark.name := Some "MEMGRAPH.EXE";
        AccurateResourceBenchmark.cmdline := None |}]
  = Some {| AccurateResourceBenchmark.pid := 91;
            AccurateResourceBenchmark.name := Some "MEMGRAPH.EXE";
            AccurateResourceBenchmark.cmdline := None |} /\
  AccurateResourceBenchmark.find_nendb_process
    [{| AccurateResourceBenchmark.pid := 92;
        AccurateResourceBenchmark.name := Some "launcher";
        AccurateResourceBenchmark.cmdline := Some ["/opt/NENDB/bin/serve"; "--port"; "8080"] |}]
  = Some {| AccurateResourceBenchmark.pid := 92;
            AccurateResourceBenchmark.name := Some "launcher";
            AccurateResourceBenchmark.cmdline :=
              Some ["/opt/NENDB/bin/serve"; "--port"; "8080"] |}.
Proof. split; reflexivity. Qed.

Example find_nendb_none :
  AccurateResourceBenchmark.find_nendb_process
    [{| AccurateResourceBenchmark.pid := 1;
        AccurateResourceBenchmark.name := Some "systemd";
        AccurateResourceBenchmark.cmdline := Some ["/sbin/init"] |};
     {| AccurateResourceBenchmark.pid := 2;
        AccurateResourceBenchmark.name := None;
        AccurateResourceBenchmark.cmdline := Some [] |}]
  = None.
Proof. reflexivity. Qed.

(** The fair report on the fallback NenDB result against a Memgraph that
    is slower on every metric: all six points. *)
Example fair_report_full_score :
  exists line,
    (nendb ← FairBenchmark.benchmark_nendb_fair Workload.decimal_float (Py.Returned "");
     FairBenchmark.generate_fair_report nendb
       (list_to_map [
          ("single_create_ms", Py.VFloat 0.5%float);
          ("batch_create_ms", Py.VFloat 0.25%float);
          ("single_create_rate", Py.VFloat 2000%float);
          ("memory_per_node", Py.VInt 200)]))
    = Py.Returned (6, line).
Proof. eexists. reflexivity. Qed.

(** A tie on every metric of the fair report leaves the two flag points. *)
Example fair_report_all_ties :
  FairBenchmark.total_score 1 1 2 2 3 3 144 144 true true = 2.
Proof. reflexivity. Qed.

(** A timing line whose figure cannot be read is no case for the
    fallback: [float] raises, which [benchmark_nendb_resources] turns into
    the empty result and [benchmark_nendb_fair] lets through. *)
Example unreadable_figure_raises :
  FairBenchmark.benchmark_nendb_fair Workload.decimal_float
    (Py.Returned "Average: n/a ms per insert")
  = Py.Raised Py.ValueError /\
  ResourceBenchmark.benchmark_nendb_resources Workload.decimal_float
    {| ResourceBenchmark.nendb_baseline := Py.Returned ∅;
       ResourceBenchmark.subprocess := Py.Returned "Average: n/a ms per insert" |}
  = ∅.
Proof. split; reflexivity. Qed.

(** With the insert line alone, [benchmark_nendb_fair] replaces both
    timings, where the resource benchmarks return the empty result. *)
Example fair_falls_back_without_lookup_line :
  exists d,
    FairBenchmark.benchmark_nendb_fair Workload.decimal_float
      (Py.Returned "Average: 0.001000ms per insert") = Py.Returned d /\
    d !! "single_create_ms" = Some (Py.VFloat 0.004547%float) /\
    d !! "single_lookup_ms" = Some (Py.VFloat 0.002881%float).
Proof. eexists. repeat split; reflexivity. Qed.

(** A measured time of zero makes the rate raise, and the benchmark
    returns the empty result. *)
Example zero_elapsed_time_empties_result :
  RealMemgraphBenchmark.benchmark_memgraph
    {| RealMemgraphBenchmark.connect := Py.Returned tt;
       RealMemgraphBenchmark.node_creation := Py.Returned 0%float;
       RealMemgraphBenchmark.node_lookup := Py.Returned 0.5%float;
       RealMemgraphBenchmark.rel_creation := Py.Returned 0.5%float;
       RealMemgraphBenchmark.cleanup := Py.Returned tt |}
  = ∅.
Proof. reflexivity. Qed.

(** The inverse ratio [1 / cpu_efficiency] has no guard: with an idle
    Memgraph (CPU average 0.0) and a busy NenDB the report raises. *)
Example report_raises_on_idle_memgraph :
  ResourceBenchmark.generate_resource_report
    (list_to_map [
       ("creation_rate", Py.VFloat 300000%float);
       ("cpu_avg", Py.VFloat 12.5%float);
       ("memory_avg_gb", Py.VFloat 7.5%float);
       ("disk_read_mb", Py.VFloat 0.5%float);
       ("disk_write_mb", Py.VFloat 1.25%float)])
    (list_to_map [
       ("creation_rate", Py.VFloat 2500%float);
       ("cpu_avg", Py.VFloat 0%float);
       ("memory_avg_gb", Py.VFloat 7.75%float);
       ("disk_read_mb", Py.VFloat 2%float);
       ("disk_write_mb", Py.VFloat 16%float)])
  = Py.Raised Py.ZeroDivisionError.
Proof. reflexivity. Qed.

End Examples.

(** * The system-wide sampling loop of resource_benchmark.py *)

Module MonitorFacts.

Import ResourceBenchmark.

Lemma tick_cpu (s : samples) (t : reading) :
  cpu_usage (tick s t) = cpu_usage s ++ [cpu_percent t].
Proof.
  unfold tick. now destruct (initial_disk s) as [[? ?] |], (disk t) as [[? ?] |].
Qed.

Lemma tick_memory (s : samples) (t : reading) :
  memory_usage (tick s t) = memory_usage s ++ [Spec.gigabytes (memory_used t)].
Proof.
  unfold tick. now destruct (initial_disk s) as [[? ?] |], (disk t) as [[? ?] |].
Qed.

Lemma total_snoc (xs : list Z) (x : Z) : total (xs ++ [x]) = total xs + x.
Proof. unfold total. now rewrite fold_left_app. Qed.

(** One pass keeps the telescoping sum: the deltas recorded so far add up
    to the counters held minus the counters at the start. *)
Lemma tick_disk (s : samples) (t : reading) (current : Z * Z) :
  initial_disk s = Some current ->
  let held := match disk t with Some counters => counters | None => current end in
  initial_disk (tick s t) = Some held /\
  total (map fst (disk_io (tick s t))) = total (map fst (disk_io s)) + (fst held - fst current) /\
  total (map snd (disk_io (tick s t))) = total (map snd (disk_io s)) + (snd held - snd current).
Proof.
  intros Hcur. unfold tick. rewrite Hcur. destruct current as [read0 write0].
  destruct (disk t) as [[read1 write1] |]; cbn [initial_disk disk_io fst snd].
  - rewrite !map_app. cbn [map fst snd]. rewrite !total_snoc. auto.
  - repeat split; lia.
Qed.

Lemma tick_no_disk (s : samples) (t : reading) :
  initial_disk s = None ->
  initial_disk (tick s t) = None /\ disk_io (tick s t) = disk_io s.
Proof. intros H. unfold tick. rewrite H. now split. Qed.

Section Loop.

Variables (start_time : float) (duration : Z).

(** The loop appends one CPU and one memory sample for each reading
    inside the time budget. *)
Lemma sample_series (trace : list reading) (s0 s : samples) :
  sample start_time duration trace s0 = Some s ->
  cpu_usage s = cpu_usage s0 ++ map cpu_percent (Spec.sampled start_time duration trace) /\
  memory_usage s =
    memory_usage s0 ++
    map (fun t => Spec.gigabytes (memory_used t)) (Spec.sampled start_time duration trace).
Proof.
  revert s0. induction trace as [| t rest IH]; intros s0; cbn [sample Spec.sampled].
  - discriminate.
  - unfold Spec.in_budget.
    destruct (PrimFloat.ltb (PrimFloat.sub (clock t) start_time) (Py.float_of_Z duration)).
    + intros H. apply IH in H as [Hc Hm].
      rewrite Hc, Hm, tick_cpu, tick_memory. cbn [map].
      now rewrite <- !app_assoc.
    + intros H. injection H as <-. cbn [map]. now rewrite !app_nil_r.
Qed.

Lemma sample_disk (trace : list reading) (s0 s : samples) (current : Z * Z) :
  sample start_time duration trace s0 = Some s ->
  initial_disk s0 = Some current ->
  let held := Spec.last_counters current (Spec.sampled start_time duration trace) in
  initial_disk s = Some held /\
  total (map fst (disk_io s)) = total (map fst (disk_io s0)) + (fst held - fst current) /\
  total (map snd (disk_io s)) = total (map snd (disk_io s0)) + (snd held - snd current).
Proof.
  revert s0 current.
  induction trace as [| t rest IH]; intros s0 current; cbn [sample Spec.sampled].
  - discriminate.
  - unfold Spec.in_budget.
    destruct (PrimFloat.ltb (PrimFloat.sub (clock t) start_time) (Py.float_of_Z duration)).
    + intros H Hcur.
      destruct (tick_disk s0 t current Hcur) as (Hheld & Hr & Hw).
      destruct (IH _ _ H Hheld) as (Hheld' & Hr' & Hw').
      unfold Spec.last_counters in *. cbn [fold_left].
      split; [exact Hheld' |]. split; lia.
    + intros H Hcur. injection H as <-. cbn [Spec.last_counters fold_left].
      split; [exact Hcur |]. split; lia.
Qed.

Lemma sample_no_disk (trace : list reading) (s0 s : samples) :
  sample start_time duration trace s0 = Some s ->
  initial_disk s0 = None ->
  disk_io s = disk_io s0.
Proof.
  revert s0. induction trace as [| t rest IH]; intros s0; cbn [sample].
  - discriminate.
  - destruct (PrimFloat.ltb (PrimFloat.sub (clock t) start_time) (Py.float_of_Z duration)).
    + intros H Hnone. destruct (tick_no_disk s0 t Hnone) as [Hnone' Hsame].
      rewrite <- Hsame. now apply IH.
    + intros H _. now injection H as <-.
Qed.

End Loop.

(** The two disk entries of a returned dictionary. *)
Lemma stats_disk (s : samples) (d : Py.dict) :
  stats s = Py.Returned d ->
  d !! "disk_read_total_mb"
    = Some (Py.VFloat (Py.int_truediv (total (map fst (disk_io s))) (1024 * 1024))) /\
  d !! "disk_write_total_mb"
    = Some (Py.VFloat (Py.int_truediv (total (map snd (disk_io s))) (1024 * 1024))).
Proof.
  unfold stats.
  destruct (Py.statistics_mean (cpu_usage s)); [| discriminate].
  destruct (Py.max (cpu_usage s)); [| discriminate].
  destruct (Py.min (cpu_usage s)); [| discriminate].
  destruct (Py.statistics_mean (memory_usage s)); [| discriminate].
  destruct (Py.max (memory_usage s)); [| discriminate].
  destruct (Py.min (memory_usage s)); [| discriminate].
  intros H. injection H as <-. split; reflexivity.
Qed.

End MonitorFacts.

(** X1. [monitor_resources] takes exactly one CPU sample and one memory
    sample for each pass that starts inside the time budget, in the order of
    the passes, and looks at no reading after the first pass that starts
    outside it: the two series always have the same length. *)
Theorem one_sample_per_pass (initial_disk : option (Z * Z)) (start_time : float)
    (duration : Z) (trace : list ResourceBenchmark.reading) (s : ResourceBenchmark.samples) :
  ResourceBenchmark.sample start_time duration trace
    {| ResourceBenchmark.cpu_usage := []; ResourceBenchmark.memory_usage := [];
       ResourceBenchmark.disk_io := []; ResourceBenchmark.initial_disk := initial_disk |}
  = Some s ->
  let passes := Spec.sampled start_time duration trace in
  ResourceBenchmark.cpu_usage s = map ResourceBenchmark.cpu_percent passes /\
  ResourceBenchmark.memory_usage s
    = map (fun t => Spec.gigabytes (ResourceBenchmark.memory_used t)) passes /\
  length (ResourceBenchmark.cpu_usage s) = length (ResourceBenchmark.memory_usage s) /\
  (length (ResourceBenchmark.disk_io s) <= length passes)%nat.
Proof.
  intros H passes.
  destruct (MonitorFacts.sample_series _ _ _ _ _ H) as [Hc Hm]. cbn [ResourceBenchmark.cpu_usage ResourceBenchmark.memory_usage app] in Hc, Hm.
  fold passes in Hc, Hm. rewrite Hc, Hm, !length_map.
  repeat split.
  clear Hc Hm. subst passes.
  enough (Hgen : forall trace s0 s,
            ResourceBenchmark.sample start_time duration trace s0 = Some s ->
            (length (ResourceBenchmark.disk_io s)
             <= length (ResourceBenchmark.disk_io s0)
                + length (Spec.sampled start_time duration trace))%nat).
  { apply Hgen in H. exact H. }
  clear. induction trace as [| t rest IH]; intros s0 s;
    cbn [ResourceBenchmark.sample Spec.sampled]; [discriminate |].
  unfold Spec.in_budget.
  destruct (PrimFloat.ltb _ _).
  - intros H. apply IH in H. cbn [length].
    assert (length (ResourceBenchmark.disk_io (ResourceBenchmark.tick s0 t))
            <= S (length (ResourceBenchmark.disk_io s0)))%nat.
    { unfold ResourceBenchmark.tick.
      destruct (ResourceBenchmark.initial_disk s0) as [[? ?] |],
               (ResourceBenchmark.disk t) as [[? ?] |];
        cbn [ResourceBenchmark.disk_io]; rewrite ?length_app; cbn [length]; lia. }
    lia.
  - intros H. injection H as <-. cbn [length]. lia.
Qed.

Lemma one_sample_per_pass_witness :
  let trace := [
    {| ResourceBenchmark.clock := 100%float; ResourceBenchmark.cpu_percent := 12.5%float;
       ResourceBenchmark.memory_used := 8589934592; ResourceBenchmark.disk := Some (4096, 0) |};
    {| ResourceBenchmark.clock := 102%float; ResourceBenchmark.cpu_percent := 14%float;
       ResourceBenchmark.memory_used := 8589934592; ResourceBenchmark.disk := None |};
    {| ResourceBenchmark.clock := 110%float; ResourceBenchmark.cpu_percent := 99%float;
       ResourceBenchmark.memory_used := 0; ResourceBenchmark.disk := None |}] in
  exists s,
    ResourceBenchmark.cpu_usage s = [12.5; 14]%float /\
    ResourceBenchmark.memory_usage s = [8; 8]%float /\
    length (ResourceBenchmark.cpu_usage s) = length (ResourceBenchmark.memory_usage s) /\
    (length (ResourceBenchmark.disk_io s) <= 2)%nat.
Proof.
  intros trace. eexists.
  exact (one_sample_per_pass (Some (0, 0)) 100%float 10 trace _ eq_refl).
Defined.

(** X2. The disk totals of [monitor_resources] telescope: when the disk
    counters could be read at the start, the stored totals are the
    cumulative counters last seen inside the time budget minus the counters
    at the start, in MB, whatever the number of passes and whichever passes
    showed no counters. *)
Theorem disk_totals_telescope (read0 write0 : Z) (start_time : float) (duration : Z)
    (trace : list ResourceBenchmark.reading) (d : Py.dict) :
  ResourceBenchmark.monitor_resources (Some (read0, write0)) start_time duration trace
    = Some (Py.Returned d) ->
  let last :=
    Spec.last_counters (read0, write0) (Spec.sampled start_time duration trace) in
  d !! "disk_read_total_mb"
    = Some (Py.VFloat (Py.int_truediv (fst last - read0) (1024 * 1024))) /\
  d !! "disk_write_total_mb"
    = Some (Py.VFloat (Py.int_truediv (snd last - write0) (1024 * 1024))).
Proof.
  unfold ResourceBenchmark.monitor_resources.
  destruct (ResourceBenchmark.sample _ _ _ _) as [s |] eqn:Hs; [| discriminate].
  intros H. injection H as H. cbv zeta.
  destruct (MonitorFacts.sample_disk _ _ _ _ _ (read0, write0) Hs eq_refl) as (_ & Hr & Hw).
  cbn [ResourceBenchmark.disk_io map ResourceBenchmark.total fold_left fst snd] in Hr, Hw.
  destruct (MonitorFacts.stats_disk _ _ H) as [Hdr Hdw].
  rewrite Hdr, Hdw, Hr, Hw. unfold ResourceBenchmark.total. cbn [fold_left].
  now rewrite !Z.add_0_l.
Qed.

Lemma disk_totals_telescope_witness :
  let trace := [
    {| ResourceBenchmark.clock := 100%float; ResourceBenchmark.cpu_percent := 12.5%float;
       ResourceBenchmark.memory_used := 8589934592;
       ResourceBenchmark.disk := Some (3145728, 1048576) |};
    {| ResourceBenchmark.clock := 102%float; ResourceBenchmark.cpu_percent := 14%float;
       ResourceBenchmark.memory_used := 8589934592; ResourceBenchmark.disk := None |};
    {| ResourceBenchmark.clock := 104%float; ResourceBenchmark.cpu_percent := 14%float;
       ResourceBenchmark.memory_used := 8589934592;
       ResourceBenchmark.disk := Some (5242880, 1048576) |};
    {| ResourceBenchmark.clock := 110%float; ResourceBenchmark.cpu_percent := 99%float;
       ResourceBenchmark.memory_used := 0; ResourceBenchmark.disk := Some (9437184, 0) |}] in
  exists d,
    ResourceBenchmark.monitor_resources (Some (1048576, 1048576)) 100%float 10 trace
      = Some (Py.Returned d) /\
    d !! "disk_read_total_mb" = Some (Py.VFloat 4%float) /\
    d !! "disk_write_total_mb" = Some (Py.VFloat 0%float).
Proof.
  intros trace. eexists. split; [reflexivity |].
  exact (disk_totals_telescope 1048576 1048576 100%float 10 trace _ eq_refl).
Defined.

(** X3. When [psutil.disk_io_counters()] gives nothing at the start,
    [monitor_resources] never records disk traffic: both disk totals are
    0.0, whatever counters the later passes show. *)
Theorem no_initial_counters_no_disk_io (start_time : float) (duration : Z)
    (trace : list ResourceBenchmark.reading) (d : Py.dict) :
  ResourceBenchmark.monitor_resources None start_time duration trace
    = Some (Py.Returned d) ->
  d !! "disk_read_total_mb" = Some (Py.VFloat 0%float) /\
  d !! "disk_write_total_mb" = Some (Py.VFloat 0%float).
Proof.
  unfold ResourceBenchmark.monitor_resources.
  destruct (ResourceBenchmark.sample _ _ _ _) as [s |] eqn:Hs; [| discriminate].
  intros H. injection H as H.
  pose proof (MonitorFacts.sample_no_disk _ _ _ _ _ Hs eq_refl) as Hio.
  cbn [ResourceBenchmark.disk_io] in Hio.
  destruct (MonitorFacts.stats_disk _ _ H) as [Hdr Hdw].
  rewrite Hdr, Hdw, Hio. split; reflexivity.
Qed.

Lemma no_initial_counters_no_disk_io_witness :
  let trace := [
    {| ResourceBenchmark.clock := 100%float; ResourceBenchmark.cpu_percent := 12.5%float;
       ResourceBenchmark.memory_used := 8589934592;
       ResourceBenchmark.disk := Some (3145728, 1048576) |};
    {| ResourceBenchmark.clock := 104%float; ResourceBenchmark.cpu_percent := 14%float;
       ResourceBenchmark.memory_used := 8589934592;
       ResourceBenchmark.disk := Some (5242880, 2097152) |};
    {| ResourceBenchmark.clock := 110%float; ResourceBenchmark.cpu_percent := 99%float;
       ResourceBenchmark.memory_used := 0; ResourceBenchmark.disk := None |}] in
  exists d,
    ResourceBenchmark.monitor_resources None 100%float 10 trace = Some (Py.Returned d) /\
    d !! "disk_read_total_mb" = Some (Py.VFloat 0%float) /\
    d !! "disk_write_total_mb" = Some (Py.VFloat 0%float).
Proof.
  intros trace. eexists. split; [reflexivity |].
  exact (no_initial_counters_no_disk_io 100%float 10 trace _ eq_refl).
Defined.

(** * The process monitor and the benchmark built on it *)

Module ProcessFacts.

Import AccurateResourceBenchmark.

Section Loop.

Variables (start_time : float) (duration : Z).

(** The CPU list is never shorter than the memory list and at most one
    reading longer; neither outgrows the trace. *)
Lemma sample_process_lengths (trace : list reading) (cpu0 mem0 cpu mem : list float) :
  sample_process start_time duration trace cpu0 mem0 = Some (Py.Returned (cpu, mem)) ->
  length cpu0 = length mem0 ->
  (length cpu = length mem \/ length cpu = S (length mem)) /\
  (length cpu <= length cpu0 + length trace)%nat.
Proof.
  revert cpu0 mem0. induction trace as [| t rest IH]; intros cpu0 mem0;
    cbn [sample_process]; [discriminate |].
  destruct (PrimFloat.ltb _ _).
  - destruct (cpu_percent t) as [c | e].
    + destruct (rss t) as [bytes | e].
      * intros H Hlen. apply IH in H.
        -- rewrite length_app in H. cbn [length] in *. lia.
        -- rewrite !length_app. cbn [length]. lia.
      * destruct (gone e); [| discriminate].
        intros H Hlen. injection H as <- <-. rewrite length_app. cbn [length]. lia.
    + destruct (gone e); [| discriminate].
      intros H Hlen. injection H as <- <-. cbn [length]. lia.
  - intros H Hlen. injection H as <- <-. cbn [length]. lia.
Qed.

End Loop.

(** A dictionary with an entry is not [{}]. *)
Lemma not_empty (d : Py.dict) (key : string) (v : Py.value) :
  d !! key = Some v -> d <> ∅.
Proof. intros H ->. now rewrite lookup_empty in H. Qed.

Lemma truthy_not_empty (d : Py.dict) : Py.dict_truthy d = true <-> d <> ∅.
Proof.
  unfold Py.dict_truthy. destruct (bool_decide_reflect (d = ∅)); cbn [negb]; split;
    congruence.
Qed.

(** Without a matching process the locator answers [None]. *)
Lemma find_memgraph_process_none (procs : list proc) :
  Forall (fun p => ~ Spec.matches "memgraph" p) procs ->
  find_memgraph_process procs = None.
Proof.
  intros Hnone.
  pose proof (LocatorFacts.first_match_find (Spec.matches "memgraph")
                (fun p => Spec.name_hit "memgraph" p || Spec.cmdline_hit "memgraph" p)
                procs) as Hfirst.
  rewrite <- LocatorFacts.find_memgraph_process_find in Hfirst.
  destruct (find_memgraph_process procs) as [p |]; [| reflexivity].
  destruct Hfirst as (earlier & later & -> & Hp & _).
  - intros q. now apply LocatorFacts.hit_matches.
  - apply Forall_app in Hnone as [_ Hnone]. now inversion Hnone.
Qed.

(** An empty Memgraph result stops the comparison. *)
Lemma incomplete (nendb_results : Py.dict) (timestamp : string) :
  run_accurate_comparison ∅ nendb_results timestamp = Py.Returned None.
Proof. reflexivity. Qed.

End ProcessFacts.

(** X4. The statistics step of [monitor_process_resources] never raises:
    whatever the sampling loop collected (fewer than 2^53 readings), the
    result is a dictionary, and it is [{}] exactly when no pass completed,
    that is when there is no memory reading; a CPU reading alone, left by a
    pass torn between its two psutil calls, does not make a result. *)
Theorem process_monitor_returns_statistics_or_nothing (start_time : float) (duration : Z)
    (trace : list AccurateResourceBenchmark.reading) (cpu_usage memory_usage : list float) :
  AccurateResourceBenchmark.sample_process start_time duration trace [] []
    = Some (Py.Returned (cpu_usage, memory_usage)) ->
  Z.of_nat (length trace) < 2 ^ 53 ->
  exists d,
    AccurateResourceBenchmark.monitor_process_resources start_time duration trace
      = Some (Py.Returned d) /\
    (d = ∅ <-> memory_usage = []) /\
    (memory_usage <> [] ->
     dom d = ({["cpu_avg"; "cpu_max"; "cpu_min";
               "memory_avg_mb"; "memory_max_mb"; "memory_min_mb"]} : gset string)).
Proof.
  intros Hloop Hlen.
  destruct (ProcessFacts.sample_process_lengths _ _ _ _ _ _ _ Hloop eq_refl) as [Hinv Hle].
  cbn [length] in Hle.
  unfold AccurateResourceBenchmark.monitor_process_resources. rewrite Hloop.
  cbn [mbind outcome_bind Py.bind]. unfold AccurateResourceBenchmark.process_stats.
  destruct memory_usage as [| m memory_usage].
  - exists ∅. rewrite orb_true_r. repeat split; congruence.
  - destruct cpu_usage as [| c cpu_usage]; [cbn [length] in Hinv; lia |].
    cbn [bool_decide orb].
    rewrite (AggregateFacts.average_returns (c :: cpu_usage)) by (congruence || lia).
    rewrite (AggregateFacts.average_returns (m :: memory_usage))
      by (congruence || (cbn [length] in *; lia)).
    cbn [Py.max Py.min mbind outcome_bind Py.bind mret outcome_ret].
    eexists. split; [reflexivity |]. split.
    + split; [| congruence]. intros H. exfalso.
      eapply (ProcessFacts.not_empty _ "cpu_avg"); [| exact H]. reflexivity.
    + intros _. rewrite dom_list_to_map_L. cbn [fmap list_fmap fst]. set_solver.
Qed.

(** Two passes complete; in the third the process is found gone. *)
Lemma process_monitor_returns_statistics_or_nothing_witness :
  let trace := [
    Spec.completed (100%float, 10%float, 536870912);
    Spec.completed (102%float, 20%float, 536870912);
    {| AccurateResourceBenchmark.clock := 104%float;
       AccurateResourceBenchmark.cpu_percent := Py.Raised Py.NoSuchProcess;
       AccurateResourceBenchmark.rss := Py.Raised Py.NoSuchProcess |}] in
  exists d,
    AccurateResourceBenchmark.monitor_process_resources 100%float 10 trace
      = Some (Py.Returned d) /\
    (d = ∅ <-> [512; 512]%float = []) /\
    ([512; 512]%float <> [] ->
     dom d = ({["cpu_avg"; "cpu_max"; "cpu_min";
               "memory_avg_mb"; "memory_max_mb"; "memory_min_mb"]} : gset string)).
Proof.
  intros trace.
  apply (process_monitor_returns_statistics_or_nothing 100%float 10 trace
           [10; 20]%float [512; 512]%float); [reflexivity | cbn; lia].
Defined.

(** X5. A pass that starts after the time budget, or whose [cpu_percent]
    call finds the process gone (or not accessible), ends the loop of
    [monitor_process_resources] without an error: the dictionary is computed
    from the passes completed before it, and no later reading is looked
    at. *)
Theorem process_monitor_uses_completed_passes (start_time : float) (duration : Z)
    (done : list (float * float * Z)) (t : AccurateResourceBenchmark.reading)
    (rest : list AccurateResourceBenchmark.reading) :
  Forall (fun r => Spec.in_budget start_time duration (fst (fst r)) = true) done ->
  (Spec.in_budget start_time duration (AccurateResourceBenchmark.clock t) = false \/
   exists e, AccurateResourceBenchmark.cpu_percent t = Py.Raised e /\
             AccurateResourceBenchmark.gone e = true) ->
  AccurateResourceBenchmark.monitor_process_resources start_time duration
    (map Spec.completed done ++ t :: rest)
  = Some (AccurateResourceBenchmark.process_stats
            (map Spec.cpu_of done) (map Spec.memory_of done)).
Proof.
  intros Hdone Hstop. unfold AccurateResourceBenchmark.monitor_process_resources.
  destruct (Spec.in_budget start_time duration (AccurateResourceBenchmark.clock t)) eqn:Ht.
  - destruct Hstop as [Hout | (e & Hcpu & Hgone)]; [discriminate |].
    now rewrite (SamplerFacts.sample_process_gone_at_cpu _ _ done t rest e).
  - now rewrite (SamplerFacts.sample_process_budget_spent _ _ done t rest).
Qed.

Lemma process_monitor_uses_completed_passes_witness :
  AccurateResourceBenchmark.monitor_process_resources 100%float 10
    (map Spec.completed [(100%float, 10%float, 536870912); (102%float, 20%float, 536870912)]
     ++ {| AccurateResourceBenchmark.clock := 104%float;
           AccurateResourceBenchmark.cpu_percent := Py.Raised Py.AccessDenied;
           AccurateResourceBenchmark.rss := Py.Returned 0 |}
        :: [Spec.completed (106%float, 99%float, 0)])
  = Some (AccurateResourceBenchmark.process_stats [10; 20]%float [512; 512]%float).
Proof.
  apply (process_monitor_uses_completed_passes 100%float 10
           [(100%float, 10%float, 536870912); (102%float, 20%float, 536870912)]).
  - repeat constructor.
  - right. exists Py.AccessDenied. split; reflexivity.
Defined.

(** X6. When the Memgraph process is gone (or not accessible) in the first
    pass of the baseline measurement, at either psutil call,
    [benchmark_memgraph_accurate] returns [{}] and does not raise, and
    [run_accurate_comparison] then stops without a report and without
    saving anything. *)
Theorem vanished_process_stops_the_comparison
    (run : AccurateResourceBenchmark.memgraph_run) (p : AccurateResourceBenchmark.proc)
    (start_time : float) (t : AccurateResourceBenchmark.reading)
    (rest : list AccurateResourceBenchmark.reading) (e : Py.exn)
    (nendb_results : Py.dict) (timestamp : string) :
  AccurateResourceBenchmark.find_memgraph_process (AccurateResourceBenchmark.processes run)
    = Some p ->
  AccurateResourceBenchmark.monitor_process_resources start_time 10 (t :: rest)
    = Some (AccurateResourceBenchmark.monitor run p) ->
  Spec.in_budget start_time 10 (AccurateResourceBenchmark.clock t) = true ->
  (AccurateResourceBenchmark.cpu_percent t = Py.Raised e \/
   (exists cpu, AccurateResourceBenchmark.cpu_percent t = Py.Returned cpu) /\
   AccurateResourceBenchmark.rss t = Py.Raised e) ->
  AccurateResourceBenchmark.gone e = true ->
  AccurateResourceBenchmark.benchmark_memgraph_accurate run = ∅ /\
  AccurateResourceBenchmark.run_accurate_comparison
    (AccurateResourceBenchmark.benchmark_memgraph_accurate run) nendb_results timestamp
  = Py.Returned None.
Proof.
  intros Hfind Hmon Ht Hgone_at Hgone.
  assert (Hbase : AccurateResourceBenchmark.monitor run p = Py.Returned ∅).
  { unfold AccurateResourceBenchmark.monitor_process_resources in Hmon.
    cbn [AccurateResourceBenchmark.sample_process] in Hmon.
    unfold Spec.in_budget in Ht. rewrite Ht in Hmon.
    destruct Hgone_at as [Hcpu | [[cpu Hcpu] Hrss]].
    - rewrite Hcpu, Hgone in Hmon. now injection Hmon as <-.
    - rewrite Hcpu, Hrss, Hgone in Hmon. now injection Hmon as <-. }
  assert (Hempty : AccurateResourceBenchmark.benchmark_memgraph_accurate run = ∅).
  { unfold AccurateResourceBenchmark.benchmark_memgraph_accurate. rewrite Hfind, Hbase.
    destruct (AccurateResourceBenchmark.neo4j_import run); [| reflexivity].
    cbn [mbind outcome_bind Py.bind].
    destruct (AccurateResourceBenchmark.connect run); reflexivity. }
  split; [exact Hempty |]. rewrite Hempty. apply ProcessFacts.incomplete.
Qed.

Lemma vanished_process_stops_the_comparison_witness :
  let p := {| AccurateResourceBenchmark.pid := 4242;
              AccurateResourceBenchmark.name := Some "memgraph";
              AccurateResourceBenchmark.cmdline := None |} in
  let t := {| AccurateResourceBenchmark.clock := 100%float;
              AccurateResourceBenchmark.cpu_percent := Py.Returned 3%float;
              AccurateResourceBenchmark.rss := Py.Raised Py.NoSuchProcess |} in
  let run := {| AccurateResourceBenchmark.neo4j_import := Py.Returned tt;
                AccurateResourceBenchmark.processes := [p];
                AccurateResourceBenchmark.connect := Py.Returned tt;
                AccurateResourceBenchmark.monitor := fun _ => Py.Returned ∅;
                AccurateResourceBenchmark.creation := Py.Returned 0.5%float;
                AccurateResourceBenchmark.cleanup := Py.Returned tt |} in
  AccurateResourceBenchmark.benchmark_memgraph_accurate run = ∅ /\
  AccurateResourceBenchmark.run_accurate_comparison
    (AccurateResourceBenchmark.benchmark_memgraph_accurate run)
    (list_to_map [("creation_rate", Py.VFloat 1%float)]) "2025-01-01 00:00:00"
  = Py.Returned None.
Proof.
  intros p t run.
  apply (vanished_process_stops_the_comparison run p 100%float t [] Py.NoSuchProcess).
  - reflexivity.
  - reflexivity.
  - reflexivity.
  - right. split; [now exists 3%float | reflexivity].
  - reflexivity.
Defined.

(** X7. When no running process has "memgraph" in its name or command line
    (letter case ignored), [benchmark_memgraph_accurate] returns [{}]
    whatever the connection, the measurements or the clean-up would give, and
    [run_accurate_comparison] stops without a report. *)
Theorem no_memgraph_process_no_report (run : AccurateResourceBenchmark.memgraph_run)
    (nendb_results : Py.dict) (timestamp : string) :
  Forall (fun p => ~ Spec.matches "memgraph" p) (AccurateResourceBenchmark.processes run) ->
  AccurateResourceBenchmark.benchmark_memgraph_accurate run = ∅ /\
  AccurateResourceBenchmark.run_accurate_comparison
    (AccurateResourceBenchmark.benchmark_memgraph_accurate run) nendb_results timestamp
  = Py.Returned None.
Proof.
  intros Hnone.
  assert (Hempty : AccurateResourceBenchmark.benchmark_memgraph_accurate run = ∅).
  { unfold AccurateResourceBenchmark.benchmark_memgraph_accurate.
    rewrite (ProcessFacts.find_memgraph_process_none _ Hnone).
    destruct (AccurateResourceBenchmark.neo4j_import run); reflexivity. }
  split; [exact Hempty |]. rewrite Hempty. apply ProcessFacts.incomplete.
Qed.

Lemma no_memgraph_process_no_report_witness :
  let run := {| AccurateResourceBenchmark.neo4j_import := Py.Returned tt;
                AccurateResourceBenchmark.processes := [
                  {| AccurateResourceBenchmark.pid := 1;
                     AccurateResourceBenchmark.name := Some "systemd";
                     AccurateResourceBenchmark.cmdline := Some ["/sbin/init"] |};
                  {| AccurateResourceBenchmark.pid := 412;
                     AccurateResourceBenchmark.name := Some "Postgres";
                     AccurateResourceBenchmark.cmdline :=
                       Some ["/usr/bin/postgres"; "-D"; "/data/MEM"; "GRAPH"] |};
                  {| AccurateResourceBenchmark.pid := 977;
                     AccurateResourceBenchmark.name := None;
                     AccurateResourceBenchmark.cmdline := Some ["memgrap"; "h"] |}];
                AccurateResourceBenchmark.connect := Py.Returned tt;
                AccurateResourceBenchmark.monitor :=
                  fun _ => Py.Returned (list_to_map [("cpu_avg", Py.VFloat 1%float)]);
                AccurateResourceBenchmark.creation := Py.Returned 0.5%float;
                AccurateResourceBenchmark.cleanup := Py.Returned tt |} in
  AccurateResourceBenchmark.benchmark_memgraph_accurate run = ∅ /\
  AccurateResourceBenchmark.run_accurate_comparison
    (AccurateResourceBenchmark.benchmark_memgraph_accurate run)
    (list_to_map [("creation_rate", Py.VFloat 1%float)]) "2025-01-01 00:00:00"
  = Py.Returned None.
Proof.
  intros run. apply (no_memgraph_process_no_report run).
  repeat constructor; intros H;
    apply (LocatorFacts.hit_matches "memgraph" _ eq_refl eq_refl) in H;
    discriminate H.
Defined.

(** X8. A non-empty result of [benchmark_memgraph_accurate] describes the
    first matching process of the process list: it stores that process's
    pid, the rate 10000 / creation_time of the measured creation, and as CPU
    and memory figures the entries of the baseline measured on that process
    before the workload. *)
Theorem accurate_result_describes_first_match (run : AccurateResourceBenchmark.memgraph_run) :
  AccurateResourceBenchmark.benchmark_memgraph_accurate run <> ∅ ->
  exists p baseline creation_time,
    AccurateResourceBenchmark.find_memgraph_process (AccurateResourceBenchmark.processes run)
      = Some p /\
    AccurateResourceBenchmark.monitor run p = Py.Returned baseline /\
    AccurateResourceBenchmark.creation run = Py.Returned creation_time /\
    let d := AccurateResourceBenchmark.benchmark_memgraph_accurate run in
    d !! "process_id" = Some (Py.VInt (AccurateResourceBenchmark.pid p)) /\
    d !! "creation_time" = Some (Py.VFloat creation_time) /\
    d !! "creation_rate" = Some (Py.VFloat (PrimFloat.div 10000 creation_time)) /\
    d !! "cpu_avg" = baseline !! "cpu_avg" /\
    d !! "cpu_max" = baseline !! "cpu_max" /\
    d !! "memory_avg_mb" = baseline !! "memory_avg_mb" /\
    d !! "memory_max_mb" = baseline !! "memory_max_mb".
Proof.
  unfold AccurateResourceBenchmark.benchmark_memgraph_accurate.
  destruct (AccurateResourceBenchmark.neo4j_import run); [| now intros []].
  cbn [mbind outcome_bind Py.bind].
  destruct (AccurateResourceBenchmark.find_memgraph_process _) as [p |] eqn:Hfind;
    [| now intros []].
  destruct (AccurateResourceBenchmark.connect run); [| now intros []].
  cbn [mbind outcome_bind Py.bind].
  destruct (AccurateResourceBenchmark.monitor run p) as [baseline |] eqn:Hbase;
    [| now intros []].
  cbn [mbind outcome_bind Py.bind].
  destruct (negb (Py.dict_truthy baseline)); [now intros [] |].
  destruct (AccurateResourceBenchmark.creation run) as [creation_time |] eqn:Htime;
    [| now intros []].
  cbn [mbind outcome_bind Py.bind].
  destruct (AccurateResourceBenchmark.cleanup run); [| now intros []].
  cbn [mbind outcome_bind Py.bind]. unfold Py.truediv.
  destruct (Py.is_zero creation_time); [now intros [] |].
  cbn [mbind outcome_bind Py.bind].
  destruct (Py.number baseline "cpu_avg"); [| now intros []].
  destruct (Py.number baseline "memory_avg_mb"); [| now intros []].
  cbn [mbind outcome_bind Py.bind]. unfold Py.getitem.
  destruct (baseline !! "cpu_avg") as [cpu_avg |] eqn:H1; [| now intros []].
  destruct (baseline !! "cpu_max") as [cpu_max |] eqn:H2; [| now intros []].
  destruct (baseline !! "memory_avg_mb") as [memory_avg_mb |] eqn:H3; [| now intros []].
  destruct (baseline !! "memory_max_mb") as [memory_max_mb |] eqn:H4; [| now intros []].
  intros _. exists p, baseline, creation_time.
  split; [reflexivity |]. split; [exact Hbase |]. split; [reflexivity |].
  cbv zeta. rewrite H1, H2, H3, H4. repeat split; reflexivity.
Qed.

Lemma accurate_result_describes_first_match_witness :
  let p := {| AccurateResourceBenchmark.pid := 4242;
              AccurateResourceBenchmark.name := Some "memgraph";
              AccurateResourceBenchmark.cmdline := None |} in
  let run := {| AccurateResourceBenchmark.neo4j_import := Py.Returned tt;
                AccurateResourceBenchmark.processes :=
                  [{| AccurateResourceBenchmark.pid := 1;
                      AccurateResourceBenchmark.name := Some "launchd";
                      AccurateResourceBenchmark.cmdline := None |}; p];
                AccurateResourceBenchmark.connect := Py.Returned tt;
                AccurateResourceBenchmark.monitor :=
                  fun _ => AccurateResourceBenchmark.process_stats
                             [10; 20]%float [512; 512]%float;
                AccurateResourceBenchmark.creation := Py.Returned 0.5%float;
                AccurateResourceBenchmark.cleanup := Py.Returned tt |} in
  exists q baseline creation_time,
    AccurateResourceBenchmark.find_memgraph_process (AccurateResourceBenchmark.processes run)
      = Some q /\
    AccurateResourceBenchmark.monitor run q = Py.Returned baseline /\
    AccurateResourceBenchmark.creation run = Py.Returned creation_time /\
    let d := AccurateResourceBenchmark.benchmark_memgraph_accurate run in
    d !! "process_id" = Some (Py.VInt (AccurateResourceBenchmark.pid q)) /\
    d !! "creation_time" = Some (Py.VFloat creation_time) /\
    d !! "creation_rate" = Some (Py.VFloat (PrimFloat.div 10000 creation_time)) /\
    d !! "cpu_avg" = baseline !! "cpu_avg" /\
    d !! "cpu_max" = baseline !! "cpu_max" /\
    d !! "memory_avg_mb" = baseline !! "memory_avg_mb" /\
    d !! "memory_max_mb" = baseline !! "memory_max_mb".
Proof.
  intros p run. apply (accurate_result_describes_first_match run).
  apply (ProcessFacts.not_empty _ "process_id" (Py.VInt 4242)). reflexivity.
Defined.

(** * Splitting strings and reading the workload output *)

Module SplitFacts.

Import Spec.

Lemma app_cons (c : ascii) (s t : string) : String c s +:+ t = String c (s +:+ t).
Proof. reflexivity. Qed.

Lemma app_nil_l (t : string) : "" +:+ t = t.
Proof. reflexivity. Qed.

Lemma app_nil_r (s : string) : s +:+ "" = s.
Proof. induction s as [| c s IH]; [reflexivity |]. now rewrite app_cons, IH. Qed.

Lemma app_assoc (s t u : string) : (s +:+ t) +:+ u = s +:+ (t +:+ u).
Proof. induction s as [| c s IH]; [reflexivity |]. now rewrite !app_cons, IH. Qed.

Lemma length_app (s t : string) :
  String.length (s +:+ t) = (String.length s + String.length t)%nat.
Proof.
  induction s as [| c s IH]; [reflexivity |].
  rewrite app_cons. cbn [String.length]. now rewrite IH.
Qed.

(** *** Reversal *)

Lemma rev_onto_app (s acc : string) : PyStr.rev_onto s acc = PyStr.rev s +:+ acc.
Proof.
  unfold PyStr.rev. revert acc.
  induction s as [| c s IH]; intros acc; cbn [PyStr.rev_onto]; [reflexivity |].
  rewrite (IH (String c acc)), (IH (String c EmptyString)), app_assoc.
  now rewrite app_cons, app_nil_l.
Qed.

Lemma rev_cons (c : ascii) (s : string) :
  PyStr.rev (String c s) = PyStr.rev s +:+ String c EmptyString.
Proof. unfold PyStr.rev at 1. cbn [PyStr.rev_onto]. apply rev_onto_app. Qed.

(** *** Prefixes and occurrences *)

Lemma starts_with_app_l (p s rest : string) :
  PyStr.starts_with p s = true -> PyStr.starts_with p (s +:+ rest) = true.
Proof.
  rewrite !StrFacts.starts_with_spec. intros [after ->]. exists (after +:+ rest).
  apply app_assoc.
Qed.

(** A prefix of [s +:+ rest] that is no longer than [s] is a prefix of
    [s]. *)
Lemma starts_with_short (p s rest : string) :
  PyStr.starts_with p (s +:+ rest) = true ->
  (String.length p <= String.length s)%nat ->
  PyStr.starts_with p s = true.
Proof.
  revert s. induction p as [| a p IH]; intros s; [reflexivity |].
  destruct s as [| b s]; cbn [String.length]; [lia |].
  rewrite app_cons. cbn [PyStr.starts_with].
  intros H Hlen. apply andb_true_iff in H as [-> H]. apply IH; [exact H | lia].
Qed.

(** A prefix of [x +:+ t] is a prefix of [x], or it runs over the end of
    [x] into [t]. *)
Lemma starts_with_over (p x t : string) :
  PyStr.starts_with p (x +:+ t) = true ->
  PyStr.starts_with p x = true \/
  exists p2, p = x +:+ p2 /\ p2 <> EmptyString /\ PyStr.starts_with p2 t = true.
Proof.
  revert x. induction p as [| a p IH]; intros x; [now left |].
  destruct x as [| b x].
  - rewrite app_nil_l. intros H. right. exists (String a p).
    split; [reflexivity |]. split; [discriminate | exact H].
  - rewrite app_cons. cbn [PyStr.starts_with]. intros H.
    apply andb_true_iff in H as [Hab H]. rewrite Hab. cbn [andb].
    destruct (IH x H) as [Hp | (p2 & -> & Hne & Hp2)]; [now left |].
    right. exists p2. apply Ascii.eqb_eq in Hab as ->. now rewrite app_cons.
Qed.

Lemma tails_spec (p1 p2 : string) :
  p1 <> EmptyString -> In p2 (tails (p1 +:+ p2)).
Proof.
  induction p1 as [| c p1 IH]; [congruence |]. intros _.
  rewrite app_cons. cbn [tails].
  destruct p1 as [| d p1]; [now left |]. right. apply IH. discriminate.
Qed.

(** Before the first occurrence of a border-free separator no occurrence
    begins. *)
Lemma clear_before (sep pre rest : string) (c : ascii) :
  border_free sep = true ->
  PyStr.starts_with sep (String c pre) = false ->
  PyStr.starts_with sep (String c pre +:+ sep +:+ rest) = false.
Proof.
  intros Hfree Hmiss.
  destruct (PyStr.starts_with sep (String c pre +:+ sep +:+ rest)) eqn:H; [| reflexivity].
  apply starts_with_over in H as [H | (p2 & Hsep & Hne & Hp2)]; [congruence |].
  exfalso. unfold border_free in Hfree. rewrite forallb_forall in Hfree.
  assert (Hin : In p2 (tails sep)).
  { rewrite Hsep. apply tails_spec. discriminate. }
  apply Hfree in Hin as Hp. clear Hfree Hin.
  apply orb_true_iff in Hp as [Hfree | Hfree].
  - apply String.eqb_eq in Hfree. contradiction.
  - apply negb_true_iff in Hfree.
    rewrite (starts_with_short p2 sep rest Hp2) in Hfree; [discriminate |].
    rewrite Hsep, length_app. lia.
Qed.

(** *** [split] *)

Lemma split_from_skip (sep a cur rest : string) :
  PyStr.split_from sep (String.length a) cur (a +:+ rest)
  = PyStr.split_from sep 0 cur rest.
Proof.
  induction a as [| c a IH]; [reflexivity |].
  rewrite app_cons. cbn [String.length PyStr.split_from]. exact IH.
Qed.

(** At an occurrence of the separator the current piece ends. *)
Lemma split_from_hit (sep cur rest : string) :
  sep <> EmptyString ->
  PyStr.split_from sep 0 cur (sep +:+ rest)
  = PyStr.rev cur :: PyStr.split_from sep 0 EmptyString rest.
Proof.
  intros Hne. destruct sep as [| a sep']; [congruence |].
  rewrite app_cons. cbn [PyStr.split_from].
  rewrite <- app_cons.
  rewrite (proj2 (StrFacts.starts_with_spec (String a sep') _))
    by (now exists rest).
  replace (String.length (String a sep') - 1)%nat with (String.length sep')
    by (cbn [String.length]; lia).
  f_equal. apply split_from_skip.
Qed.

Section Split.

Variable sep : string.

Lemma split_from_miss (cur s : string) (c : ascii) :
  PyStr.starts_with sep (String c s) = false ->
  PyStr.split_from sep 0 cur (String c s) = PyStr.split_from sep 0 (String c cur) s.
Proof. intros H. cbn [PyStr.split_from]. now rewrite H. Qed.

(** A text without the separator is one piece. *)
Lemma split_from_none (cur s : string) :
  PyStr.contains sep s = false ->
  PyStr.split_from sep 0 cur s = [PyStr.rev cur +:+ s].
Proof.
  revert cur. induction s as [| c s IH]; intros cur.
  - intros _. cbn [PyStr.split_from]. now rewrite app_nil_r.
  - cbn [PyStr.contains]. intros H. apply orb_false_iff in H as [Hhere Hlater].
    rewrite (split_from_miss _ _ _ Hhere), (IH _ Hlater), rev_cons, app_assoc.
    now rewrite app_cons, app_nil_l.
Qed.

(** The piece before the first occurrence, and the rest. *)
Lemma split_from_first (pre cur rest : string) :
  sep <> EmptyString -> border_free sep = true ->
  PyStr.contains sep pre = false ->
  PyStr.split_from sep 0 cur (pre +:+ sep +:+ rest)
  = (PyStr.rev cur +:+ pre) :: PyStr.split_from sep 0 EmptyString rest.
Proof.
  intros Hne Hfree. revert cur. induction pre as [| c pre IH]; intros cur.
  - intros _. rewrite app_nil_l, app_nil_r. now apply split_from_hit.
  - cbn [PyStr.contains]. intros H. apply orb_false_iff in H as [Hhere Hlater].
    pose proof (clear_before sep pre rest c Hfree Hhere) as Hmiss.
    rewrite app_cons in Hmiss |- *.
    rewrite (split_from_miss _ _ _ Hmiss), (IH _ Hlater), rev_cons, app_assoc.
    now rewrite app_cons, app_nil_l.
Qed.

Lemma split_first (pre rest : string) :
  sep <> EmptyString -> border_free sep = true ->
  PyStr.contains sep pre = false ->
  PyStr.split sep (pre +:+ sep +:+ rest) = pre :: PyStr.split sep rest.
Proof.
  intros Hne Hfree Hpre. unfold PyStr.split.
  now rewrite split_from_first.
Qed.

Lemma split_none (s : string) :
  PyStr.contains sep s = false -> PyStr.split sep s = [s].
Proof. intros H. unfold PyStr.split. now rewrite split_from_none. Qed.

(** [split] always gives at least one piece. *)
Lemma split_from_cons (skip : nat) (cur s : string) :
  exists piece pieces, PyStr.split_from sep skip cur s = piece :: pieces.
Proof.
  revert skip cur. induction s as [| c s IH]; intros skip cur; cbn [PyStr.split_from].
  - now eexists _, _.
  - destruct skip as [| k]; [| apply IH].
    destruct (PyStr.starts_with sep (String c s)); [now eexists _, _ | apply IH].
Qed.

Lemma join_cons (piece : string) (pieces : list string) :
  pieces <> [] ->
  PyStr.join sep (piece :: pieces) = piece +:+ sep +:+ PyStr.join sep pieces.
Proof. destruct pieces; [congruence | reflexivity]. Qed.

(** Joining the pieces with the separator gives the text back. *)
Lemma join_split_from (n : nat) (s cur : string) :
  sep <> EmptyString -> (String.length s <= n)%nat ->
  PyStr.join sep (PyStr.split_from sep 0 cur s) = PyStr.rev cur +:+ s.
Proof.
  intros Hne. revert s cur. induction n as [| n IH]; intros s cur Hlen.
  - destruct s; [| cbn [String.length] in Hlen; lia].
    cbn [PyStr.split_from PyStr.join]. now rewrite app_nil_r.
  - destruct s as [| c s]; [cbn [PyStr.split_from PyStr.join]; now rewrite app_nil_r |].
    destruct (PyStr.starts_with sep (String c s)) eqn:Hhit.
    + apply StrFacts.starts_with_spec in Hhit as [rest Hrest].
      rewrite Hrest, (split_from_hit _ _ _ Hne).
      destruct (split_from_cons 0 EmptyString rest) as (piece & pieces & Hcons).
      rewrite join_cons by (rewrite Hcons; discriminate).
      rewrite IH.
      * reflexivity.
      * assert (Hl : String.length (String c s) = String.length (sep +:+ rest))
          by now rewrite Hrest.
        rewrite length_app in Hl. cbn [String.length] in Hl, Hlen.
        destruct sep; [congruence |]. cbn [String.length] in Hl. lia.
    + rewrite (split_from_miss _ _ _ Hhit), IH by (cbn [String.length] in Hlen; lia).
      rewrite rev_cons, app_assoc. now rewrite app_cons, app_nil_l.
Qed.

End Split.

Lemma item_0 (piece : string) (pieces : list string) :
  PyStr.item (piece :: pieces) 0 = Py.Returned piece.
Proof. reflexivity. Qed.

Lemma item_1 (first piece : string) (pieces : list string) :
  PyStr.item (first :: piece :: pieces) 1 = Py.Returned piece.
Proof. reflexivity. Qed.

End SplitFacts.

(** X9. Splitting loses nothing: for every text and every non-empty
    separator, joining the pieces of [text.split(sep)] with the separator
    gives the text back, and there is always at least one piece; so the
    lines the benchmarks scan are exactly the output ([output.split('\n')]),
    and [split(...)[0]] never raises. *)
Theorem join_split_round_trip (sep text : string) :
  sep <> EmptyString ->
  PyStr.join sep (PyStr.split sep text) = text /\
  exists piece pieces, PyStr.split sep text = piece :: pieces.
Proof.
  intros Hne. split.
  - unfold PyStr.split.
    now rewrite (SplitFacts.join_split_from sep (String.length text)).
  - apply SplitFacts.split_from_cons.
Qed.

Lemma join_split_round_trip_witness :
  PyStr.join PyStr.newline
    (PyStr.split PyStr.newline "Insert benchmark
  Average: 0.004547 ms per insert
") = "Insert benchmark
  Average: 0.004547 ms per insert
" /\
  exists piece pieces,
    PyStr.split PyStr.newline "Insert benchmark
  Average: 0.004547 ms per insert
" = piece :: pieces.
Proof.
  apply (join_split_round_trip PyStr.newline). discriminate.
Defined.

(** X10. The figure the workload parsers read from a line is the text
    between the line's "Average:" and the first "ms" after it, stripped of
    white space: for a line [pre Average: fig ms post] in which "Average:"
    occurs once and [fig] holds no "ms", the value is [float(fig.strip())],
    whatever stands before and after. *)
Theorem average_of_reads_the_figure (py_float : string -> Py.outcome float)
    (pre fig post : string) :
  PyStr.contains "Average:" pre = false ->
  PyStr.contains "Average:" (fig +:+ "ms" +:+ post) = false ->
  PyStr.contains "ms" fig = false ->
  Workload.average_of py_float (pre +:+ "Average:" +:+ fig +:+ "ms" +:+ post)
  = py_float (PyStr.strip fig).
Proof.
  intros Hpre Hrest Hfig. unfold Workload.average_of.
  rewrite (SplitFacts.split_first "Average:" pre (fig +:+ "ms" +:+ post))
    by (discriminate || reflexivity || exact Hpre).
  rewrite (SplitFacts.split_none "Average:" _ Hrest), SplitFacts.item_1.
  cbn [mbind outcome_bind Py.bind].
  rewrite (SplitFacts.split_first "ms" fig post)
    by (discriminate || reflexivity || exact Hfig).
  now rewrite SplitFacts.item_0.
Qed.

Lemma average_of_reads_the_figure_witness :
  Workload.average_of Workload.decimal_float "  Average: 0.004547 ms per insert (1000 nodes)"
  = Py.Returned 0.004547%float.
Proof.
  exact (average_of_reads_the_figure Workload.decimal_float
           "  " " 0.004547 " " per insert (1000 nodes)" eq_refl eq_refl eq_refl).
Defined.

Module ScanFacts.

Import Spec.

Section Scan.

Variable py_float : string -> Py.outcome float.

(** The loop over two stretches of lines is the loop over the first,
    then over the second from where the first ended. *)
Lemma scan_app (before after : list string) (insert_time lookup_time : option float) :
  Workload.scan py_float (before ++ after) insert_time lookup_time
  = '(insert_time, lookup_time) ← Workload.scan py_float before insert_time lookup_time;
    Workload.scan py_float after insert_time lookup_time.
Proof.
  revert insert_time lookup_time.
  induction before as [| line before IH]; intros insert_time lookup_time;
    cbn [app Workload.scan]; [reflexivity |].
  destruct (PyStr.contains "Average:" line && PyStr.contains "ms per insert" line).
  - destruct (Workload.average_of py_float line); cbn [mbind outcome_bind Py.bind];
      [apply IH | reflexivity].
  - destruct (PyStr.contains "Average:" line && PyStr.contains "ms per lookup" line).
    + destruct (Workload.average_of py_float line); cbn [mbind outcome_bind Py.bind];
        [apply IH | reflexivity].
    + apply IH.
Qed.

(** Without an insert line the loop leaves [insert_time] as it was, if
    it returns at all. *)
Lemma scan_keeps_insert (lines : list string) (insert_time lookup_time : option float)
    (r : option float * option float) :
  Forall (fun line => insert_line line = false) lines ->
  Workload.scan py_float lines insert_time lookup_time = Py.Returned r ->
  fst r = insert_time.
Proof.
  intros Hno. revert lookup_time.
  induction Hno as [| line lines Hline _ IH]; intros lookup_time; cbn [Workload.scan].
  - intros H. now injection H as <-.
  - unfold insert_line in Hline. rewrite Hline.
    destruct (PyStr.contains "Average:" line && PyStr.contains "ms per lookup" line).
    + destruct (Workload.average_of py_float line); cbn [mbind outcome_bind Py.bind];
        [apply IH | discriminate].
    + apply IH.
Qed.

End Scan.

End ScanFacts.

(** X11. Of several lines that hold "Average:" and "ms per insert", the
    last one decides: when the scan of the output returns, the insert time
    it returns is the figure of the last such line, whatever figures earlier
    lines gave; and with no such line after the start, the insert time is
    what it was. *)
Theorem last_insert_line_decides (py_float : string -> Py.outcome float)
    (before after : list string) (line : string) (value : float)
    (r : option float * option float) :
  Spec.insert_line line = true ->
  Workload.average_of py_float line = Py.Returned value ->
  Forall (fun l => Spec.insert_line l = false) after ->
  Workload.scan py_float (before ++ line :: after) None None = Py.Returned r ->
  fst r = Some value.
Proof.
  intros Hline Hvalue Hafter. rewrite ScanFacts.scan_app.
  destruct (Workload.scan py_float before None None) as [[insert_time lookup_time] | e];
    cbn [mbind outcome_bind Py.bind]; [| discriminate].
  cbn [Workload.scan]. unfold Spec.insert_line in Hline. rewrite Hline, Hvalue.
  cbn [mbind outcome_bind Py.bind].
  apply ScanFacts.scan_keeps_insert. exact Hafter.
Qed.

Lemma last_insert_line_decides_witness :
  exists r,
    Workload.scan Workload.decimal_float
      ["Average: 0.5 ms per insert"; "warm-up done"; "Average: 0.25 ms per insert";
       "Average: 0.125 ms per lookup"] None None = Py.Returned r /\
    fst r = Some 0.25%float.
Proof.
  eexists. split; [reflexivity |].
  apply (last_insert_line_decides Workload.decimal_float
           ["Average: 0.5 ms per insert"; "warm-up done"]
           ["Average: 0.125 ms per lookup"]
           "Average: 0.25 ms per insert" 0.25%float).
  - reflexivity.
  - reflexivity.
  - repeat constructor.
  - reflexivity.
Defined.

(** * The NenDB benchmarks: failures and substituted figures *)

Module NendbFacts.

Section Scan.

Variable py_float : string -> Py.outcome float.

(** On the insert and lookup figures the three-figure loop of
    real_memgraph_benchmark.py agrees with the two-figure loop of the
    other scripts. *)
Lemma real_scan_agrees (lines : list string)
    (insert_time lookup_time wal_time : option float)
    (r : option float * option float * option float) :
  RealMemgraphBenchmark.scan py_float lines insert_time lookup_time wal_time
    = Py.Returned r ->
  Workload.scan py_float lines insert_time lookup_time
    = Py.Returned (fst (fst r), snd (fst r)).
Proof.
  revert insert_time lookup_time wal_time.
  induction lines as [| line lines IH]; intros insert_time lookup_time wal_time;
    cbn [RealMemgraphBenchmark.scan Workload.scan].
  - intros H. now injection H as <-.
  - destruct (PyStr.contains "Average:" line && PyStr.contains "ms per insert" line).
    { destruct (Workload.average_of py_float line); cbn [mbind outcome_bind Py.bind];
        [apply IH | discriminate]. }
    destruct (PyStr.contains "Average:" line && PyStr.contains "ms per lookup" line).
    { destruct (Workload.average_of py_float line); cbn [mbind outcome_bind Py.bind];
        [apply IH | discriminate]. }
    destruct (PyStr.contains "Average:" line && PyStr.contains "ms per WAL operation" line).
    { destruct (Workload.average_of py_float line); cbn [mbind outcome_bind Py.bind];
        [apply IH | discriminate]. }
    apply IH.
Qed.

End Scan.

End NendbFacts.

(** X12. A failure while the workload output is read (a figure that
    [float] refuses) is swallowed by [benchmark_nendb_resources] and
    [benchmark_nendb_accurate], which return [{}], but escapes from
    [benchmark_nendb_fair], which catches [CalledProcessError] only:
    [run_fair_comparison] then ends with that exception and prints no
    report. *)
Theorem parse_failure_escapes_the_fair_benchmark
    (py_float : string -> Py.outcome float) (output : string) (e : Py.exn)
    (baseline monitor_system : Py.outcome Py.dict)
    (memgraph_results : Py.dict) (timestamp : string) :
  Workload.parse py_float output = Py.Raised e ->
  e <> Py.CalledProcessError ->
  ResourceBenchmark.benchmark_nendb_resources py_float
    {| ResourceBenchmark.nendb_baseline := baseline;
       ResourceBenchmark.subprocess := Py.Returned output |} = ∅ /\
  AccurateResourceBenchmark.benchmark_nendb_accurate py_float
    {| AccurateResourceBenchmark.subprocess := Py.Returned output;
       AccurateResourceBenchmark.monitor_system := monitor_system |} = ∅ /\
  FairBenchmark.benchmark_nendb_fair py_float (Py.Returned output) = Py.Raised e /\
  FairBenchmark.run_fair_comparison memgraph_results
    (FairBenchmark.benchmark_nendb_fair py_float (Py.Returned output)) timestamp
  = Py.Raised e.
Proof.
  intros Hparse Hne.
  assert (Hfair : FairBenchmark.benchmark_nendb_fair py_float (Py.Returned output)
                  = Py.Raised e).
  { unfold FairBenchmark.benchmark_nendb_fair. cbn [mbind outcome_bind Py.bind].
    rewrite Hparse. cbn [mbind outcome_bind Py.bind].
    destruct e; congruence. }
  split; [| split; [| split]].
  - unfold ResourceBenchmark.benchmark_nendb_resources.
    cbn [ResourceBenchmark.nendb_baseline ResourceBenchmark.subprocess].
    destruct baseline; cbn [mbind outcome_bind Py.bind]; [| reflexivity].
    now rewrite Hparse.
  - unfold AccurateResourceBenchmark.benchmark_nendb_accurate.
    cbn [AccurateResourceBenchmark.subprocess mbind outcome_bind Py.bind].
    now rewrite Hparse.
  - exact Hfair.
  - now rewrite Hfair.
Qed.

Lemma parse_failure_escapes_the_fair_benchmark_witness :
  let output := "Average: n/a ms per insert" in
  ResourceBenchmark.benchmark_nendb_resources Workload.decimal_float
    {| ResourceBenchmark.nendb_baseline := Py.Returned ∅;
       ResourceBenchmark.subprocess := Py.Returned output |} = ∅ /\
  AccurateResourceBenchmark.benchmark_nendb_accurate Workload.decimal_float
    {| AccurateResourceBenchmark.subprocess := Py.Returned output;
       AccurateResourceBenchmark.monitor_system := Py.Returned ∅ |} = ∅ /\
  FairBenchmark.benchmark_nendb_fair Workload.decimal_float (Py.Returned output)
    = Py.Raised Py.ValueError /\
  FairBenchmark.run_fair_comparison ∅
    (FairBenchmark.benchmark_nendb_fair Workload.decimal_float (Py.Returned output))
    "2025-01-01 00:00:00"
  = Py.Raised Py.ValueError.
Proof.
  intros output.
  apply (parse_failure_escapes_the_fair_benchmark Workload.decimal_float output
           Py.ValueError); [reflexivity | discriminate].
Defined.

(** X13. A measured insert time of zero ("Average: 0.000000 ms per
    insert") makes the rate [1000 / insert_time] raise [ZeroDivisionError]:
    [benchmark_nendb_resources] turns it into the empty result [{}], while
    [benchmark_nendb_fair] lets it escape. *)
Theorem zero_insert_time_has_no_rate
    (py_float : string -> Py.outcome float) (output : string)
    (insert_time lookup_time : float) (baseline : Py.dict) :
  Workload.parse py_float output = Py.Returned (Some insert_time, Some lookup_time) ->
  Py.is_zero insert_time = true ->
  ResourceBenchmark.benchmark_nendb_resources py_float
    {| ResourceBenchmark.nendb_baseline := Py.Returned baseline;
       ResourceBenchmark.subprocess := Py.Returned output |} = ∅ /\
  FairBenchmark.benchmark_nendb_fair py_float (Py.Returned output)
  = Py.Raised Py.ZeroDivisionError.
Proof.
  intros Hparse Hzero. split.
  - unfold ResourceBenchmark.benchmark_nendb_resources.
    cbn [ResourceBenchmark.nendb_baseline ResourceBenchmark.subprocess
         mbind outcome_bind Py.bind].
    rewrite Hparse. cbn [mbind outcome_bind Py.bind Workload.rate].
    unfold Py.truediv. now rewrite Hzero.
  - unfold FairBenchmark.benchmark_nendb_fair. cbn [mbind outcome_bind Py.bind].
    rewrite Hparse. cbn [mbind outcome_bind Py.bind].
    unfold Py.truediv. now rewrite Hzero.
Qed.

Lemma zero_insert_time_has_no_rate_witness :
  let output := "Average: 0.000000 ms per insert" +:+ PyStr.newline +:+
                "Average: 0.002881 ms per lookup" in
  ResourceBenchmark.benchmark_nendb_resources Workload.decimal_float
    {| ResourceBenchmark.nendb_baseline := Py.Returned ∅;
       ResourceBenchmark.subprocess := Py.Returned output |} = ∅ /\
  FairBenchmark.benchmark_nendb_fair Workload.decimal_float (Py.Returned output)
  = Py.Raised Py.ZeroDivisionError.
Proof.
  intros output.
  apply (zero_insert_time_has_no_rate Workload.decimal_float output 0%float
           0.002881%float ∅); reflexivity.
Defined.

(** X14. In [benchmark_nendb_fair] a missing lookup figure discards the
    measured insert figure too: with an insert line but no lookup line the
    result is the one built from the constants 0.004547 and 0.002881, the
    result of an output without any figure. *)
Theorem fair_missing_lookup_discards_insert
    (py_float : string -> Py.outcome float) (output : string) (insert_time : float) :
  Workload.parse py_float output = Py.Returned (Some insert_time, None) ->
  exists d,
    FairBenchmark.benchmark_nendb_fair py_float (Py.Returned output) = Py.Returned d /\
    FairBenchmark.benchmark_nendb_fair py_float (Py.Returned EmptyString) = Py.Returned d /\
    d !! "single_create_ms" = Some (Py.VFloat 0.004547%float) /\
    d !! "single_create_rate" = Some (Py.VFloat (PrimFloat.div 1000 0.004547)%float) /\
    d !! "single_lookup_ms" = Some (Py.VFloat 0.002881%float).
Proof.
  intros Hparse. unfold FairBenchmark.benchmark_nendb_fair.
  cbn [mbind outcome_bind Py.bind]. rewrite Hparse.
  eexists. split; [reflexivity |]. split; [reflexivity |].
  repeat split; reflexivity.
Qed.

Lemma fair_missing_lookup_discards_insert_witness :
  exists d,
    FairBenchmark.benchmark_nendb_fair Workload.decimal_float
      (Py.Returned "Average: 0.25 ms per insert") = Py.Returned d /\
    FairBenchmark.benchmark_nendb_fair Workload.decimal_float
      (Py.Returned EmptyString) = Py.Returned d /\
    d !! "single_create_ms" = Some (Py.VFloat 0.004547%float) /\
    d !! "single_create_rate" = Some (Py.VFloat (PrimFloat.div 1000 0.004547)%float) /\
    d !! "single_lookup_ms" = Some (Py.VFloat 0.002881%float).
Proof.
  exact (fair_missing_lookup_discards_insert Workload.decimal_float
           "Average: 0.25 ms per insert" 0.25%float eq_refl).
Defined.

(** X15. In [benchmark_nendb] of real_memgraph_benchmark.py the three
    figures stand or fall together: when the WAL figure (or any other of the
    three) is missing, the measured insert and lookup figures are discarded
    and the result is the one built from the constants 0.004547 and
    0.002881. *)
Theorem real_missing_figure_discards_the_others
    (py_float : string -> Py.outcome float) (output : string)
    (insert_time lookup_time wal_time : option float) :
  RealMemgraphBenchmark.scan py_float (Spec.lines_of output) None None None
    = Py.Returned (insert_time, lookup_time, wal_time) ->
  insert_time = None \/ lookup_time = None \/ wal_time = None ->
  RealMemgraphBenchmark.benchmark_nendb py_float (Py.Returned output)
  = Py.Returned (list_to_map [
      ("node_creation_ms", Py.VFloat 0.004547%float);
      ("node_lookup_ms", Py.VFloat 0.002881%float);
      ("relationship_creation_ms", Py.VFloat 0.004547%float);
      ("node_creation_rate",
        Py.VFloat (PrimFloat.div 1000 (PrimFloat.div 0.004547 1000))%float);
      ("node_lookup_rate",
        Py.VFloat (PrimFloat.div 1000 (PrimFloat.div 0.002881 1000))%float);
      ("relationship_creation_rate",
        Py.VFloat (PrimFloat.div 1000 (PrimFloat.div 0.004547 1000))%float);
      ("memory_per_node", Py.VInt 144);
      ("zero_fragmentation", Py.VBool true);
      ("predictable_performance", Py.VBool true)]).
Proof.
  intros Hscan Hmissing. unfold RealMemgraphBenchmark.benchmark_nendb.
  cbn [mbind outcome_bind Py.bind]. unfold Spec.lines_of in Hscan. rewrite Hscan.
  destruct insert_time, lookup_time, wal_time;
    try reflexivity; destruct Hmissing as [H | [H | H]]; discriminate.
Qed.

Lemma real_missing_figure_discards_the_others_witness :
  exists d,
    RealMemgraphBenchmark.benchmark_nendb Workload.decimal_float
      (Py.Returned ("Average: 0.25 ms per insert" +:+ PyStr.newline +:+
                    "Average: 0.125 ms per lookup")) = Py.Returned d /\
    d !! "node_creation_ms" = Some (Py.VFloat 0.004547%float) /\
    d !! "node_lookup_ms" = Some (Py.VFloat 0.002881%float).
Proof.
  eexists. split.
  - apply (real_missing_figure_discards_the_others Workload.decimal_float _
             (Some 0.25%float) (Some 0.125%float) None); [reflexivity | tauto].
  - split; reflexivity.
Defined.

(** X16. The WAL figure that [benchmark_nendb] of real_memgraph_benchmark.py
    reads is never stored: two outputs that give the same insert and lookup
    figures give the same result, whatever their WAL figures are. *)
Theorem wal_figure_is_not_stored
    (py_float : string -> Py.outcome float) (output output' : string)
    (insert_time lookup_time wal_time wal_time' : float) :
  RealMemgraphBenchmark.scan py_float (Spec.lines_of output) None None None
    = Py.Returned (Some insert_time, Some lookup_time, Some wal_time) ->
  RealMemgraphBenchmark.scan py_float (Spec.lines_of output') None None None
    = Py.Returned (Some insert_time, Some lookup_time, Some wal_time') ->
  RealMemgraphBenchmark.benchmark_nendb py_float (Py.Returned output)
  = RealMemgraphBenchmark.benchmark_nendb py_float (Py.Returned output').
Proof.
  intros H H'. unfold RealMemgraphBenchmark.benchmark_nendb.
  cbn [mbind outcome_bind Py.bind]. unfold Spec.lines_of in H, H'.
  now rewrite H, H'.
Qed.

Lemma wal_figure_is_not_stored_witness :
  RealMemgraphBenchmark.benchmark_nendb Workload.decimal_float
    (Py.Returned ("Average: 0.25 ms per insert" +:+ PyStr.newline +:+
                  "Average: 0.125 ms per lookup" +:+ PyStr.newline +:+
                  "Average: 0.5 ms per WAL operation"))
  = RealMemgraphBenchmark.benchmark_nendb Workload.decimal_float
      (Py.Returned ("Average: 0.25 ms per insert" +:+ PyStr.newline +:+
                    "Average: 0.125 ms per lookup" +:+ PyStr.newline +:+
                    "Average: 64 ms per WAL operation")).
Proof.
  apply (wal_figure_is_not_stored Workload.decimal_float _ _
           0.25%float 0.125%float 0.5%float 64%float); reflexivity.
Defined.

(** X17. From the same workload output fair_benchmark.py and
    real_memgraph_benchmark.py store the same milliseconds-per-insert figure
    [t], but not the same throughput: [benchmark_nendb_fair] stores
    [1000 / t], [benchmark_nendb] stores [1000 / (t / 1000)]. *)
Theorem real_rate_is_not_the_fair_rate
    (py_float : string -> Py.outcome float) (output : string)
    (insert_time lookup_time wal_time : float) (fair real : Py.dict) :
  RealMemgraphBenchmark.scan py_float (Spec.lines_of output) None None None
    = Py.Returned (Some insert_time, Some lookup_time, Some wal_time) ->
  FairBenchmark.benchmark_nendb_fair py_float (Py.Returned output) = Py.Returned fair ->
  RealMemgraphBenchmark.benchmark_nendb py_float (Py.Returned output) = Py.Returned real ->
  fair !! "single_create_ms" = Some (Py.VFloat insert_time) /\
  real !! "node_creation_ms" = Some (Py.VFloat insert_time) /\
  fair !! "single_create_rate"
    = Some (Py.VFloat (PrimFloat.div 1000 insert_time)) /\
  real !! "node_creation_rate"
    = Some (Py.VFloat (PrimFloat.div 1000 (PrimFloat.div insert_time 1000))).
Proof.
  intros Hscan.
  pose proof (NendbFacts.real_scan_agrees _ _ _ _ _ _ Hscan) as Hparse.
  cbn [fst snd] in Hparse.
  unfold FairBenchmark.benchmark_nendb_fair, RealMemgraphBenchmark.benchmark_nendb.
  cbn [mbind outcome_bind Py.bind]. unfold Workload.parse.
  unfold Spec.lines_of in Hscan, Hparse. rewrite Hscan, Hparse.
  cbn [mbind outcome_bind Py.bind]. unfold Py.truediv.
  destruct (Py.is_zero insert_time); [discriminate |].
  destruct (Py.is_zero lookup_time); [discriminate |].
  destruct (Py.is_zero (PrimFloat.div insert_time 1000)); [discriminate |].
  destruct (Py.is_zero (PrimFloat.div lookup_time 1000)); [discriminate |].
  cbn [mbind outcome_bind Py.bind mret outcome_ret].
  intros Hfair Hreal. injection Hfair as <-. injection Hreal as <-.
  repeat split; reflexivity.
Qed.

Lemma real_rate_is_not_the_fair_rate_witness :
  let output := "Average: 0.25 ms per insert" +:+ PyStr.newline +:+
                "Average: 0.125 ms per lookup" +:+ PyStr.newline +:+
                "Average: 0.5 ms per WAL operation" in
  exists fair real,
    FairBenchmark.benchmark_nendb_fair Workload.decimal_float (Py.Returned output)
      = Py.Returned fair /\
    RealMemgraphBenchmark.benchmark_nendb Workload.decimal_float (Py.Returned output)
      = Py.Returned real /\
    fair !! "single_create_rate" = Some (Py.VFloat 4000%float) /\
    real !! "node_creation_rate" = Some (Py.VFloat 4000000%float).
Proof.
  intros output. eexists _, _. split; [reflexivity |]. split; [reflexivity |].
  destruct (real_rate_is_not_the_fair_rate Workload.decimal_float output
              0.25%float 0.125%float 0.5%float _ _ eq_refl eq_refl eq_refl)
    as (_ & _ & Hfair & Hreal).
  split; [exact Hfair | exact Hreal].
Defined.

(** * The reports on the results the benchmarks produce *)

Module ReportFacts.

Lemma truediv_raises (x y : float) (e : Py.exn) :
  Py.truediv x y = Py.Raised e -> e = Py.ZeroDivisionError.
Proof. unfold Py.truediv. destruct (Py.is_zero y); congruence. Qed.

Lemma number_empty (key : string) :
  Py.number ∅ key = Py.Raised (Py.KeyError key).
Proof. unfold Py.number, Py.getitem. now rewrite lookup_empty. Qed.

(** Takes the tests of a computation one by one; a test on constants is
    decided by evaluation. *)
Ltac decide_tests :=
  repeat (
    cbn [mbind outcome_bind Py.bind mret outcome_ret];
    match goal with
    | |- context [if ?b then _ else _] =>
        lazymatch type of b with
        | bool =>
            let Hb := fresh "Hb" in
            destruct b eqn:Hb; try (vm_compute in Hb; discriminate Hb)
        end
    end;
    try (intros; discriminate)).

Section Shapes.

Variable py_float : string -> Py.outcome float.

(** What [generate_fair_report] reads in a result of
    [benchmark_nendb_fair]. *)
Lemma fair_nendb_reads (subprocess : Py.outcome string) (n : Py.dict) :
  FairBenchmark.benchmark_nendb_fair py_float subprocess = Py.Returned n ->
  n = ∅ \/
  exists insert_time rate,
    Py.number n "single_create_ms" = Py.Returned insert_time /\
    Py.number n "batch_create_ms" = Py.Returned insert_time /\
    Py.number n "single_create_rate" = Py.Returned rate /\
    Py.number n "memory_per_node" = Py.Returned 144%float /\
    Py.getitem n "zero_fragmentation" = Py.Returned (Py.VBool true) /\
    Py.getitem n "predictable_performance" = Py.Returned (Py.VBool true).
Proof.
  unfold FairBenchmark.benchmark_nendb_fair.
  destruct subprocess as [output | e]; cbn [mbind outcome_bind Py.bind].
  2: { destruct e; intros H; try discriminate H. injection H as <-. now left. }
  destruct (Workload.parse py_float output) as [[i l] | e];
    cbn [mbind outcome_bind Py.bind].
  2: { destruct e; intros H; try discriminate H. injection H as <-. now left. }
  destruct i as [i |], l as [l |]; cbv beta iota zeta; unfold Py.truediv;
    decide_tests; intros H; injection H as <-; right; eexists _, _;
    repeat split; reflexivity.
Qed.

(** What [generate_comparison_report] reads in a result of
    [benchmark_nendb]. *)
Lemma real_nendb_reads (subprocess : Py.outcome string) (n : Py.dict) :
  RealMemgraphBenchmark.benchmark_nendb py_float subprocess = Py.Returned n ->
  n = ∅ \/
  exists insert_time lookup_time rate,
    Py.number n "node_creation_ms" = Py.Returned insert_time /\
    Py.number n "node_lookup_ms" = Py.Returned lookup_time /\
    Py.number n "node_creation_rate" = Py.Returned rate /\
    Py.number n "memory_per_node" = Py.Returned 144%float /\
    Py.getitem n "zero_fragmentation" = Py.Returned (Py.VBool true) /\
    Py.getitem n "predictable_performance" = Py.Returned (Py.VBool true).
Proof.
  unfold RealMemgraphBenchmark.benchmark_nendb.
  destruct subprocess as [output | e]; cbn [mbind outcome_bind Py.bind].
  2: { destruct e; intros H; try discriminate H. injection H as <-. now left. }
  destruct (RealMemgraphBenchmark.scan py_float _ None None None) as [[[i l] w] | e];
    cbn [mbind outcome_bind Py.bind].
  2: { destruct e; intros H; try discriminate H. injection H as <-. now left. }
  destruct i as [i |], l as [l |], w as [w |]; cbv beta iota zeta; unfold Py.truediv;
    decide_tests; intros H; injection H as <-; right; eexists _, _, _;
    repeat split; reflexivity.
Qed.

End Shapes.

(** What [generate_fair_report] reads in a result of
    [benchmark_memgraph_fair]. *)
Lemma fair_memgraph_reads (run : FairBenchmark.memgraph_run) :
  let m := FairBenchmark.benchmark_memgraph_fair run in
  m = ∅ \/
  exists single batch rate,
    Py.number m "single_create_ms" = Py.Returned single /\
    Py.number m "batch_create_ms" = Py.Returned batch /\
    Py.number m "single_create_rate" = Py.Returned rate /\
    Py.number m "memory_per_node" = Py.Returned 200%float.
Proof.
  unfold FairBenchmark.benchmark_memgraph_fair. cbv zeta.
  destruct (FairBenchmark.connect run); [| now left].
  destruct (FairBenchmark.single_create run) as [creates |]; [| now left].
  destruct (FairBenchmark.single_lookup run) as [lookups |]; [| now left].
  destruct (FairBenchmark.batch_create run) as [batch_create |]; [| now left].
  destruct (FairBenchmark.batch_lookup run) as [batch_lookup |]; [| now left].
  destruct (FairBenchmark.cleanup run); [| now left].
  cbn [mbind outcome_bind Py.bind].
  destruct (Py.statistics_mean (map FairBenchmark.to_ms creates)) as [avg_create |];
    [| now left].
  cbn [mbind outcome_bind Py.bind].
  destruct (Py.statistics_mean (map FairBenchmark.to_ms lookups)) as [avg_lookup |];
    [| now left].
  cbn [mbind outcome_bind Py.bind].
  destruct (Py.truediv 1000 avg_create); [| now left].
  cbn [mbind outcome_bind Py.bind].
  destruct (Py.truediv 1000 avg_lookup); [| now left].
  cbn [mbind outcome_bind Py.bind].
  destruct (Py.truediv 1000 (PrimFloat.div (FairBenchmark.to_ms batch_create) 1000));
    [| now left].
  cbn [mbind outcome_bind Py.bind].
  destruct (Py.truediv 1000 (PrimFloat.div (FairBenchmark.to_ms batch_lookup) 1000));
    [| now left].
  right. eexists _, _, _. repeat split; reflexivity.
Qed.

(** What [generate_comparison_report] reads in a result of
    [benchmark_memgraph]. *)
Lemma real_memgraph_reads (run : RealMemgraphBenchmark.memgraph_run) :
  let m := RealMemgraphBenchmark.benchmark_memgraph run in
  m = ∅ \/
  exists creation lookup rate,
    Py.number m "node_creation_ms" = Py.Returned creation /\
    Py.number m "node_lookup_ms" = Py.Returned lookup /\
    Py.number m "node_creation_rate" = Py.Returned rate /\
    Py.number m "memory_per_node" = Py.Returned 200%float.
Proof.
  unfold RealMemgraphBenchmark.benchmark_memgraph. cbv zeta.
  destruct (RealMemgraphBenchmark.connect run); [| now left].
  destruct (RealMemgraphBenchmark.node_creation run) as [creation |]; [| now left].
  cbn [mbind outcome_bind Py.bind].
  destruct (Py.truediv 1000 creation); [| now left].
  destruct (RealMemgraphBenchmark.node_lookup run) as [lookup |]; [| now left].
  cbn [mbind outcome_bind Py.bind].
  destruct (Py.truediv 1000 lookup); [| now left].
  destruct (RealMemgraphBenchmark.rel_creation run) as [relation |]; [| now left].
  cbn [mbind outcome_bind Py.bind].
  destruct (Py.truediv 1000 relation); [| now left].
  destruct (RealMemgraphBenchmark.cleanup run); [| now left].
  right. eexists _, _, _. repeat split; reflexivity.
Qed.

End ReportFacts.

(** X18. The outcome of competitive_benchmark.py does not depend on any
    measurement: whenever [zig build bench] succeeds, the report scores 8 of
    8 (100.0%) with the verdict EXCELLENT, whether or not Neo4j and Memgraph
    are running and whatever the two probes answer. When the build fails
    with [CalledProcessError] the report stops as incomplete and the results
    are saved all the same; any other failure of the build step escapes. *)
Theorem competitive_outcome_is_fixed (neo4j_status memgraph_result : Py.outcome Z) :
  (exists saved,
     CompetitiveBenchmark.main (Py.Returned tt) neo4j_status memgraph_result
     = Py.Returned
         (Some (8,
                [Out.Lit "Competitive Score: "; Out.Int 8; Out.Lit "/"; Out.Int 8;
                 Out.Lit " ("; Out.Num ".1f" 100%float; Out.Lit "%)"],
                Out.text "🥇 EXCELLENT - NenDB dominates the competition!"),
          saved)) /\
  (exists saved,
     CompetitiveBenchmark.main (Py.Raised Py.CalledProcessError)
       neo4j_status memgraph_result
     = Py.Returned (None, saved) /\
     saved !! "nendb" = Some (Py.VDict ∅)) /\
  (forall e, e <> Py.CalledProcessError ->
     CompetitiveBenchmark.main (Py.Raised e) neo4j_status memgraph_result = Py.Raised e).
Proof.
  split; [| split].
  - destruct neo4j_status as [code |], memgraph_result as [code' |];
      unfold CompetitiveBenchmark.main, CompetitiveBenchmark.run_all_benchmarks,
        CompetitiveBenchmark._check_neo4j_running,
        CompetitiveBenchmark._check_memgraph_running;
      try destruct (code =? 200); try destruct (code' =? 0);
      eexists; reflexivity.
  - destruct neo4j_status as [code |], memgraph_result as [code' |];
      unfold CompetitiveBenchmark.main, CompetitiveBenchmark.run_all_benchmarks,
        CompetitiveBenchmark._check_neo4j_running,
        CompetitiveBenchmark._check_memgraph_running;
      try destruct (code =? 200); try destruct (code' =? 0);
      eexists; split; reflexivity.
  - intros e He. unfold CompetitiveBenchmark.main, CompetitiveBenchmark.run_all_benchmarks.
    destruct e; try reflexivity. congruence.
Qed.

(** X19. How many points each verdict takes. On the six-point scales of
    [generate_resource_report], [generate_fair_report] and
    [generate_comparison_report] the verdict is EXCELLENT from 5 points,
    GOOD at 4, FAIR at 3 and NEEDS IMPROVEMENT below; on the eight-point
    scale of [generate_report] it is EXCELLENT from 7 points, GOOD at 5 and
    6, FAIR at 4 and NEEDS IMPROVEMENT below. *)
Theorem verdict_by_points (six eight : Z) :
  0 <= six <= 6 -> 0 <= eight <= 8 ->
  ResourceBenchmark.verdict
    (PrimFloat.mul (Py.int_truediv six ResourceBenchmark.max_score) 100)
  = (if 5 <=? six
     then Out.text "🥇 EXCELLENT - NenDB significantly more resource efficient!"
     else if 4 <=? six then Out.text "🥈 GOOD - NenDB is resource efficient"
     else if 3 <=? six then Out.text "🥉 FAIR - NenDB has some resource advantages"
     else Out.text "⚠️  NEEDS IMPROVEMENT - Focus on resource optimization") /\
  FairBenchmark.verdict (FairBenchmark.percentage six)
  = (if 5 <=? six
     then Out.text "🥇 EXCELLENT - NenDB significantly outperforms Memgraph!"
     else if 4 <=? six then Out.text "🥈 GOOD - NenDB is competitive with Memgraph"
     else if 3 <=? six then Out.text "🥉 FAIR - NenDB has some advantages"
     else Out.text "⚠️  NEEDS IMPROVEMENT - Focus on key differentiators") /\
  RealMemgraphBenchmark.verdict (RealMemgraphBenchmark.percentage six)
  = FairBenchmark.verdict (FairBenchmark.percentage six) /\
  CompetitiveBenchmark.verdict (CompetitiveBenchmark.percentage eight)
  = (if 7 <=? eight
     then Out.text "🥇 EXCELLENT - NenDB dominates the competition!"
     else if 5 <=? eight then Out.text "🥈 GOOD - NenDB is competitive with leaders"
     else if 4 <=? eight then Out.text "🥉 FAIR - NenDB has some advantages"
     else Out.text "⚠️  NEEDS IMPROVEMENT - Focus on key differentiators").
Proof.
  intros Hsix Height.
  assert (H6 : six = 0 \/ six = 1 \/ six = 2 \/ six = 3 \/ six = 4 \/ six = 5 \/ six = 6)
    by lia.
  assert (H8 : eight = 0 \/ eight = 1 \/ eight = 2 \/ eight = 3 \/ eight = 4 \/
               eight = 5 \/ eight = 6 \/ eight = 7 \/ eight = 8) by lia.
  split; [| split; [| split]].
  - clear -H6. repeat destruct H6 as [-> | H6]; try subst six; reflexivity.
  - clear -H6. repeat destruct H6 as [-> | H6]; try subst six; reflexivity.
  - clear -H6. repeat destruct H6 as [-> | H6]; try subst six; reflexivity.
  - clear -H8. repeat destruct H8 as [-> | H8]; try subst eight; reflexivity.
Qed.

Lemma verdict_by_points_witness :
  ResourceBenchmark.verdict
    (PrimFloat.mul (Py.int_truediv 4 ResourceBenchmark.max_score) 100)
  = Out.text "🥈 GOOD - NenDB is resource efficient" /\
  FairBenchmark.verdict (FairBenchmark.percentage 4)
  = Out.text "🥈 GOOD - NenDB is competitive with Memgraph" /\
  RealMemgraphBenchmark.verdict (RealMemgraphBenchmark.percentage 4)
  = FairBenchmark.verdict (FairBenchmark.percentage 4) /\
  CompetitiveBenchmark.verdict (CompetitiveBenchmark.percentage 6)
  = Out.text "🥈 GOOD - NenDB is competitive with leaders".
Proof.
  apply (verdict_by_points 4 6); lia.
Defined.

(** X20. Half of the fair score is fixed before anything is measured: on
    the results of [benchmark_nendb_fair] and [benchmark_memgraph_fair] the
    memory point (144 against 200 bytes) and the two flag points are always
    credited, so a report that is printed scores at least 3 of 6 and its
    verdict is never NEEDS IMPROVEMENT, however slow NenDB was measured. *)
Theorem fair_score_has_a_floor (py_float : string -> Py.outcome float)
    (subprocess : Py.outcome string) (run : FairBenchmark.memgraph_run)
    (nendb_results : Py.dict) (total_score : Z) (score_line : Out.line) :
  FairBenchmark.benchmark_nendb_fair py_float subprocess = Py.Returned nendb_results ->
  FairBenchmark.generate_fair_report nendb_results
    (FairBenchmark.benchmark_memgraph_fair run)
  = Py.Returned (total_score, score_line) ->
  3 <= total_score <= 6 /\
  FairBenchmark.verdict (FairBenchmark.percentage total_score)
  <> Out.text "⚠️  NEEDS IMPROVEMENT - Focus on key differentiators".
Proof.
  intros Hn. apply ReportFacts.fair_nendb_reads in Hn.
  pose proof (ReportFacts.fair_memgraph_reads run) as Hm. cbv zeta in Hm.
  unfold FairBenchmark.generate_fair_report.
  destruct Hn as [-> | (i & r & Hn1 & Hn2 & Hn3 & Hn4 & Hn5 & Hn6)].
  { rewrite ReportFacts.number_empty. discriminate. }
  rewrite Hn1. cbn [mbind outcome_bind Py.bind].
  destruct Hm as [-> | (mi & mb & mr & Hm1 & Hm2 & Hm3 & Hm4)].
  { rewrite ReportFacts.number_empty. discriminate. }
  rewrite Hm1, Hn2, Hm2, Hn3, Hm3, Hn4, Hm4, Hn5, Hn6.
  unfold FairBenchmark.shown_ratio, Py.truediv, FairBenchmark.total_score.
  ReportFacts.decide_tests;
    intros H; injection H as <- _; (split; [vm_compute; split; discriminate |]);
    vm_compute; discriminate.
Qed.

(** Memgraph at a microsecond per operation, NenDB at 64 ms. *)
Lemma fair_score_has_a_floor_witness :
  3 <= 3 <= 6 /\
  FairBenchmark.verdict (FairBenchmark.percentage 3)
  <> Out.text "⚠️  NEEDS IMPROVEMENT - Focus on key differentiators".
Proof.
  pose (run := {| FairBenchmark.connect := Py.Returned tt;
                  FairBenchmark.single_create := Py.Returned [0.000001; 0.000001]%float;
                  FairBenchmark.single_lookup := Py.Returned [0.000001; 0.000001]%float;
                  FairBenchmark.batch_create := Py.Returned 0.001%float;
                  FairBenchmark.batch_lookup := Py.Returned 0.001%float;
                  FairBenchmark.cleanup := Py.Returned tt |}).
  pose (subprocess :=
          Py.Returned ("Average: 64 ms per insert" +:+ PyStr.newline +:+
                       "Average: 64 ms per lookup")).
  apply (fair_score_has_a_floor Workload.decimal_float subprocess run
           (Py.rescue (FairBenchmark.benchmark_nendb_fair Workload.decimal_float subprocess) ∅)
           3
           [Out.Lit "Competitive Score: "; Out.Int 3; Out.Lit "/"; Out.Int 6;
            Out.Lit " ("; Out.Num ".1f" 50%float; Out.Lit "%)"]);
    reflexivity.
Defined.

(** X21. Half of the score of real_memgraph_benchmark.py is fixed before
    anything is measured: on the results of [benchmark_nendb] and
    [benchmark_memgraph] a report that is printed always lists the two flag
    advantages (so never "No clear advantages identified"), scores at least
    3 of 6, and never gives the verdict NEEDS IMPROVEMENT. *)
Theorem real_report_has_a_floor (py_float : string -> Py.outcome float)
    (subprocess : Py.outcome string) (run : RealMemgraphBenchmark.memgraph_run)
    (nendb_results : Py.dict) (printed : RealMemgraphBenchmark.report) :
  RealMemgraphBenchmark.benchmark_nendb py_float subprocess = Py.Returned nendb_results ->
  RealMemgraphBenchmark.generate_comparison_report nendb_results
    (RealMemgraphBenchmark.benchmark_memgraph run)
  = Py.Returned printed ->
  In (Out.text "✅ NenDB: Zero memory fragmentation")
     (RealMemgraphBenchmark.advantages printed) /\
  In (Out.text "✅ NenDB: Predictable performance")
     (RealMemgraphBenchmark.advantages printed) /\
  3 <= RealMemgraphBenchmark.score printed <= 6 /\
  RealMemgraphBenchmark.verdict_line printed
  <> Out.text "⚠️  NEEDS IMPROVEMENT - Focus on key differentiators".
Proof.
  intros Hn. apply ReportFacts.real_nendb_reads in Hn.
  pose proof (ReportFacts.real_memgraph_reads run) as Hm. cbv zeta in Hm.
  unfold RealMemgraphBenchmark.generate_comparison_report.
  destruct Hn as [-> | (i & l & r & Hn1 & Hn2 & Hn3 & Hn4 & Hn5 & Hn6)].
  { rewrite ReportFacts.number_empty. discriminate. }
  rewrite Hn1. cbn [mbind outcome_bind Py.bind].
  destruct Hm as [-> | (mi & ml & mr & Hm1 & Hm2 & Hm3 & Hm4)].
  { rewrite ReportFacts.number_empty. discriminate. }
  rewrite Hm1, Hn2, Hm2, Hn3, Hm3, Hn4, Hm4, Hn5, Hn6.
  unfold RealMemgraphBenchmark.compared, RealMemgraphBenchmark.advantage, Py.truediv,
    RealMemgraphBenchmark.total_score.
  ReportFacts.decide_tests;
    intros H; injection H as <-;
    cbn [RealMemgraphBenchmark.advantages RealMemgraphBenchmark.score
         RealMemgraphBenchmark.verdict_line Py.truthy app];
    (split; [now left |]); (split; [right; now left |]);
    (split; [vm_compute; split; discriminate |]);
    vm_compute; discriminate.
Qed.

(** Memgraph at a microsecond per operation, NenDB at 64 ms. *)
Lemma real_report_has_a_floor_witness :
  let run := {| RealMemgraphBenchmark.connect := Py.Returned tt;
                RealMemgraphBenchmark.node_creation := Py.Returned 0.001%float;
                RealMemgraphBenchmark.node_lookup := Py.Returned 0.001%float;
                RealMemgraphBenchmark.rel_creation := Py.Returned 0.001%float;
                RealMemgraphBenchmark.cleanup := Py.Returned tt |} in
  let subprocess :=
    Py.Returned ("Average: 64 ms per insert" +:+ PyStr.newline +:+
                 "Average: 64 ms per lookup" +:+ PyStr.newline +:+
                 "Average: 64 ms per WAL operation") in
  let nendb_results :=
    Py.rescue (RealMemgraphBenchmark.benchmark_nendb Workload.decimal_float subprocess) ∅ in
  let printed :=
    {| RealMemgraphBenchmark.comparisons := [
         [Out.Lit "⚠️  Memgraph is "; Out.Num ".1f" 64000%float;
          Out.Lit "x faster than NenDB"];
         [Out.Lit "⚠️  Memgraph is "; Out.Num ".1f" 64000%float;
          Out.Lit "x faster than NenDB"];
         [Out.Lit "⚠️  Memgraph has "; Out.Num ".1f" 64%float;
          Out.Lit "x higher throughput than NenDB"];
         [Out.Lit "🥇 NenDB is "; Out.Num ".1f" (PrimFloat.div 200 144);
          Out.Lit "x more memory efficient than Memgraph"]];
       RealMemgraphBenchmark.advantages := [
         Out.text "✅ NenDB: Zero memory fragmentation";
         Out.text "✅ NenDB: Predictable performance";
         [Out.Lit "✅ NenDB: "; Out.Num ".1f" (PrimFloat.div 200 144);
          Out.Lit "x more memory efficient"]];
       RealMemgraphBenchmark.score := 3;
       RealMemgraphBenchmark.score_line := [
         Out.Lit "Competitive Score: "; Out.Int 3; Out.Lit "/"; Out.Int 6;
         Out.Lit " ("; Out.Num ".1f" 50%float; Out.Lit "%)"];
       RealMemgraphBenchmark.verdict_line :=
         Out.text "🥉 FAIR - NenDB has some advantages" |} in
  In (Out.text "✅ NenDB: Zero memory fragmentation")
     (RealMemgraphBenchmark.advantages printed) /\
  In (Out.text "✅ NenDB: Predictable performance")
     (RealMemgraphBenchmark.advantages printed) /\
  3 <= RealMemgraphBenchmark.score printed <= 6 /\
  RealMemgraphBenchmark.verdict_line printed
  <> Out.text "⚠️  NEEDS IMPROVEMENT - Focus on key differentiators".
Proof.
  intros run subprocess nendb_results printed.
  apply (real_report_has_a_floor Workload.decimal_float subprocess run nendb_results
           printed); reflexivity.
Defined.

(** * Producers and consumers of the resource results *)

Module ResourceFacts.

Import ResourceBenchmark.

(** What [generate_resource_report] reads in a non-empty result of
    [benchmark_memgraph_resources] whose baseline came from
    [monitor_resources]. *)
Lemma memgraph_reads (run : memgraph_run) (s : samples) :
  baseline run = stats s ->
  benchmark_memgraph_resources run <> ∅ ->
  exists create cpu mem read write,
    Py.number (benchmark_memgraph_resources run) "creation_rate" = Py.Returned create /\
    Py.number (benchmark_memgraph_resources run) "cpu_avg" = Py.Returned cpu /\
    Py.number (benchmark_memgraph_resources run) "memory_avg_gb" = Py.Returned mem /\
    Py.number (benchmark_memgraph_resources run) "disk_read_mb" = Py.Returned read /\
    Py.number (benchmark_memgraph_resources run) "disk_write_mb" = Py.Returned write.
Proof.
  intros Hbase. unfold benchmark_memgraph_resources. rewrite Hbase.
  destruct (connect run); [| now intros []].
  cbn [mbind outcome_bind Py.bind].
  destruct (stats s) as [b |] eqn:Hs; [| now intros []].
  apply ThroughputFacts.stats_shape in Hs
    as (cpu_avg & cpu_max & cpu_min & mem_avg & mem_max & mem_min & read & write & ->).
  cbn [mbind outcome_bind Py.bind].
  destruct (creation run) as [creation_time |]; [| now intros []].
  cbn [mbind outcome_bind Py.bind].
  destruct (lookup run) as [lookup_time |]; [| now intros []].
  cbn [mbind outcome_bind Py.bind].
  destruct (cleanup run); [| now intros []].
  cbn [mbind outcome_bind Py.bind].
  destruct (Py.truediv 10000 creation_time) as [create |]; [| now intros []].
  cbn [mbind outcome_bind Py.bind].
  destruct (Py.truediv 1000 lookup_time); [| now intros []].
  intros _. exists create, cpu_avg, mem_avg, read, write.
  repeat split; reflexivity.
Qed.

Section Nendb.

Variable py_float : string -> Py.outcome float.

Lemma nendb_reads (run : nendb_run) (s : samples) :
  nendb_baseline run = stats s ->
  benchmark_nendb_resources py_float run <> ∅ ->
  exists create cpu mem read write,
    Py.number (benchmark_nendb_resources py_float run) "creation_rate"
      = Py.Returned create /\
    Py.number (benchmark_nendb_resources py_float run) "cpu_avg" = Py.Returned cpu /\
    Py.number (benchmark_nendb_resources py_float run) "memory_avg_gb"
      = Py.Returned mem /\
    Py.number (benchmark_nendb_resources py_float run) "disk_read_mb"
      = Py.Returned read /\
    Py.number (benchmark_nendb_resources py_float run) "disk_write_mb"
      = Py.Returned write.
Proof.
  intros Hbase. unfold benchmark_nendb_resources. rewrite Hbase.
  destruct (stats s) as [b |] eqn:Hs; [| now intros []].
  apply ThroughputFacts.stats_shape in Hs
    as (cpu_avg & cpu_max & cpu_min & mem_avg & mem_max & mem_min & read & write & ->).
  cbn [mbind outcome_bind Py.bind].
  destruct (subprocess run) as [output |]; [| now intros []].
  cbn [mbind outcome_bind Py.bind].
  destruct (Workload.parse py_float output) as [[i l] |]; [| now intros []].
  cbn [mbind outcome_bind Py.bind].
  destruct i as [i |]; cbv beta iota zeta.
  - destruct (Workload.rate (Some i)) as [create |]; [| now intros []].
    cbn [mbind outcome_bind Py.bind].
    destruct (Workload.rate l); [| now intros []].
    intros _. exists create, cpu_avg, mem_avg, read, write.
    repeat split; reflexivity.
  - destruct (Workload.rate (Some 0.003328%float)) as [create |]; [| now intros []].
    cbn [mbind outcome_bind Py.bind].
    destruct (Workload.rate (Some 0.00313%float)); [| now intros []].
    intros _. exists create, cpu_avg, mem_avg, read, write.
    repeat split; reflexivity.
Qed.

End Nendb.

Lemma efficiency_raises (memgraph nendb : float) (e : Py.exn) :
  efficiency memgraph nendb = Py.Raised e -> e = Py.ZeroDivisionError.
Proof.
  unfold efficiency. destruct (Py.gt nendb 0); [apply ReportFacts.truediv_raises |].
  discriminate.
Qed.

Lemma per_unit_raises (create resource : float) (e : Py.exn) :
  per_unit create resource = Py.Raised e -> e = Py.ZeroDivisionError.
Proof.
  unfold per_unit. destruct (Py.gt resource 0); [apply ReportFacts.truediv_raises |].
  discriminate.
Qed.

(** One step through a [x ← m; k] of a computation known to raise: either
    [m] raised, by a division, or the rest did. *)
Ltac raised H :=
  match type of H with
  | mbind _ ?m = Py.Raised _ =>
      let E := fresh "E" in
      destruct m eqn:E; cbn [mbind outcome_bind Py.bind] in H;
      [| injection H as <-;
         first [ exact (ReportFacts.truediv_raises _ _ _ E)
               | exact (efficiency_raises _ _ _ E)
               | exact (per_unit_raises _ _ _ E)
               | (repeat match type of E with
                         | context [if ?b then _ else _] => destruct b
                         end);
                 first [ discriminate E
                       | match type of E with
                         | mbind _ ?m' = Py.Raised _ =>
                             let E' := fresh "E" in
                             destruct m' eqn:E';
                             cbn [mbind outcome_bind Py.bind] in E;
                             [discriminate E
                             | injection E as <-;
                               exact (ReportFacts.truediv_raises _ _ _ E')]
                         end ] ] ]
  end.

End ResourceFacts.

(** X22. The two benchmarks of resource_benchmark.py produce what its
    report consumes: on non-empty results of [benchmark_nendb_resources] and
    [benchmark_memgraph_resources] (their baselines measured by
    [monitor_resources]), [generate_resource_report] finds every entry it
    reads, as a number, so it raises neither [KeyError] nor [TypeError]; the
    only way it can fail is a division by zero. *)
Theorem resource_report_fails_only_by_division
    (py_float : string -> Py.outcome float)
    (memgraph : ResourceBenchmark.memgraph_run) (nendb : ResourceBenchmark.nendb_run)
    (memgraph_samples nendb_samples : ResourceBenchmark.samples) (e : Py.exn) :
  ResourceBenchmark.baseline memgraph = ResourceBenchmark.stats memgraph_samples ->
  ResourceBenchmark.nendb_baseline nendb = ResourceBenchmark.stats nendb_samples ->
  ResourceBenchmark.benchmark_memgraph_resources memgraph <> ∅ ->
  ResourceBenchmark.benchmark_nendb_resources py_float nendb <> ∅ ->
  ResourceBenchmark.generate_resource_report
    (ResourceBenchmark.benchmark_nendb_resources py_float nendb)
    (ResourceBenchmark.benchmark_memgraph_resources memgraph)
  = Py.Raised e ->
  e = Py.ZeroDivisionError.
Proof.
  intros Hmb Hnb Hm Hn.
  destruct (ResourceFacts.memgraph_reads _ _ Hmb Hm)
    as (mc & mcpu & mmem & mr & mw & Hm1 & Hm2 & Hm3 & Hm4 & Hm5).
  destruct (ResourceFacts.nendb_reads py_float _ _ Hnb Hn)
    as (nc & ncpu & nmem & nr & nw & Hn1 & Hn2 & Hn3 & Hn4 & Hn5).
  unfold ResourceBenchmark.generate_resource_report.
  rewrite Hn1, Hm1, Hn2, Hm2, Hn3, Hm3, Hn4, Hn5, Hm4, Hm5.
  cbn [mbind outcome_bind Py.bind]. intros H.
  repeat (ResourceFacts.raised H).
  discriminate H.
Qed.

(** Memgraph idle during its baseline (CPU average 0.0): the report stops
    at [1 / cpu_efficiency]. *)
Lemma resource_report_fails_only_by_division_witness :
  let memgraph_samples :=
    {| ResourceBenchmark.cpu_usage := [0; 0]%float;
       ResourceBenchmark.memory_usage := [7.5; 7.75]%float;
       ResourceBenchmark.disk_io := [(4096, 8192)];
       ResourceBenchmark.initial_disk := Some (0, 0) |} in
  let nendb_samples :=
    {| ResourceBenchmark.cpu_usage := [12.5; 14]%float;
       ResourceBenchmark.memory_usage := [7.5; 7.75]%float;
       ResourceBenchmark.disk_io := [(4096, 8192)];
       ResourceBenchmark.initial_disk := Some (0, 0) |} in
  let memgraph :=
    {| ResourceBenchmark.connect := Py.Returned tt;
       ResourceBenchmark.baseline := ResourceBenchmark.stats memgraph_samples;
       ResourceBenchmark.creation := Py.Returned 0.5%float;
       ResourceBenchmark.lookup := Py.Returned 0.25%float;
       ResourceBenchmark.cleanup := Py.Returned tt |} in
  let nendb :=
    {| ResourceBenchmark.nendb_baseline := ResourceBenchmark.stats nendb_samples;
       ResourceBenchmark.subprocess :=
         Py.Returned ("Average: 0.25 ms per insert" +:+ PyStr.newline +:+
                      "Average: 0.125 ms per lookup") |} in
  exists e,
    ResourceBenchmark.generate_resource_report
      (ResourceBenchmark.benchmark_nendb_resources Workload.decimal_float nendb)
      (ResourceBenchmark.benchmark_memgraph_resources memgraph)
    = Py.Raised e /\
    e = Py.ZeroDivisionError.
Proof.
  intros memgraph_samples nendb_samples memgraph nendb.
  exists Py.ZeroDivisionError. split; [reflexivity |].
  apply (resource_report_fails_only_by_division Workload.decimal_float
           memgraph nendb memgraph_samples nendb_samples).
  - reflexivity.
  - reflexivity.
  - apply (ProcessFacts.not_empty _ "environment" (Py.VStr "Docker Container")).
    reflexivity.
  - apply (ProcessFacts.not_empty _ "environment" (Py.VStr "Native macOS")).
    reflexivity.
  - reflexivity.
Defined.

Module SystemFacts.

Import AccurateResourceBenchmark.

(** The system-wide loop appends to both lists in every pass. *)
Lemma sample_system_lengths (start_time : float) (duration : Z)
    (trace : list system_reading) (cpu0 mem0 cpu mem : list float) :
  sample_system start_time duration trace cpu0 mem0 = Some (cpu, mem) ->
  exists passes,
    (passes <= length trace)%nat /\
    length cpu = (length cpu0 + passes)%nat /\
    length mem = (length mem0 + passes)%nat /\
    (match trace with
     | t :: _ => Spec.in_budget start_time duration (sys_clock t) = true
     | [] => False
     end -> (1 <= passes)%nat).
Proof.
  revert cpu0 mem0. induction trace as [| t rest IH]; intros cpu0 mem0;
    cbn [sample_system]; [discriminate |].
  unfold Spec.in_budget.
  destruct (PrimFloat.ltb _ _).
  - intros H. apply IH in H as (passes & Hle & Hc & Hm & _).
    exists (S passes). rewrite length_app in Hc, Hm. cbn [length] in *.
    repeat split; lia.
  - intros H. injection H as <- <-. exists 0%nat. cbn [length].
    repeat split; try lia; discriminate.
Qed.

End SystemFacts.

(** X23. As soon as one pass starts inside the time budget,
    [monitor_system_resources] returns its six statistics and does not
    raise (the [ZeroDivisionError] of [sum(...) / len(...)] needs an empty
    series); the CPU and the memory series have one sample per pass. *)
Theorem system_monitor_returns_after_one_pass (start_time : float) (duration : Z)
    (t : AccurateResourceBenchmark.system_reading)
    (rest : list AccurateResourceBenchmark.system_reading)
    (cpu_usage memory_usage : list float) :
  AccurateResourceBenchmark.sample_system start_time duration (t :: rest) [] []
    = Some (cpu_usage, memory_usage) ->
  Spec.in_budget start_time duration (AccurateResourceBenchmark.sys_clock t) = true ->
  Z.of_nat (length (t :: rest)) < 2 ^ 53 ->
  length cpu_usage = length memory_usage /\
  exists d,
    AccurateResourceBenchmark.monitor_system_resources start_time duration (t :: rest)
      = Some (Py.Returned d) /\
    dom d = ({["cpu_avg"; "cpu_max"; "cpu_min";
              "memory_avg_gb"; "memory_max_gb"; "memory_min_gb"]} : gset string).
Proof.
  intros Hloop Ht Hlen.
  destruct (SystemFacts.sample_system_lengths _ _ _ _ _ _ _ Hloop)
    as (passes & Hle & Hc & Hm & Hone).
  specialize (Hone Ht). cbn [length] in Hc, Hm, Hle.
  split; [lia |].
  unfold AccurateResourceBenchmark.monitor_system_resources. rewrite Hloop.
  unfold AccurateResourceBenchmark.system_stats.
  destruct cpu_usage as [| c cpu_usage]; [cbn [length] in Hc; lia |].
  destruct memory_usage as [| m memory_usage]; [cbn [length] in Hm; lia |].
  rewrite (AggregateFacts.average_returns (c :: cpu_usage))
    by (congruence || (cbn [length] in *; lia)).
  rewrite (AggregateFacts.average_returns (m :: memory_usage))
    by (congruence || (cbn [length] in *; lia)).
  cbn [Py.max Py.min mbind outcome_bind Py.bind mret outcome_ret].
  eexists. split; [reflexivity |].
  rewrite dom_list_to_map_L. cbn [fmap list_fmap fst]. set_solver.
Qed.

Lemma system_monitor_returns_after_one_pass_witness :
  let t := {| AccurateResourceBenchmark.sys_clock := 100%float;
              AccurateResourceBenchmark.sys_cpu_percent := 12.5%float;
              AccurateResourceBenchmark.sys_memory_used := 8589934592 |} in
  let rest := [{| AccurateResourceBenchmark.sys_clock := 131%float;
                  AccurateResourceBenchmark.sys_cpu_percent := 99%float;
                  AccurateResourceBenchmark.sys_memory_used := 0 |}] in
  length [12.5%float] = length [8%float] /\
  exists d,
    AccurateResourceBenchmark.monitor_system_resources 100%float 30 (t :: rest)
      = Some (Py.Returned d) /\
    dom d = ({["cpu_avg"; "cpu_max"; "cpu_min";
              "memory_avg_gb"; "memory_max_gb"; "memory_min_gb"]} : gset string).
Proof.
  intros t rest.
  apply (system_monitor_returns_after_one_pass 100%float 30 t rest [12.5%float] [8%float]);
    [reflexivity | reflexivity | cbn; lia].
Defined.

(** X24. As soon as one pass starts inside the time budget,
    [monitor_resources] returns its eight statistics and does not raise:
    the [StatisticsError] of [statistics.mean] needs an empty series. *)
Theorem resource_monitor_returns_after_one_pass (initial_disk : option (Z * Z))
    (start_time : float) (duration : Z) (t : ResourceBenchmark.reading)
    (rest : list ResourceBenchmark.reading) (r : Py.outcome Py.dict) :
  ResourceBenchmark.monitor_resources initial_disk start_time duration (t :: rest) = Some r ->
  Spec.in_budget start_time duration (ResourceBenchmark.clock t) = true ->
  exists d,
    r = Py.Returned d /\
    dom d = ({["cpu_avg"; "cpu_max"; "cpu_min";
              "memory_avg_gb"; "memory_max_gb"; "memory_min_gb";
              "disk_read_total_mb"; "disk_write_total_mb"]} : gset string).
Proof.
  unfold ResourceBenchmark.monitor_resources.
  destruct (ResourceBenchmark.sample _ _ _ _) as [s |] eqn:Hs; [| discriminate].
  intros H Ht. injection H as <-.
  destruct (MonitorFacts.sample_series _ _ _ _ _ Hs) as [Hc Hm].
  cbn [Spec.sampled] in Hc, Hm. rewrite Ht in Hc, Hm.
  cbn [ResourceBenchmark.cpu_usage ResourceBenchmark.memory_usage app map] in Hc, Hm.
  unfold ResourceBenchmark.stats. rewrite Hc, Hm.
  cbn [Py.statistics_mean Py.max Py.min mbind outcome_bind Py.bind mret outcome_ret].
  destruct (Py.scaled_total _); destruct (Py.scaled_total _);
    cbn [mbind outcome_bind Py.bind mret outcome_ret];
    (eexists; split; [reflexivity |]);
    rewrite dom_list_to_map_L; cbn [fmap list_fmap fst]; set_solver.
Qed.

Lemma resource_monitor_returns_after_one_pass_witness :
  let trace := [
    {| ResourceBenchmark.clock := 100%float; ResourceBenchmark.cpu_percent := 12.5%float;
       ResourceBenchmark.memory_used := 8589934592; ResourceBenchmark.disk := None |};
    {| ResourceBenchmark.clock := 111%float; ResourceBenchmark.cpu_percent := 99%float;
       ResourceBenchmark.memory_used := 0; ResourceBenchmark.disk := None |}] in
  exists r d,
    ResourceBenchmark.monitor_resources None 100%float 10 trace = Some r /\
    r = Py.Returned d /\
    dom d = ({["cpu_avg"; "cpu_max"; "cpu_min";
              "memory_avg_gb"; "memory_max_gb"; "memory_min_gb";
              "disk_read_total_mb"; "disk_write_total_mb"]} : gset string).
Proof.
  intros trace.
  pose (r := ResourceBenchmark.stats
               {| ResourceBenchmark.cpu_usage := [12.5%float];
                  ResourceBenchmark.memory_usage := [8%float];
                  ResourceBenchmark.disk_io := [];
                  ResourceBenchmark.initial_disk := None |}).
  destruct (resource_monitor_returns_after_one_pass None 100%float 10
              {| ResourceBenchmark.clock := 100%float;
                 ResourceBenchmark.cpu_percent := 12.5%float;
                 ResourceBenchmark.memory_used := 8589934592;
                 ResourceBenchmark.disk := None |}
              [{| ResourceBenchmark.clock := 111%float;
                  ResourceBenchmark.cpu_percent := 99%float;
                  ResourceBenchmark.memory_used := 0;
                  ResourceBenchmark.disk := None |}]
              r eq_refl eq_refl) as (d & Hr & Hd).
  exists r, d. split; [reflexivity |]. split; [exact Hr | exact Hd].
Defined.

(** * What the printed reports always or never show *)

Module LineFacts.

Lemma last_app_cons {A} (l : list A) (x : A) (l' : list A) :
  last (l ++ x :: l') = last (x :: l').
Proof.
  induction l as [| y l IH]; [reflexivity |].
  cbn [app]. rewrite <- IH. destruct (l ++ x :: l') eqn:E; [| reflexivity].
  now destruct l.
Qed.

(** A non-empty result of [benchmark_memgraph_accurate] has the process
    memory entry. *)
Lemma accurate_memgraph_has_mb (run : AccurateResourceBenchmark.memgraph_run) :
  AccurateResourceBenchmark.benchmark_memgraph_accurate run <> ∅ ->
  exists v,
    AccurateResourceBenchmark.benchmark_memgraph_accurate run !! "memory_avg_mb" = Some v.
Proof.
  unfold AccurateResourceBenchmark.benchmark_memgraph_accurate.
  destruct (AccurateResourceBenchmark.neo4j_import run); [| now intros []].
  cbn [mbind outcome_bind Py.bind].
  destruct (AccurateResourceBenchmark.find_memgraph_process _) as [p |]; [| now intros []].
  destruct (AccurateResourceBenchmark.connect run); [| now intros []].
  cbn [mbind outcome_bind Py.bind].
  destruct (AccurateResourceBenchmark.monitor run p) as [baseline |]; [| now intros []].
  cbn [mbind outcome_bind Py.bind].
  destruct (negb (Py.dict_truthy baseline)); [now intros [] |].
  destruct (AccurateResourceBenchmark.creation run) as [creation_time |]; [| now intros []].
  cbn [mbind outcome_bind Py.bind].
  destruct (AccurateResourceBenchmark.cleanup run); [| now intros []].
  cbn [mbind outcome_bind Py.bind].
  destruct (Py.truediv 10000 creation_time); [| now intros []].
  cbn [mbind outcome_bind Py.bind].
  destruct (Py.number baseline "cpu_avg"); [| now intros []].
  destruct (Py.number baseline "memory_avg_mb"); [| now intros []].
  cbn [mbind outcome_bind Py.bind]. unfold Py.getitem.
  destruct (baseline !! "cpu_avg") as [cpu_avg |]; [| now intros []].
  destruct (baseline !! "cpu_max") as [cpu_max |]; [| now intros []].
  destruct (baseline !! "memory_avg_mb") as [memory_avg_mb |]; [| now intros []].
  destruct (baseline !! "memory_max_mb") as [memory_max_mb |]; [| now intros []].
  intros _. now exists memory_avg_mb.
Qed.

End LineFacts.

(** X25. On a result of [benchmark_memgraph_accurate] the accurate report
    always takes the branch [if 'memory_avg_mb' in self.memgraph_results]:
    whenever it is printed, Memgraph's memory is shown in MB of the process
    next to NenDB's memory in GB of the system, and the line that would show
    Memgraph's memory in GB is never printed. *)
Theorem accurate_report_shows_process_memory
    (run : AccurateResourceBenchmark.memgraph_run) (nendb_results : Py.dict)
    (report : list Out.line) :
  AccurateResourceBenchmark.generate_accurate_report
    (AccurateResourceBenchmark.benchmark_memgraph_accurate run) nendb_results
  = Py.Returned report ->
  exists nendb_mem memgraph_mem,
    Py.number nendb_results "memory_avg_gb" = Py.Returned nendb_mem /\
    Py.number (AccurateResourceBenchmark.benchmark_memgraph_accurate run) "memory_avg_mb"
      = Py.Returned memgraph_mem /\
    In [Out.Lit "     NenDB:     "; Out.Num ">6.2f" nendb_mem; Out.Lit " GB (system)"]
       report /\
    In [Out.Lit "     Memgraph:  "; Out.Num ">6.1f" memgraph_mem; Out.Lit " MB (process)"]
       report /\
    forall x,
      ~ In [Out.Lit "     Memgraph:  "; Out.Num ">6.2f" x; Out.Lit " GB (system)"] report.
Proof.
  intros H.
  assert (Hne : AccurateResourceBenchmark.benchmark_memgraph_accurate run <> ∅).
  { intros Hempty. rewrite Hempty in H.
    unfold AccurateResourceBenchmark.generate_accurate_report in H.
    destruct (Py.number nendb_results "creation_rate");
      cbn [mbind outcome_bind Py.bind] in H; [| discriminate H].
    rewrite ReportFacts.number_empty in H. discriminate H. }
  destruct (LineFacts.accurate_memgraph_has_mb run Hne) as [v Hv].
  set (m := AccurateResourceBenchmark.benchmark_memgraph_accurate run) in *.
  unfold AccurateResourceBenchmark.generate_accurate_report in H.
  rewrite Hv in H.
  do 5 RatioFacts.returned H.
  destruct (Py.number m "memory_avg_mb") as [memgraph_mem |] eqn:Hm;
    cbn [mbind outcome_bind Py.bind] in H; [| discriminate H].
  destruct (Py.number nendb_results "memory_avg_gb") as [nendb_mem |] eqn:Hn;
    cbn [mbind outcome_bind Py.bind mret outcome_ret] in H; [| discriminate H].
  injection H as <-.
  exists nendb_mem, memgraph_mem.
  split; [reflexivity |]. split; [reflexivity |]. split; [| split].
  - do 12 right. left. reflexivity.
  - do 13 right. left. reflexivity.
  - intros x Hin. cbn [app In] in Hin.
    repeat (destruct Hin as [Hin | Hin]; [discriminate Hin |]). exact Hin.
Qed.

Lemma accurate_report_shows_process_memory_witness :
  let p := {| AccurateResourceBenchmark.pid := 4242;
              AccurateResourceBenchmark.name := Some "memgraph";
              AccurateResourceBenchmark.cmdline := None |} in
  let run := {| AccurateResourceBenchmark.neo4j_import := Py.Returned tt;
                AccurateResourceBenchmark.processes := [p];
                AccurateResourceBenchmark.connect := Py.Returned tt;
                AccurateResourceBenchmark.monitor :=
                  fun _ => AccurateResourceBenchmark.process_stats
                             [10; 20]%float [512; 512]%float;
                AccurateResourceBenchmark.creation := Py.Returned 0.5%float;
                AccurateResourceBenchmark.cleanup := Py.Returned tt |} in
  let nendb_results : Py.dict := list_to_map [
    ("creation_rate", Py.VFloat 4000%float);
    ("cpu_avg", Py.VFloat 12.5%float);
    ("memory_avg_gb", Py.VFloat 7.5%float)] in
  let printed :=
    AccurateResourceBenchmark.generate_accurate_report
      (AccurateResourceBenchmark.benchmark_memgraph_accurate run) nendb_results in
  let report := match printed with Py.Returned lines => lines | Py.Raised _ => [] end in
  printed = Py.Returned report /\
  In [Out.Lit "     NenDB:     "; Out.Num ">6.2f" 7.5%float; Out.Lit " GB (system)"]
     report /\
  In [Out.Lit "     Memgraph:  "; Out.Num ">6.1f" 512%float; Out.Lit " MB (process)"]
     report.
Proof.
  intros p run nendb_results printed report.
  assert (H : printed = Py.Returned report) by reflexivity.
  destruct (accurate_report_shows_process_memory run nendb_results report H)
    as (nendb_mem & memgraph_mem & Hn & Hm & Hin_n & Hin_m & _).
  assert (Hn' : Py.number nendb_results "memory_avg_gb" = Py.Returned 7.5%float)
    by reflexivity.
  assert (Hm' : Py.number (AccurateResourceBenchmark.benchmark_memgraph_accurate run)
                  "memory_avg_mb" = Py.Returned 512%float) by reflexivity.
  rewrite Hn' in Hn. rewrite Hm' in Hm. injection Hn as <-. injection Hm as <-.
  split; [exact H |]. split; [exact Hin_n | exact Hin_m].
Defined.

(** ** The findings of the resource report *)

Module FindingFacts.

Lemma last_cons_nonempty {A} (x : A) (l : list A) :
  l <> [] -> last (x :: l) = last l.
Proof. now destruct l. Qed.

Lemma last_app_nonempty {A} (l f : list A) :
  f <> [] -> last (l ++ f) = last f.
Proof.
  intros Hf. induction l as [| y l IH]; [reflexivity |].
  cbn [app]. rewrite last_cons_nonempty; [exact IH |].
  intros E. apply app_eq_nil in E. now destruct E.
Qed.

Lemma app_nonempty {A} (l f : list A) : f <> [] -> l ++ f <> [].
Proof. intros Hf E. apply app_eq_nil in E. now destruct E. Qed.

(** The six [score += 1] statements against the five [findings.append]
    statements and the fallback line. *)
Lemma findings_against_score (b1 b2 b3 b4 b5 b6 : bool)
    (l1 l2 l3 l4 l5 fallback : Out.line) :
  let score :=
    Py.credit b6 (Py.credit b5 (Py.credit b4 (Py.credit b3 (Py.credit b2
      (Py.credit b1 0))))) in
  let findings :=
    ResourceBenchmark.note b5 l5 (ResourceBenchmark.note b4 l4
      (ResourceBenchmark.note b3 l3 (ResourceBenchmark.note b2 l2
        (ResourceBenchmark.note b1 l1 [])))) in
  let shown := match findings with [] => [fallback] | _ => findings end in
  shown <> [] /\
  0 <= score <= 6 /\
  (score = 0 -> last shown = Some fallback) /\
  (l1 <> fallback -> l2 <> fallback -> l3 <> fallback -> l4 <> fallback ->
   l5 <> fallback -> last shown = Some fallback -> score <= 1).
Proof.
  unfold Py.credit, ResourceBenchmark.note.
  destruct b1, b2, b3, b4, b5, b6; cbn [app last];
    (split; [discriminate |]); (split; [lia |]); (split; [intros; try lia; reflexivity |]);
    intros H1 H2 H3 H4 H5 Hl; try lia; exfalso; injection Hl as Hl; congruence.
Qed.

End FindingFacts.

(** X26. In the resource report the findings agree with the score: the
    score line shows a score between 0 and 6; when the score is 0 the report
    ends with "No clear resource advantages identified"; and when the report
    ends with that line, the score it shows is 0 or 1 (the disk point, which
    has no finding of its own). *)
Theorem no_advantages_line_means_low_score (nendb_results memgraph_results : Py.dict)
    (report : list Out.line) :
  ResourceBenchmark.generate_resource_report nendb_results memgraph_results
  = Py.Returned report ->
  let no_advantages :=
    [Out.Lit "   "; Out.Lit "⚠️  No clear resource advantages identified"] in
  exists score percentage,
    In [Out.Lit "Resource Efficiency Score: "; Out.Int score; Out.Lit "/";
        Out.Int 6; Out.Lit " ("; Out.Num ".1f" percentage; Out.Lit "%)"] report /\
    0 <= score <= 6 /\
    (score = 0 -> last report = Some no_advantages) /\
    (last report = Some no_advantages -> score <= 1).
Proof.
  intros H. unfold ResourceBenchmark.generate_resource_report in H.
  do 21 RatioFacts.returned H.
  injection H as <-. intros no_advantages.
  destruct (FindingFacts.findings_against_score
              (Py.gt a a0) (Py.lt a2 a3) (Py.lt a6 a7) (Py.gt a10 a11) (Py.gt a13 a14)
              (Py.lt (PrimFloat.add a16 a17) (PrimFloat.add a18 a19))
              [Out.Lit "   "; Out.Lit "✅ NenDB: "; Out.Num ".1f" a1;
               Out.Lit "x higher throughput"]
              [Out.Lit "   "; Out.Lit "✅ NenDB: "; Out.Num ".1f" a4;
               Out.Lit "x more CPU efficient"]
              [Out.Lit "   "; Out.Lit "✅ NenDB: "; Out.Num ".1f" a8;
               Out.Lit "x more memory efficient"]
              [Out.Lit "   "; Out.Lit "✅ NenDB: Better performance per CPU cycle"]
              [Out.Lit "   "; Out.Lit "✅ NenDB: Better performance per memory unit"]
              no_advantages)
    as (Hshown & Hrange & Hzero & Hlast).
  eexists _, _. split; [| split; [| split]].
  - repeat first [left; reflexivity | right | apply in_or_app; right].
  - exact Hrange.
  - intros Hs.
    repeat first
      [ rewrite FindingFacts.last_app_nonempty
          by (repeat first [discriminate | exact Hshown | apply FindingFacts.app_nonempty])
      | rewrite FindingFacts.last_cons_nonempty
          by (repeat first [discriminate | exact Hshown | apply FindingFacts.app_nonempty]) ].
    exact (Hzero Hs).
  - repeat first
      [ rewrite FindingFacts.last_app_nonempty
          by (repeat first [discriminate | exact Hshown | apply FindingFacts.app_nonempty])
      | rewrite FindingFacts.last_cons_nonempty
          by (repeat first [discriminate | exact Hshown | apply FindingFacts.app_nonempty]) ].
    apply Hlast; discriminate.
Qed.

Lemma no_advantages_line_means_low_score_witness :
  let results : Py.dict := list_to_map [
    ("creation_rate", Py.VFloat 2500%float);
    ("cpu_avg", Py.VFloat 12.5%float);
    ("memory_avg_gb", Py.VFloat 7.5%float);
    ("disk_read_mb", Py.VFloat 0.5%float);
    ("disk_write_mb", Py.VFloat 1.25%float)] in
  let printed := ResourceBenchmark.generate_resource_report results results in
  let report := match printed with Py.Returned lines => lines | Py.Raised _ => [] end in
  printed = Py.Returned report /\
  last report
  = Some [Out.Lit "   "; Out.Lit "⚠️  No clear resource advantages identified"] /\
  exists score percentage,
    In [Out.Lit "Resource Efficiency Score: "; Out.Int score; Out.Lit "/";
        Out.Int 6; Out.Lit " ("; Out.Num ".1f" percentage; Out.Lit "%)"] report /\
    0 <= score <= 1.
Proof.
  intros results printed report.
  assert (H : printed = Py.Returned report) by reflexivity.
  assert (Hl : last report
               = Some [Out.Lit "   ";
                       Out.Lit "⚠️  No clear resource advantages identified"])
    by reflexivity.
  destruct (no_advantages_line_means_low_score results results report H)
    as (score & percentage & Hin & Hrange & _ & Hlow).
  split; [exact H |]. split; [exact Hl |].
  exists score, percentage. split; [exact Hin |].
  split; [apply Hrange | exact (Hlow Hl)].
Defined.
